(** * Confidential clean room backend: workflow controller and metadata service

    A shallow embedding of the TypeScript backend
    ([controllers/workflow.controller.ts], [controllers/storage.controller.ts],
    [services/bigquery.service.ts], [services/storage.service.ts], [config],
    [types]) and the properties of its workflow lifecycle: the approval gate,
    the per-owner dataset/key join, the executor dispatch and the
    reconciliation of its outcome into the workflow status.

    Every [async] function of the source is a function from the metadata
    store to an outcome (a value or a thrown error), the store afterwards and
    the external calls it issued, in order. *)

From stdpp Require Import gmap strings list fin_maps sorting.
From Stdlib Require Import Ascii.

Local Open Scope stdpp_scope.

(** ** Types ([types/index.ts]) *)

Inductive WorkflowStatus : Type :=
| PENDING_APPROVAL
| APPROVED
| REJECTED
| RUNNING
| COMPLETED
| FAILED.

#[global] Instance WorkflowStatus_eq_dec : EqDecision WorkflowStatus.
Proof. solve_decision. Defined.

(** Instants of time (BigQuery [TIMESTAMP] columns, [new Date()]). *)
Abbreviation Timestamp := nat.

(** Field names are prefixed by the interface they belong to, as several
    interfaces of the source share [workflow_id], [owner], [gcs_path] and
    [created_at]. *)
Record Workflow : Type := {
  w_workflow_id : string;
  w_creator : string;
  w_collaborators : list string;
  w_workload_path : string;
  w_status : WorkflowStatus;
  w_created_at : Timestamp;
  w_updated_at : option Timestamp
}.

Record WorkflowApproval : Type := {
  a_workflow_id : string;
  a_approver : string;
  a_approved : bool;
  a_approved_at : Timestamp
}.

Record Dataset : Type := {
  d_dataset_id : string;
  d_workflow_id : string;
  d_owner : string;
  d_filename : string;
  d_gcs_path : string;
  d_created_at : Timestamp
}.

Record WrappedKey : Type := {
  k_key_id : string;
  k_dataset_id : string;
  k_workflow_id : string;
  k_owner : string;
  k_gcs_path : string;
  k_created_at : Timestamp
}.

Record ExecutionResult : Type := {
  r_id : string;
  r_workflow_id : string;
  r_executed_notebook_path : string;
  r_result_path : string;
  r_created_at : Timestamp
}.

Record DatasetSpec : Type := {
  owner : string;
  ciphertext_gcs : string;
  wrapped_dek_gcs : string
}.

Record ExecuteRequest : Type := {
  x_workflow_id : string;
  workload_gcs : string;
  datasets : list DatasetSpec;
  result_base : string;
  executed_notebook_base : string
}.

(** The fields of the executor's answer that the controller reads;
    [result_paths] may be missing (the controller reads it as
    [resultInfo.result_paths || []]). *)
Record ExecuteResponse : Type := {
  executed_notebook_path : string;
  result_paths : option (list string)
}.

Record ResultWithUrl : Type := {
  u_result_path : string;
  u_executed_notebook_path : string;
  u_created_at : Timestamp;
  download_url : string
}.

Record DashboardStats : Type := {
  total_workflows : nat;
  active_workflows : nat;
  completed_workflows : nat;
  total_datasets : nat;
  total_results : nat;
  recent_workflows : list Workflow
}.

(** ** Configuration ([config/index.ts]) *)

Record Config : Type := {
  gcp_bucket : string;
  executor_url : string;
  results_pathPrefix : string;
  workload_fixedPath : string
}.

Definition config : Config := {|
  gcp_bucket := "yellowsense-technologies-cleanroom";
  executor_url := "http://localhost:8443";
  results_pathPrefix := "results";
  workload_fixedPath :=
    "gs://yellowsense-technologies-cleanroom/workloads/fraud-detector.ipynb"
|}.

(** ** The metadata store

    One table per owner and entity, named [{owner}{suffix}], and one shared
    results table.  With the configured suffixes ([_workflows],
    [_workflow_approvals], [_datasets], [_keys]) no two of these names
    coincide, so each kind of table is a map from the owner to its rows, in
    insertion order. *)

Record Store : Type := {
  workflows : gmap string (list Workflow);
  approvals : gmap string (list WorkflowApproval);
  dataset_rows : gmap string (list Dataset);
  key_rows : gmap string (list WrappedKey);
  results : list ExecutionResult
}.

Definition empty_store : Store := {|
  workflows := ∅; approvals := ∅; dataset_rows := ∅; key_rows := ∅;
  results := []
|}.

Definition table {A : Type} (m : gmap string (list A)) (o : string) : list A :=
  default [] (m !! o).

Definition insert_row {A : Type} (o : string) (row : A)
    (m : gmap string (list A)) : gmap string (list A) :=
  <[o := table m o ++ [row]]> m.

(** [ORDER BY key DESC]: rows with a later instant come first. *)
Definition later_first {A : Type} (key : A → Timestamp) : relation A :=
  λ x y, key y ≤ key x.

#[global] Instance later_first_dec {A : Type} (key : A → Timestamp) (x y : A) :
  Decision (later_first key x y).
Proof. unfold later_first. apply _. Defined.

Definition order_by_desc {A : Type} (key : A → Timestamp) (rows : list A)
    : list A :=
  merge_sort (later_first key) rows.

(** ** External calls and their outcomes *)

Inductive StoreOp : Type :=
| BqCreateWorkflow (creator workflowId : string)
| BqGetWorkflow (workflowId creator : string)
| BqUpdateWorkflowStatus (workflowId creator : string) (status : WorkflowStatus)
| BqApproveWorkflow (workflowId clientId : string)
| BqIsWorkflowApproved (workflowId clientId : string)
| BqInsertDataset (owner datasetId : string)
| BqInsertKey (owner datasetId : string)
| BqGetDatasets (workflowId owner : string)
| BqGetKeys (workflowId owner : string)
| BqInsertResults (rows : list ExecutionResult)
| BqGetResults (workflowId : string)
| BqCountWorkflows (userId : string)
| BqCountActiveWorkflows (userId : string)
| BqCountCompletedWorkflows (userId : string)
| BqCountDatasets (userId : string)
| BqCountResults
| BqRecentWorkflows (userId : string)
| BqGetAllWorkflows (userId : string).

Inductive Event : Type :=
| EvStore (op : StoreOp)
| EvExecute (url : string) (payload : ExecuteRequest) (timeout_ms : N)
| EvFileExists (gcsPath : string)
| EvSignedUrl (objectName : string)
| EvSignedReadUrl (bucket objectPath : string)
| EvUploadFile (localPath gcsPath : string)
| EvGet (url : string) (timeout_ms : N).

Inductive Outcome (A : Type) : Type :=
| Ok (a : A)
| Throw (message : string).
Arguments Ok {A} a.
Arguments Throw {A} message.

(** What lies outside the backend during one request: which BigQuery calls
    reject (and with which message), what the executor answers to
    [POST /execute] (a rejection covers a non-2xx answer, a network error and
    the client-side timeout alike) and to its [GET] routes (an opaque
    payload), which objects exist in the bucket, the signed-URL and upload
    calls, the two clocks and the [uuidv4] generator (indexed by the number
    of the call), and which of several rejections reaches [Promise.all]
    first (given in the order of the list).  Within one request a call
    repeated with the same arguments has the same outcome; each request has
    an environment of its own. *)
Record Env : Type := {
  store_fault : StoreOp → option string;
  executor : ExecuteRequest → Outcome ExecuteResponse;
  executor_get : string → Outcome string;
  file_exists : string → bool;
  signed_url : string → Outcome string;
  signed_read_url : string → string → Outcome string;
  upload_fault : string → option string;
  now : Timestamp;
  current_timestamp : Timestamp;
  uuidv4 : nat → string;
  first_rejection : list string → string
}.

(** ** Asynchronous computations *)

Record Run (A : Type) : Type := MkRun {
  outcome : Outcome A;
  store_after : Store;
  events : list Event
}.
Arguments MkRun {A} outcome store_after events.
Arguments outcome {A} r.
Arguments store_after {A} r.
Arguments events {A} r.

Definition Async (A : Type) : Type := Store → Run A.

Definition ret {A : Type} (a : A) : Async A := λ s, MkRun (Ok a) s [].

Definition throw {A : Type} (message : string) : Async A :=
  λ s, MkRun (Throw message) s [].

(** The run [r] with the events [evs] issued before it. *)
Definition after {A : Type} (evs : list Event) (r : Run A) : Run A :=
  match r with
  | MkRun o s evs' => MkRun o s (evs ++ evs')
  end.

Definition bind {A B : Type} (m : Async A) (k : A → Async B) : Async B :=
  λ s,
    match m s with
    | MkRun (Ok a) s' evs => after evs (k a s')
    | MkRun (Throw e) s' evs => MkRun (Throw e) s' evs
    end.

(** [try { m } catch (error) { h error.message }]. *)
Definition try_catch {A : Type} (m : Async A) (h : string → Async A) : Async A :=
  λ s,
    match m s with
    | MkRun (Ok a) s' evs => MkRun (Ok a) s' evs
    | MkRun (Throw e) s' evs => after evs (h e s')
    end.

(** The computations [ms], all started, in the order of the list: their
    outcomes, the store they leave and the calls they have issued. *)
Fixpoint settle_all {A : Type} (ms : list (Async A)) (s : Store)
    : list (Outcome A) * Store * list Event :=
  match ms with
  | [] => ([], s, [])
  | m :: rest =>
      match m s with
      | MkRun o s' evs =>
          let '(os, s'', evs') := settle_all rest s' in
          (o :: os, s'', evs ++ evs')
      end
  end.

Definition fulfilled {A : Type} (os : list (Outcome A)) : list A :=
  omap (λ o, match o with Ok a => Some a | Throw _ => None end) os.

Definition rejections {A : Type} (os : list (Outcome A)) : list string :=
  omap (λ o, match o with Ok _ => None | Throw e => Some e end) os.

(** [Promise.all(ms)]: fulfils with the list of the values when every
    computation fulfils, and rejects when one rejects, with the rejection
    that comes first. *)
Definition promise_all {A : Type} (env : Env) (ms : list (Async A))
    : Async (list A) :=
  λ s,
    let '(os, s', evs) := settle_all ms s in
    MkRun
      match rejections os with
      | [] => Ok (fulfilled os)
      | e :: es => Throw (first_rejection env (e :: es))
      end
      s' evs.

Notation "x <- m ;; k" := (bind m (λ x, k))
  (at level 100, m at next level, right associativity, only parsing).
Notation "m ;;; k" := (bind m (λ _, k))
  (at level 100, right associativity, only parsing).

(** ** JavaScript helpers *)

(** [!x] for a string that may be [undefined]: the empty string is falsy. *)
Definition falsy (x : option string) : bool :=
  match x with
  | None => true
  | Some s => bool_decide (s = "")
  end.

(** [s.split(',')]. *)
Fixpoint split_comma (s : string) : list string :=
  match s with
  | EmptyString => [EmptyString]
  | String c s' =>
      if Ascii.eqb c "," then EmptyString :: split_comma s'
      else match split_comma s' with
           | [] => [String c EmptyString]
           | x :: xs => String c x :: xs
           end
  end.

(** White space removed by [trim], for strings of one-byte characters:
    tab, line feed, vertical tab, form feed, carriage return, space. *)
Definition is_space (c : ascii) : bool :=
  let n := nat_of_ascii c in
  (Nat.leb 9 n && Nat.leb n 13) || Nat.eqb n 32.

Fixpoint trim_start (s : string) : string :=
  match s with
  | EmptyString => EmptyString
  | String c s' => if is_space c then trim_start s' else s
  end.

Fixpoint trim_end (s : string) : string :=
  match s with
  | EmptyString => EmptyString
  | String c s' =>
      match trim_end s' with
      | EmptyString => if is_space c then EmptyString else String c EmptyString
      | t => String c t
      end
  end.

Definition trim (s : string) : string := trim_end (trim_start s).

(** [s.split(sep)] for a separator of one character. *)
Fixpoint split_char (sep : ascii) (s : string) : list string :=
  match s with
  | EmptyString => [EmptyString]
  | String c s' =>
      if Ascii.eqb c sep then EmptyString :: split_char sep s'
      else match split_char sep s' with
           | [] => [String c EmptyString]
           | x :: xs => String c x :: xs
           end
  end.

(** [s.substring(n)]: the string without its first [n] characters, empty
    when it has fewer. *)
Fixpoint substring_from (n : nat) (s : string) : string :=
  match n, s with
  | 0, _ => s
  | S _, EmptyString => EmptyString
  | S n', String _ s' => substring_from n' s'
  end.

(** [s.includes(c)] for one character. *)
Fixpoint contains_char (c : ascii) (s : string) : bool :=
  match s with
  | EmptyString => false
  | String c' s' => Ascii.eqb c' c || contains_char c s'
  end.

(** [l.join(',')]. *)
Fixpoint join_comma (l : list string) : string :=
  match l with
  | [] => ""
  | [x] => x
  | x :: rest => x +:+ "," +:+ join_comma rest
  end.

(** ** [services/bigquery.service.ts] *)

Module bigqueryService.
Section Service.
Context (env : Env).

(** [await this.bigquery.query(options)] and [table.insert(rows)]: the call
    is issued, and either rejects with the library's message, leaving the
    tables as they were, or takes effect.  The effect [f] is the one the
    statement has on the table of the owner it is issued for; where the text
    of the query embeds a string of the caller, that is its effect for the
    strings that are [identifier_like] (see there). *)
Definition bq_read {A : Type} (op : StoreOp) (f : Store → A) : Async A :=
  λ s,
    match store_fault env op with
    | Some e => MkRun (Throw e) s [EvStore op]
    | None => MkRun (Ok (f s)) s [EvStore op]
    end.

Definition bq_write (op : StoreOp) (f : Store → Store) : Async unit :=
  λ s,
    match store_fault env op with
    | Some e => MkRun (Throw e) s [EvStore op]
    | None => MkRun (Ok tt) (f s) [EvStore op]
    end.

Definition insert_workflow (row : Workflow) (s : Store) : Store := {|
  workflows := insert_row (w_creator row) row (workflows s);
  approvals := approvals s;
  dataset_rows := dataset_rows s;
  key_rows := key_rows s;
  results := results s
|}.

Definition createWorkflow (workflow : Workflow) : Async unit :=
  let rows := {|
    w_workflow_id := w_workflow_id workflow;
    w_creator := w_creator workflow;
    w_collaborators := w_collaborators workflow;
    w_workload_path := w_workload_path workflow;
    w_status := w_status workflow;
    w_created_at := w_created_at workflow;
    w_updated_at := None
  |} in
  try_catch
    (bq_write (BqCreateWorkflow (w_creator workflow) (w_workflow_id workflow))
       (insert_workflow rows))
    (λ e, throw ("Failed to insert workflow: " +:+ e)).

(** [SELECT * FROM {creator}_workflows WHERE workflow_id = @workflow_id]. *)
Definition select_workflow (workflowId creator : string) (s : Store) : list Workflow :=
  filter (λ row, w_workflow_id row = workflowId) (table (workflows s) creator).

Definition getWorkflow (workflowId creator : string) : Async (option Workflow) :=
  try_catch
    (rows <- bq_read (BqGetWorkflow workflowId creator)
               (select_workflow workflowId creator) ;;
     match rows with
     | [] => ret None
     | row :: _ => ret (Some row)
     end)
    (λ e, throw ("Failed to get workflow: " +:+ e)).

(** [UPDATE {creator}_workflows SET status = @status,
    updated_at = CURRENT_TIMESTAMP() WHERE workflow_id = @workflow_id]. *)
Definition set_status (workflowId : string) (status : WorkflowStatus)
    (row : Workflow) : Workflow :=
  if decide (w_workflow_id row = workflowId) then
    {| w_workflow_id := w_workflow_id row;
       w_creator := w_creator row;
       w_collaborators := w_collaborators row;
       w_workload_path := w_workload_path row;
       w_status := status;
       w_created_at := w_created_at row;
       w_updated_at := Some (current_timestamp env) |}
  else row.

Definition update_status (workflowId creator : string) (status : WorkflowStatus)
    (s : Store) : Store := {|
  workflows :=
    match workflows s !! creator with
    | Some rows => <[creator := set_status workflowId status <$> rows]> (workflows s)
    | None => workflows s
    end;
  approvals := approvals s;
  dataset_rows := dataset_rows s;
  key_rows := key_rows s;
  results := results s
|}.

Definition updateWorkflowStatus (workflowId creator : string)
    (status : WorkflowStatus) : Async unit :=
  try_catch
    (bq_write (BqUpdateWorkflowStatus workflowId creator status)
       (update_status workflowId creator status))
    (λ e, throw ("Failed to update workflow status: " +:+ e)).

Definition insert_approval (row : WorkflowApproval) (s : Store) : Store := {|
  workflows := workflows s;
  approvals := insert_row (a_approver row) row (approvals s);
  dataset_rows := dataset_rows s;
  key_rows := key_rows s;
  results := results s
|}.

Definition approveWorkflow (workflowId clientId : string) : Async unit :=
  try_catch
    (bq_write (BqApproveWorkflow workflowId clientId)
       (insert_approval {| a_workflow_id := workflowId;
                           a_approver := clientId;
                           a_approved := true;
                           a_approved_at := current_timestamp env |}))
    (λ e, throw ("Failed to approve workflow: " +:+ e)).

(** [SELECT * FROM {clientId}_workflow_approvals WHERE workflow_id =
    @workflow_id ORDER BY approved_at DESC LIMIT 1]. *)
Definition select_latest_approval (workflowId clientId : string) (s : Store)
    : list WorkflowApproval :=
  take 1 (order_by_desc a_approved_at
            (filter (λ row, a_workflow_id row = workflowId)
               (table (approvals s) clientId))).

Definition isWorkflowApproved (workflowId clientId : string) : Async bool :=
  try_catch
    (rows <- bq_read (BqIsWorkflowApproved workflowId clientId)
               (select_latest_approval workflowId clientId) ;;
     match rows with
     | [] => ret false
     | row :: _ => ret (bool_decide (a_approved row = true))
     end)
    (λ _, ret false).

Definition insert_dataset_row (row : Dataset) (s : Store) : Store := {|
  workflows := workflows s;
  approvals := approvals s;
  dataset_rows := insert_row (d_owner row) row (dataset_rows s);
  key_rows := key_rows s;
  results := results s
|}.

Definition insertDataset (dataset : Dataset) : Async unit :=
  try_catch
    (bq_write (BqInsertDataset (d_owner dataset) (d_dataset_id dataset))
       (insert_dataset_row dataset))
    (λ e, throw ("Failed to insert dataset: " +:+ e)).

(** The keys table has no [key_id] column: the row stores [dataset_id], and
    [getKeys] reads [key_id] back from it. *)
Definition insert_key_row (row : WrappedKey) (s : Store) : Store := {|
  workflows := workflows s;
  approvals := approvals s;
  dataset_rows := dataset_rows s;
  key_rows :=
    insert_row (k_owner row)
      {| k_key_id := k_dataset_id row;
         k_dataset_id := k_dataset_id row;
         k_workflow_id := k_workflow_id row;
         k_owner := k_owner row;
         k_gcs_path := k_gcs_path row;
         k_created_at := k_created_at row |}
      (key_rows s);
  results := results s
|}.

Definition insertKey (key : WrappedKey) : Async unit :=
  try_catch
    (bq_write (BqInsertKey (k_owner key) (k_dataset_id key))
       (insert_key_row key))
    (λ e, throw ("Failed to insert key: " +:+ e)).

(** [SELECT dataset_id, gcs_path, filename, created_at FROM {owner}_datasets
    WHERE workflow_id = @workflow_id AND owner = @owner
    ORDER BY created_at DESC], each row completed with the two
    parameters. *)
Definition select_datasets (workflowId owner : string) (s : Store) : list Dataset :=
  (λ row, {| d_dataset_id := d_dataset_id row;
             d_workflow_id := workflowId;
             d_owner := owner;
             d_filename := d_filename row;
             d_gcs_path := d_gcs_path row;
             d_created_at := d_created_at row |})
  <$> order_by_desc d_created_at
        (filter (λ row, d_workflow_id row = workflowId ∧ d_owner row = owner)
           (table (dataset_rows s) owner)).

Definition getDatasets (workflowId owner : string) : Async (list Dataset) :=
  try_catch
    (bq_read (BqGetDatasets workflowId owner) (select_datasets workflowId owner))
    (λ e, throw ("Failed to get datasets: " +:+ e)).

Definition select_keys (workflowId owner : string) (s : Store) : list WrappedKey :=
  (λ row, {| k_key_id := k_dataset_id row;
             k_dataset_id := k_dataset_id row;
             k_workflow_id := workflowId;
             k_owner := owner;
             k_gcs_path := k_gcs_path row;
             k_created_at := k_created_at row |})
  <$> order_by_desc k_created_at
        (filter (λ row, k_workflow_id row = workflowId ∧ k_owner row = owner)
           (table (key_rows s) owner)).

Definition getKeys (workflowId owner : string) : Async (list WrappedKey) :=
  try_catch
    (bq_read (BqGetKeys workflowId owner) (select_keys workflowId owner))
    (λ e, throw ("Failed to get keys: " +:+ e)).

Definition insert_results (rows : list ExecutionResult) (s : Store) : Store := {|
  workflows := workflows s;
  approvals := approvals s;
  dataset_rows := dataset_rows s;
  key_rows := key_rows s;
  results := results s ++ rows
|}.

Definition insertResults (results : list ExecutionResult) : Async unit :=
  try_catch
    (bq_write (BqInsertResults results) (insert_results results))
    (λ e, throw ("Failed to insert results: " +:+ e)).

(** [SELECT ... FROM results WHERE workflow_id = @workflow_id
    ORDER BY created_at DESC]. *)
Definition select_results (workflowId : string) (s : Store) : list ExecutionResult :=
  order_by_desc r_created_at
    (filter (λ row, r_workflow_id row = workflowId) (results s)).

Definition getResults (workflowId : string) : Async (list ExecutionResult) :=
  try_catch
    (bq_read (BqGetResults workflowId) (select_results workflowId))
    (λ e, throw ("Failed to get results: " +:+ e)).

(** The six queries of the dashboard, in the order of the source; the
    result count is over the shared results table. *)
Definition getDashboardStats (userId : string) : Async DashboardStats :=
  try_catch
    (totalWorkflows <- bq_read (BqCountWorkflows userId)
                         (λ s, length (table (workflows s) userId)) ;;
     activeWorkflows <- bq_read (BqCountActiveWorkflows userId)
                          (λ s, length
                                  (filter (λ row, w_status row
                                                  ∈ [PENDING_APPROVAL; APPROVED; RUNNING])
                                     (table (workflows s) userId))) ;;
     completedWorkflows <- bq_read (BqCountCompletedWorkflows userId)
                             (λ s, length
                                     (filter (λ row, w_status row = COMPLETED)
                                        (table (workflows s) userId))) ;;
     totalDatasets <- bq_read (BqCountDatasets userId)
                        (λ s, length (table (dataset_rows s) userId)) ;;
     totalResults <- bq_read BqCountResults (λ s, length (results s)) ;;
     recentWorkflows <- bq_read (BqRecentWorkflows userId)
                          (λ s, take 5 (order_by_desc w_created_at
                                          (table (workflows s) userId))) ;;
     ret {| total_workflows := totalWorkflows;
            active_workflows := activeWorkflows;
            completed_workflows := completedWorkflows;
            total_datasets := totalDatasets;
            total_results := totalResults;
            recent_workflows := recentWorkflows |})
    (λ e, throw ("Failed to get dashboard stats: " +:+ e)).

Definition getAllWorkflows (userId : string) : Async (list Workflow) :=
  try_catch
    (bq_read (BqGetAllWorkflows userId)
       (λ s, order_by_desc w_created_at (table (workflows s) userId)))
    (λ e, throw ("Failed to get workflows: " +:+ e)).

End Service.
End bigqueryService.

(** ** [services/storage.service.ts] *)

Module storageService.
Section Service.
Context (cfg : Config) (env : Env).

Definition getGcsPath (objectName : string) : string :=
  "gs://" +:+ gcp_bucket cfg +:+ "/" +:+ objectName.

(** The bucket and the object path of a [gs://] URI. *)
Definition parseGcsUri (gcsUri : string) : Outcome (string * string) :=
  if negb (String.prefix "gs://" gcsUri)
  then Throw "GCS URI must start with gs://"
  else
    let rest := substring_from 5 gcsUri in
    let parts := take 1 (split_char "/" rest) in
    if bool_decide (length parts = 0)
    then Throw "Invalid GCS URI format"
    else
      let bucketName := default "" (head parts) in
      let objectPath := substring_from (String.length bucketName + 1) rest in
      Ok (bucketName, objectPath).

(** [fileExists] answers [false] when parsing the URI or the lookup
    throws; [file_exists] is the answer of the bucket, a failed lookup
    counting as [false]. *)
Definition fileExists (gcsPath : string) : Async bool :=
  λ s,
    if String.prefix "gs://" gcsPath
    then MkRun (Ok (file_exists env gcsPath)) s [EvFileExists gcsPath]
    else MkRun (Ok false) s [].

Definition getModelPath (workflowId : string) : Async (option string) :=
  let modelPath :=
    results_pathPrefix cfg +:+ "/" +:+ workflowId +:+ "/result_model.zip" in
  let gcsPath := getGcsPath modelPath in
  exists_ <- fileExists gcsPath ;;
  ret (if exists_ : bool then Some gcsPath else None).

Definition generateUploadUrl (objectName : string) : Async string :=
  λ s, MkRun (signed_url env objectName) s [EvSignedUrl objectName].

Definition generateDownloadUrl (gcsPath : string) : Async string :=
  λ s,
    match parseGcsUri gcsPath with
    | Throw e => MkRun (Throw e) s []
    | Ok (bucket, objectPath) =>
        MkRun (signed_read_url env bucket objectPath) s
          [EvSignedReadUrl bucket objectPath]
    end.

Definition uploadFile (localPath gcsPath : string) : Async string :=
  λ s,
    if String.prefix "gs://" gcsPath then
      match upload_fault env gcsPath with
      | Some e => MkRun (Throw e) s [EvUploadFile localPath gcsPath]
      | None => MkRun (Ok gcsPath) s [EvUploadFile localPath gcsPath]
      end
    else MkRun (Throw "GCS URI must start with gs://") s [].

End Service.
End storageService.

(** ** HTTP requests and responses *)

(** A query parameter is absent, a string, or (when repeated) an array. *)
Inductive QueryValue : Type :=
| QString (s : string)
| QArray (l : list string).

Definition falsy_query (x : option QueryValue) : bool :=
  match x with
  | None => true
  | Some (QString s) => bool_decide (s = "")
  | Some (QArray _) => false
  end.

(** The other parameters are taken at the type the handlers cast them to
    ([as string]): absent, or a string. *)
Definition as_string (x : option string) : string := default "" x.

Inductive Json : Type :=
| JError (error : string) (message : option string)
| JCreated (workflow_id : string) (status : WorkflowStatus)
| JWorkflow (data : Workflow)
| JApproved (workflow_id : string) (status : string)
| JRun (executed_notebook : string) (result_json_paths : list string)
       (model_gcs_path : option string)
| JResults (workflow_id : string) (results : list ResultWithUrl)
| JData (data : string)
| JWorkflows (data : list Workflow)
| JStats (data : DashboardStats)
| JUploadUrl (upload_url gcs_path id : string)
| JDownloadUrl (download_url : string)
| JUploaded (gcs_path filename : string) (size : nat).

(** [res.status(status_code).json(json)]; [success] is [false] exactly for
    [JError]. *)
Record Response : Type := {
  status_code : nat;
  json : Json
}.

Definition respond (code : nat) (body : Json) : Async Response :=
  ret {| status_code := code; json := body |}.

Record CreateWorkflowRequest : Type := {
  c_workflow_id : option string;
  c_creator : option string;
  c_collaborators : option (list string)
}.

Record UploadedFile : Type := {
  originalname : string;
  path : string;
  size : nat
}.

(** ** [controllers/workflow.controller.ts] *)

Module workflowController.
Section Controller.
Context (cfg : Config) (env : Env).

Definition createWorkflow (body : CreateWorkflowRequest) : Async Response :=
  try_catch
    (if falsy (c_workflow_id body) || falsy (c_creator body)
        || bool_decide (c_collaborators body = None)
     then respond 400
            (JError "Missing required fields: workflow_id, creator, collaborators" None)
     else
       let workflow_id := as_string (c_workflow_id body) in
       let workflow := {|
         w_workflow_id := workflow_id;
         w_creator := as_string (c_creator body);
         w_collaborators := default [] (c_collaborators body);
         w_workload_path := workload_fixedPath cfg;
         w_status := PENDING_APPROVAL;
         w_created_at := now env;
         w_updated_at := None
       |} in
       bigqueryService.createWorkflow env workflow ;;;
       respond 200 (JCreated workflow_id PENDING_APPROVAL))
    (λ e, respond 500 (JError "Failed to create workflow" (Some e))).

Definition getWorkflow (workflow_id : string) (creator : option string)
    : Async Response :=
  try_catch
    (if falsy creator
     then respond 400 (JError "Creator parameter is required" None)
     else
       workflow <- bigqueryService.getWorkflow env workflow_id (as_string creator) ;;
       match workflow with
       | None => respond 404 (JError "Workflow not found" None)
       | Some workflow => respond 200 (JWorkflow workflow)
       end)
    (λ e, respond 500 (JError "Failed to get workflow" (Some e))).

Definition approveWorkflow (workflow_id : string) (client_id : option string)
    : Async Response :=
  try_catch
    (if falsy client_id
     then respond 400 (JError "client_id parameter is required" None)
     else
       bigqueryService.approveWorkflow env workflow_id (as_string client_id) ;;;
       respond 200
         (JApproved workflow_id ("APPROVED_BY_" +:+ as_string client_id)))
    (λ e, respond 500 (JError "Failed to approve workflow" (Some e))).

(** [typeof collaborators === 'string'
      ? collaborators.split(',').map(c => c.trim())
      : collaborators as string[]]. *)
Definition collaboratorList (collaborators : option QueryValue) : list string :=
  match collaborators with
  | Some (QString s) => trim <$> split_comma s
  | Some (QArray l) => l
  | None => []
  end.

(** The loop "Check approvals from all collaborators"; [Some collaborator]
    is the early return with 403. *)
Fixpoint checkApprovals (workflow_id : string) (collaborators : list string)
    : Async (option string) :=
  match collaborators with
  | [] => ret None
  | collaborator :: rest =>
      isApproved <- bigqueryService.isWorkflowApproved env workflow_id collaborator ;;
      if isApproved : bool then checkApprovals workflow_id rest
      else ret (Some collaborator)
  end.

(** The loop "Match datasets with keys", pushing onto [datasets]. *)
Definition matchDatasets (owner_ : string) (ownerDatasets : list Dataset)
    (ownerKeys : list WrappedKey) (datasets : list DatasetSpec) : list DatasetSpec :=
  foldl
    (λ datasets dataset,
       match List.find (λ k, bool_decide (k_dataset_id k = d_dataset_id dataset))
               ownerKeys with
       | Some key =>
           datasets ++ [ {| owner := owner_;
                            ciphertext_gcs := d_gcs_path dataset;
                            wrapped_dek_gcs := k_gcs_path key |} ]
       | None => datasets
       end)
    datasets ownerDatasets.

(** The loop "Gather datasets from collaborators". *)
Fixpoint gatherCollaborators (workflow_id creator : string)
    (collaborators : list string) (datasets : list DatasetSpec)
    : Async (list DatasetSpec) :=
  match collaborators with
  | [] => ret datasets
  | collaborator :: rest =>
      if bool_decide (collaborator = creator)
      then gatherCollaborators workflow_id creator rest datasets
      else
        collabDatasets <- bigqueryService.getDatasets env workflow_id collaborator ;;
        collabKeys <- bigqueryService.getKeys env workflow_id collaborator ;;
        gatherCollaborators workflow_id creator rest
          (matchDatasets collaborator collabDatasets collabKeys datasets)
  end.

(** [axios.post(url, payload, { timeout })]. *)
Definition axios_post (url : string) (payload : ExecuteRequest) (timeout_ms : N)
    : Async ExecuteResponse :=
  λ s, MkRun (executor env payload) s [EvExecute url payload timeout_ms].

(** The block "Call executor service" with its own [catch]. *)
Definition callExecutor (workflow_id creator : string) (execPayload : ExecuteRequest)
    : Async Response :=
  try_catch
    (resultInfo <- axios_post (executor_url cfg +:+ "/execute") execPayload 600000%N ;;
     let resultPaths := default [] (result_paths resultInfo) in
     let executedNotebookPath := executed_notebook_path resultInfo in
     let createdTime := now env in
     let results_ :=
       imap (λ i path_, {| r_id := uuidv4 env i;
                           r_workflow_id := workflow_id;
                           r_executed_notebook_path := executedNotebookPath;
                           r_result_path := path_;
                           r_created_at := createdTime |})
            resultPaths in
     (if bool_decide (0 < length results_)
      then bigqueryService.insertResults env results_
      else ret tt) ;;;
     bigqueryService.updateWorkflowStatus env workflow_id creator COMPLETED ;;;
     modelGcsPath <- storageService.getModelPath cfg env workflow_id ;;
     respond 200 (JRun executedNotebookPath resultPaths modelGcsPath))
    (λ e,
       bigqueryService.updateWorkflowStatus env workflow_id creator FAILED ;;;
       respond 502 (JError "Executor failed" (Some e))).

Definition runWorkflow (workflow_id : string) (creator : option string)
    (collaborators : option QueryValue) : Async Response :=
  try_catch
    (if falsy creator || falsy_query collaborators
     then respond 400
            (JError "creator and collaborators parameters are required" None)
     else
       let creator := as_string creator in
       let collaboratorList := collaboratorList collaborators in
       unapproved <- checkApprovals workflow_id collaboratorList ;;
       match unapproved with
       | Some collaborator =>
           respond 403
             (JError ("Workflow not approved by " +:+ collaborator) None)
       | None =>
           workflow <- bigqueryService.getWorkflow env workflow_id creator ;;
           match workflow with
           | None => respond 404 (JError "Workflow not found" None)
           | Some workflow =>
               bigqueryService.updateWorkflowStatus env workflow_id creator RUNNING ;;;
               creatorDatasets <- bigqueryService.getDatasets env workflow_id creator ;;
               creatorKeys <- bigqueryService.getKeys env workflow_id creator ;;
               let datasets_ := matchDatasets creator creatorDatasets creatorKeys [] in
               datasets_ <- gatherCollaborators workflow_id creator
                              collaboratorList datasets_ ;;
               if bool_decide (length datasets_ = 0)
               then respond 400
                      (JError "No datasets found for this workflow" None)
               else
                 let resultBase :=
                   "gs://" +:+ gcp_bucket cfg +:+ "/results/" +:+ workflow_id
                     +:+ "/result" in
                 let executedBase :=
                   "gs://" +:+ gcp_bucket cfg +:+ "/results/" +:+ workflow_id
                     +:+ "/executed" in
                 let execPayload := {|
                   x_workflow_id := workflow_id;
                   workload_gcs := w_workload_path workflow;
                   datasets := datasets_;
                   result_base := resultBase;
                   executed_notebook_base := executedBase
                 |} in
                 callExecutor workflow_id creator execPayload
           end
       end)
    (λ e, respond 500 (JError "Failed to run workflow" (Some e))).

(** [axios.get(url, { timeout })]. *)
Definition axios_get (url : string) (timeout_ms : N) : Async string :=
  λ s, MkRun (executor_get env url) s [EvGet url timeout_ms].

Definition getWorkflowResults (workflow_id : string) : Async Response :=
  try_catch
    (results_ <- bigqueryService.getResults env workflow_id ;;
     if bool_decide (length results_ = 0)
     then respond 404 (JError "No results found for this workflow" None)
     else
       resultsWithUrls <-
         promise_all env
           ((λ result,
               downloadUrl <- storageService.generateDownloadUrl env
                                (r_result_path result) ;;
               ret {| u_result_path := r_result_path result;
                      u_executed_notebook_path := r_executed_notebook_path result;
                      u_created_at := r_created_at result;
                      download_url := downloadUrl |})
            <$> results_) ;;
       respond 200 (JResults workflow_id resultsWithUrls))
    (λ e, respond 500 (JError "Failed to get workflow results" (Some e))).

Definition getWorkflowLogs (workflow_id : string) : Async Response :=
  try_catch
    (data <- axios_get (executor_url cfg +:+ "/logs/" +:+ workflow_id) 5000%N ;;
     respond 200 (JData data))
    (λ e, respond 500 (JError "Failed to get workflow logs" (Some e))).

Definition getAllWorkflows (user_id : option string) : Async Response :=
  try_catch
    (if falsy user_id
     then respond 400 (JError "user_id parameter is required" None)
     else
       workflows_ <- bigqueryService.getAllWorkflows env (as_string user_id) ;;
       respond 200 (JWorkflows workflows_))
    (λ e, respond 500 (JError "Failed to get workflows" (Some e))).

Definition getDashboardStats (user_id : option string) : Async Response :=
  try_catch
    (if falsy user_id
     then respond 400 (JError "user_id parameter is required" None)
     else
       stats <- bigqueryService.getDashboardStats env (as_string user_id) ;;
       respond 200 (JStats stats))
    (λ e, respond 500 (JError "Failed to get dashboard stats" (Some e))).

End Controller.
End workflowController.

(** ** [controllers/storage.controller.ts] *)

Module storageController.
Section Controller.
Context (cfg : Config) (env : Env).

(** "Insert metadata into BigQuery": the same code in both upload paths. *)
Definition insertMetadata (file_type workflow_id dataset_id owner_ filename
    gcsPath : string) : Async unit :=
  let createdAt := now env in
  if bool_decide (file_type = "dataset") then
    bigqueryService.insertDataset env
      {| d_dataset_id := dataset_id;
         d_workflow_id := workflow_id;
         d_owner := owner_;
         d_filename := filename;
         d_gcs_path := gcsPath;
         d_created_at := createdAt |}
  else if bool_decide (file_type = "key") then
    bigqueryService.insertKey env
      {| k_key_id := dataset_id;
         k_dataset_id := dataset_id;
         k_workflow_id := workflow_id;
         k_owner := owner_;
         k_gcs_path := gcsPath;
         k_created_at := createdAt |}
  else ret tt.

Definition generateUploadUrl (workflow_id dataset_id filename file_type
    owner_ : option string) : Async Response :=
  try_catch
    (if falsy workflow_id || falsy dataset_id || falsy filename
        || falsy file_type || falsy owner_
     then respond 400
            (JError "Missing required parameters: workflow_id, dataset_id, filename, file_type, owner" None)
     else
       let workflow_id := as_string workflow_id in
       let dataset_id := as_string dataset_id in
       let filename := as_string filename in
       let file_type := as_string file_type in
       let owner_ := as_string owner_ in
       if negb (bool_decide (file_type ∈ ["dataset"; "workload"; "key"]))
       then respond 400
              (JError "file_type must be one of: dataset, workload, key" None)
       else
         let objectName :=
           file_type +:+ "s/" +:+ owner_ +:+ "/" +:+ workflow_id +:+ "/"
             +:+ dataset_id +:+ "/" +:+ filename in
         let gcsPath := storageService.getGcsPath cfg objectName in
         uploadUrl <- storageService.generateUploadUrl env objectName ;;
         insertMetadata file_type workflow_id dataset_id owner_ filename gcsPath ;;;
         respond 200 (JUploadUrl uploadUrl gcsPath workflow_id))
    (λ e, respond 500 (JError "Failed to generate upload URL" (Some e))).

Definition uploadFile (file : option UploadedFile) (workflow_id dataset_id
    file_type owner_ : option string) : Async Response :=
  try_catch
    (match file with
     | None => respond 400 (JError "No file uploaded" None)
     | Some file =>
         if falsy workflow_id || falsy dataset_id || falsy file_type
            || falsy owner_
         then respond 400
                (JError "Missing required fields: workflow_id, dataset_id, file_type, owner" None)
         else
           let workflow_id := as_string workflow_id in
           let dataset_id := as_string dataset_id in
           let file_type := as_string file_type in
           let owner_ := as_string owner_ in
           let objectName :=
             file_type +:+ "s/" +:+ owner_ +:+ "/" +:+ workflow_id +:+ "/"
               +:+ dataset_id +:+ "/" +:+ originalname file in
           let gcsPath := storageService.getGcsPath cfg objectName in
           storageService.uploadFile env (path file) gcsPath ;;;
           insertMetadata file_type workflow_id dataset_id owner_
             (originalname file) gcsPath ;;;
           respond 200 (JUploaded gcsPath (originalname file) (size file))
     end)
    (λ e, respond 500 (JError "Failed to upload file" (Some e))).

Definition generateDownloadUrl (gcs_path : option string) : Async Response :=
  try_catch
    (if falsy gcs_path
     then respond 400 (JError "gcs_path parameter is required" None)
     else
       let gcsPathStr := as_string gcs_path in
       if negb (String.prefix "gs://" gcsPathStr)
       then respond 400
              (JError "Invalid GCS path format. Must start with gs://" None)
       else
         downloadUrl <- storageService.generateDownloadUrl env gcsPathStr ;;
         respond 200 (JDownloadUrl downloadUrl))
    (λ e, respond 500 (JError "Failed to generate download URL" (Some e))).

Definition getExecutorPubkey : Async Response :=
  try_catch
    (data <- workflowController.axios_get env
               (executor_url cfg +:+ "/attestation") 10000%N ;;
     respond 200 (JData data))
    (λ e, respond 502 (JError "Failed to fetch executor public key" (Some e))).

End Controller.
End storageController.

(** ** The routes ([routes/workflow.routes.ts], [routes/storage.routes.ts]) *)

Inductive Request : Type :=
| PostWorkflows (body : CreateWorkflowRequest)
| GetWorkflow (workflow_id : string) (creator : option string)
| PostApprove (workflow_id : string) (client_id : option string)
| PostRun (workflow_id : string) (creator : option string)
          (collaborators : option QueryValue)
| GetWorkflowResult (workflow_id : string)
| GetLogs (workflow_id : string)
| GetWorkflows (user_id : option string)
| GetDashboardStats (user_id : option string)
| PostUploadUrl (workflow_id dataset_id filename file_type owner_ : option string)
| GetDownloadUrl (gcs_path : option string)
| GetExecutorPubkey
| PostUpload (file : option UploadedFile)
             (workflow_id dataset_id file_type owner_ : option string).

Definition handle (cfg : Config) (env : Env) (req : Request) : Async Response :=
  match req with
  | PostWorkflows body => workflowController.createWorkflow cfg env body
  | GetWorkflow workflow_id creator =>
      workflowController.getWorkflow env workflow_id creator
  | PostApprove workflow_id client_id =>
      workflowController.approveWorkflow env workflow_id client_id
  | PostRun workflow_id creator collaborators =>
      workflowController.runWorkflow cfg env workflow_id creator collaborators
  | GetWorkflowResult workflow_id =>
      workflowController.getWorkflowResults env workflow_id
  | GetLogs workflow_id => workflowController.getWorkflowLogs cfg env workflow_id
  | GetWorkflows user_id => workflowController.getAllWorkflows env user_id
  | GetDashboardStats user_id => workflowController.getDashboardStats env user_id
  | PostUploadUrl workflow_id dataset_id filename file_type owner_ =>
      storageController.generateUploadUrl cfg env workflow_id dataset_id filename
        file_type owner_
  | GetDownloadUrl gcs_path => storageController.generateDownloadUrl env gcs_path
  | GetExecutorPubkey => storageController.getExecutorPubkey cfg env
  | PostUpload file workflow_id dataset_id file_type owner_ =>
      storageController.uploadFile cfg env file workflow_id dataset_id file_type
        owner_
  end.

(** Requests handled one after the other, each in its own environment; the
    answers come back in the order of the requests. *)
Fixpoint serve (cfg : Config) (script : list (Env * Request)) (s : Store)
    : list (Outcome Response) * Store :=
  match script with
  | [] => ([], s)
  | (env, req) :: rest =>
      let r := handle cfg env req s in
      let '(answers, s') := serve cfg rest (store_after r) in
      (outcome r :: answers, s')
  end.

(** ** The client ([frontend/src/services/api.ts]) *)

Module api.

(** The query parameters [api.workflows.run] sends, as the backend receives
    them: [{ creator, collaborators: collaborators.join(",") }]. *)
Definition run_params (creator : string) (collaborators : list string)
    : option string * option QueryValue :=
  (Some creator, Some (QString (join_comma collaborators))).

End api.

(** ** Scenarios *)

Module Scenario.

(** An environment in which every external call succeeds, the executor
    writes two results and no model artifact exists. *)
Definition calm : Env := {|
  store_fault := λ _, None;
  executor := λ _, Ok {| executed_notebook_path := "gs://b/results/W/executed.ipynb";
                         result_paths := Some ["gs://b/results/W/result_0.json";
                                               "gs://b/results/W/result_1.json"] |};
  executor_get := λ _, Ok "{}";
  file_exists := λ _, false;
  signed_url := λ o, Ok ("https://signed/" +:+ o);
  signed_read_url := λ b o, Ok ("https://signed/" +:+ b +:+ "/" +:+ o);
  upload_fault := λ _, None;
  now := 10;
  current_timestamp := 10;
  uuidv4 := λ i, "uuid-" +:+ String (ascii_of_nat (48 + i)) EmptyString;
  first_rejection := λ es, default "" (head es)
|}.

Definition at_time (t : Timestamp) (env : Env) : Env := {|
  store_fault := store_fault env;
  executor := executor env;
  executor_get := executor_get env;
  file_exists := file_exists env;
  signed_url := signed_url env;
  signed_read_url := signed_read_url env;
  upload_fault := upload_fault env;
  now := t;
  current_timestamp := t;
  uuidv4 := uuidv4 env;
  first_rejection := first_rejection env
|}.

Definition with_executor_down (message : string) (env : Env) : Env := {|
  store_fault := store_fault env;
  executor := λ _, Throw message;
  executor_get := executor_get env;
  file_exists := file_exists env;
  signed_url := signed_url env;
  signed_read_url := signed_read_url env;
  upload_fault := upload_fault env;
  now := now env;
  current_timestamp := current_timestamp env;
  uuidv4 := uuidv4 env;
  first_rejection := first_rejection env
|}.

Definition with_store_fault (f : StoreOp → option string) (env : Env)
    : Env := {|
  store_fault := f;
  executor := executor env;
  executor_get := executor_get env;
  file_exists := file_exists env;
  signed_url := signed_url env;
  signed_read_url := signed_read_url env;
  upload_fault := upload_fault env;
  now := now env;
  current_timestamp := current_timestamp env;
  uuidv4 := uuidv4 env;
  first_rejection := first_rejection env
|}.

Definition create_W : Request :=
  PostWorkflows {| c_workflow_id := Some "W"; c_creator := Some "A";
                   c_collaborators := Some ["B"; "C"] |}.

Definition upload (file_type owner_ dataset_id : string) : Request :=
  PostUploadUrl (Some "W") (Some dataset_id) (Some "data.enc") (Some file_type)
    (Some owner_).

(** [A] creates [W]; [A] and [B] upload a dataset with its key, [A] also a
    dataset without key and [C] a key without dataset; [B] approves. *)
Definition prepared : Store :=
  (serve config
     [ (at_time 1 calm, create_W);
       (at_time 2 calm, upload "dataset" "A" "d1");
       (at_time 3 calm, upload "key" "A" "d1");
       (at_time 4 calm, upload "dataset" "A" "d2");
       (at_time 5 calm, upload "dataset" "B" "d3");
       (at_time 6 calm, upload "key" "B" "d3");
       (at_time 7 calm, upload "key" "C" "d4");
       (at_time 8 calm, PostApprove "W" (Some "B")) ]
     empty_store).2.

(** What the executor answers in [calm]. *)
Definition answer : ExecuteResponse :=
  {| executed_notebook_path := "gs://b/results/W/executed.ipynb";
     result_paths := Some ["gs://b/results/W/result_0.json";
                           "gs://b/results/W/result_1.json"] |}.

(** The request a run of [W] by [A] with collaborator [B] sends from
    [prepared]: the matched pair of [A] and the matched pair of [B]. *)
Definition payload : ExecuteRequest := {|
  x_workflow_id := "W";
  workload_gcs :=
    "gs://yellowsense-technologies-cleanroom/workloads/fraud-detector.ipynb";
  datasets :=
    [ {| owner := "A";
         ciphertext_gcs :=
           "gs://yellowsense-technologies-cleanroom/datasets/A/W/d1/data.enc";
         wrapped_dek_gcs :=
           "gs://yellowsense-technologies-cleanroom/keys/A/W/d1/data.enc" |};
      {| owner := "B";
         ciphertext_gcs :=
           "gs://yellowsense-technologies-cleanroom/datasets/B/W/d3/data.enc";
         wrapped_dek_gcs :=
           "gs://yellowsense-technologies-cleanroom/keys/B/W/d3/data.enc" |} ];
  result_base := "gs://yellowsense-technologies-cleanroom/results/W/result";
  executed_notebook_base :=
    "gs://yellowsense-technologies-cleanroom/results/W/executed"
|}.

Definition executor_down : Env :=
  with_executor_down "timeout of 600000ms exceeded" calm.

(** On top of [prepared], [C] creates a second workflow [V] with
    collaborator [B], who approves it; nobody uploads anything for [V]. *)
Definition second : Store :=
  (serve config
     [ (at_time 11 calm,
        PostWorkflows {| c_workflow_id := Some "V"; c_creator := Some "C";
                         c_collaborators := Some ["B"] |});
       (at_time 12 calm, PostApprove "V" (Some "B")) ]
     prepared).2.

End Scenario.

(** * Vocabulary of the properties *)

(** ** The approval gate *)

(** What the approval gate answers for one collaborator: [false] when the
    query rejects, else the flag of the row the query returns, if any. *)
Definition approved_now (env : Env) (s : Store) (workflowId clientId : string)
    : bool :=
  match store_fault env (BqIsWorkflowApproved workflowId clientId) with
  | Some _ => false
  | None =>
      match bigqueryService.select_latest_approval workflowId clientId s with
      | [] => false
      | row :: _ => a_approved row
      end
  end.

(** The collaborators the gate queries: up to and including the first one
    that is not approved. *)
Fixpoint asked (approved : string → bool) (collaborators : list string)
    : list string :=
  match collaborators with
  | [] => []
  | c :: rest => c :: if approved c then asked approved rest else []
  end.

(** The approver's rows for one workflow, in the approver's own table. *)
Definition approval_rows (s : Store) (workflowId clientId : string)
    : list WorkflowApproval :=
  filter (λ row, a_workflow_id row = workflowId) (table (approvals s) clientId).

(** [row] is a most recent row of [rows]: none is later. *)
Definition most_recent (rows : list WorkflowApproval) (row : WorkflowApproval)
    : Prop :=
  row ∈ rows ∧ ∀ row', row' ∈ rows → a_approved_at row' ≤ a_approved_at row.

(** The row [ORDER BY approved_at DESC LIMIT 1] returns. *)
Definition latest_approval (s : Store) (workflowId clientId : string)
    : option WorkflowApproval :=
  head (order_by_desc a_approved_at (approval_rows s workflowId clientId)).

(** The latest Approval row is absent or has [approved = false]. *)
Definition lacks_approval (s : Store) (workflowId clientId : string) : Prop :=
  match latest_approval s workflowId clientId with
  | None => True
  | Some row => a_approved row = false
  end.

(** The gate turns a collaborator down: the query rejects, or the latest
    row is absent or negative. *)
Definition fails_gate (env : Env) (s : Store) (workflowId clientId : string)
    : Prop :=
  is_Some (store_fault env (BqIsWorkflowApproved workflowId clientId))
  ∨ lacks_approval s workflowId clientId.

(** ** The dataset/key join *)

(** The tuples one owner contributes: one per dataset row of that owner, in
    query order, that has a key row of that owner with the same dataset id. *)
Definition owner_tuples (s : Store) (workflowId o : string) : list DatasetSpec :=
  omap
    (λ d,
       (λ k, {| owner := o; ciphertext_gcs := d_gcs_path d;
                wrapped_dek_gcs := k_gcs_path k |})
       <$> List.find (λ k, bool_decide (k_dataset_id k = d_dataset_id d))
             (bigqueryService.select_keys workflowId o s))
    (bigqueryService.select_datasets workflowId o s).

(** The owners whose tables are read: the creator, then the collaborators in
    the order given, the creator left out. *)
Definition owners_of (creator : string) (collaborators : list string)
    : list string :=
  creator :: filter (λ c, c ≠ creator) collaborators.

(** The dataset list as the specification words it: the concatenation of
    the owners' tuples. *)
Definition assemble (s : Store) (workflowId creator : string)
    (collaborators : list string) : list DatasetSpec :=
  concat (owner_tuples s workflowId <$> owners_of creator collaborators).

(** The rows of the owner's own tables that belong to the workflow. *)
Definition owner_datasets (s : Store) (workflowId o : string) : list Dataset :=
  filter (λ row, d_workflow_id row = workflowId ∧ d_owner row = o)
    (table (dataset_rows s) o).

(** The same for the owner's key table. *)
Definition owner_keys (s : Store) (workflowId o : string) : list WrappedKey :=
  filter (λ row, k_workflow_id row = workflowId ∧ k_owner row = o)
    (table (key_rows s) o).

(** A WrappedKey row of the same owner with the same dataset id exists. *)
Definition has_key (s : Store) (workflowId o : string) (d : Dataset) : Prop :=
  Exists (λ k, k_dataset_id k = d_dataset_id d) (owner_keys s workflowId o).

#[global] Instance has_key_dec s workflowId o d :
  Decision (has_key s workflowId o d).
Proof. unfold has_key. apply _. Defined.

(** The owner's dataset rows that have a key, most recent first. *)
Definition matched_rows (s : Store) (workflowId o : string) : list Dataset :=
  filter (has_key s workflowId o)
    (order_by_desc d_created_at (owner_datasets s workflowId o)).

(** ** Traces *)

(** The calls to the executor in a trace: URL, request and time budget. *)
Definition executes (evs : list Event) : list (string * ExecuteRequest * N) :=
  omap (λ ev, match ev with
              | EvExecute url payload t => Some (url, payload, t)
              | _ => None
              end) evs.

(** The calls to the metadata store in a trace. *)
Definition store_ops (evs : list Event) : list StoreOp :=
  omap (λ ev, match ev with EvStore op => Some op | _ => None end) evs.

(** Inserts and updates, as opposed to [SELECT]s. *)
Definition is_write (op : StoreOp) : bool :=
  match op with
  | BqCreateWorkflow _ _ | BqUpdateWorkflowStatus _ _ _ | BqApproveWorkflow _ _
  | BqInsertDataset _ _ | BqInsertKey _ _ | BqInsertResults _ => true
  | _ => false
  end.

(** The writes a request issued, in order. *)
Definition writes (evs : list Event) : list StoreOp :=
  filter (λ op, is_write op = true) (store_ops evs).

(** The first read of the dataset and key tables that rejects, if any. *)
Fixpoint first_read_fault (env : Env) (workflowId : string) (owners : list string)
    : option string :=
  match owners with
  | [] => None
  | o :: rest =>
      match store_fault env (BqGetDatasets workflowId o) with
      | Some e => Some ("Failed to get datasets: " +:+ e)
      | None =>
          match store_fault env (BqGetKeys workflowId o) with
          | Some e => Some ("Failed to get keys: " +:+ e)
          | None => first_read_fault env workflowId rest
          end
      end
  end.

(** The reads of the dataset and key tables, up to the first that rejects. *)
Fixpoint read_events (env : Env) (workflowId : string) (owners : list string)
    : list Event :=
  match owners with
  | [] => []
  | o :: rest =>
      EvStore (BqGetDatasets workflowId o) ::
      match store_fault env (BqGetDatasets workflowId o) with
      | Some _ => []
      | None =>
          EvStore (BqGetKeys workflowId o) ::
          match store_fault env (BqGetKeys workflowId o) with
          | Some _ => []
          | None => read_events env workflowId rest
          end
      end
  end.

(** What [runWorkflow] has issued when it reaches the executor. *)
Definition preflight_events (env : Env) (s : Store) (workflow_id creator : string)
    (l : list string) : list Event :=
  ((((λ c, EvStore (BqIsWorkflowApproved workflow_id c))
     <$> asked (approved_now env s workflow_id) l)
    ++ [EvStore (BqGetWorkflow workflow_id creator)])
   ++ [EvStore (BqUpdateWorkflowStatus workflow_id creator RUNNING)])
  ++ read_events env workflow_id (owners_of creator l).

(** ** The executor block *)

(** The rows [runWorkflow] builds from the executor's answer. *)
Definition result_rows (env : Env) (workflow_id : string) (info : ExecuteResponse)
    : list ExecutionResult :=
  imap (λ i path_, {| r_id := uuidv4 env i;
                      r_workflow_id := workflow_id;
                      r_executed_notebook_path := executed_notebook_path info;
                      r_result_path := path_;
                      r_created_at := now env |})
       (default [] (result_paths info)).

(** The object [getModelPath] looks for. *)
Definition model_path (cfg : Config) (workflow_id : string) : string :=
  "gs://" +:+ gcp_bucket cfg +:+ "/" +:+ results_pathPrefix cfg +:+ "/"
    +:+ workflow_id +:+ "/result_model.zip".

(** The one call [runWorkflow] makes to the executor. *)
Definition execute_event (cfg : Config) (payload : ExecuteRequest) : Event :=
  EvExecute (executor_url cfg +:+ "/execute") payload 600000%N.

(** The request [runWorkflow] builds for the workflow row it has loaded. *)
Definition execute_request (cfg : Config) (s : Store) (workflow_id creator : string)
    (l : list string) (workflow : Workflow) : ExecuteRequest := {|
  x_workflow_id := workflow_id;
  workload_gcs := w_workload_path workflow;
  datasets := assemble s workflow_id creator l;
  result_base :=
    "gs://" +:+ gcp_bucket cfg +:+ "/results/" +:+ workflow_id +:+ "/result";
  executed_notebook_base :=
    "gs://" +:+ gcp_bucket cfg +:+ "/results/" +:+ workflow_id +:+ "/executed"
|}.

(** The [catch (executorError)] handler, entered with message [e] in store
    [s] after the events [evs]. *)
Definition executor_failed (env : Env) (workflow_id creator e : string)
    (evs : list Event) (s : Store) : Run Response :=
  match store_fault env (BqUpdateWorkflowStatus workflow_id creator FAILED) with
  | Some e' =>
      MkRun (Throw ("Failed to update workflow status: " +:+ e')) s
        (evs ++ [EvStore (BqUpdateWorkflowStatus workflow_id creator FAILED)])
  | None =>
      MkRun (Ok {| status_code := 502;
                   json := JError "Executor failed" (Some e) |})
        (bigqueryService.update_status env workflow_id creator FAILED s)
        (evs ++ [EvStore (BqUpdateWorkflowStatus workflow_id creator FAILED)])
  end.

(** The answer of the outer [catch] of [runWorkflow]. *)
Definition run_failure (e : string) : Response :=
  {| status_code := 500; json := JError "Failed to run workflow" (Some e) |}.

(** The answer of [runWorkflow] when the assembled list is empty. *)
Definition no_datasets_response : Response :=
  {| status_code := 400;
     json := JError "No datasets found for this workflow" None |}.

(** ** The rows that create and approve write *)

(** The row [createWorkflow] inserts. *)
Definition created_row (cfg : Config) (env : Env) (body : CreateWorkflowRequest)
    : Workflow := {|
  w_workflow_id := as_string (c_workflow_id body);
  w_creator := as_string (c_creator body);
  w_collaborators := default [] (c_collaborators body);
  w_workload_path := workload_fixedPath cfg;
  w_status := PENDING_APPROVAL;
  w_created_at := now env;
  w_updated_at := None
|}.

(** The row [approveWorkflow] inserts. *)
Definition approval_row (env : Env) (workflow_id clientId : string)
    : WorkflowApproval := {|
  a_workflow_id := workflow_id;
  a_approver := clientId;
  a_approved := true;
  a_approved_at := current_timestamp env
|}.

(** ** Statuses and approvals over a sequence of requests *)

(** The store after the status of a workflow was overwritten with each of
    [statuses] in turn. *)
Definition apply_statuses (env : Env) (workflowId creator : string)
    (statuses : list WorkflowStatus) (s : Store) : Store :=
  foldl (λ s status, bigqueryService.update_status env workflowId creator status s)
    s statuses.

(** The status writes one run can make take effect. *)
Definition run_status_writes : list (list WorkflowStatus) :=
  [ []; [RUNNING]; [RUNNING; COMPLETED]; [RUNNING; FAILED] ].

(** Every approval row is affirmative. *)
Definition affirmative (s : Store) : Prop :=
  ∀ o row, row ∈ table (approvals s) o → a_approved row = true.

(** Each approvals table of [s'] is the one of [s] followed by affirmative
    rows. *)
Definition grows (s s' : Store) : Prop :=
  ∀ o, ∃ new, table (approvals s') o = table (approvals s) o ++ new
              ∧ Forall (λ row, a_approved row = true) new.

(** The statuses that [GET /workflows/:id] answers report, in order. *)
Definition observed (answers : list (Outcome Response)) : list WorkflowStatus :=
  omap (λ answer, match answer with
                  | Ok {| json := JWorkflow w |} => Some (w_status w)
                  | _ => None
                  end) answers.

(** The HTTP status codes of the answers, in order. *)
Definition status_codes (answers : list (Outcome Response)) : list nat :=
  omap (λ answer, match answer with
                  | Ok response => Some (status_code response)
                  | Throw _ => None
                  end) answers.

(** ** Computations that only read, and what a computation answers *)

(** A computation that leaves the store as it found it. *)
Definition read_only {A : Type} (m : Async A) : Prop :=
  ∀ s, store_after (m s) = s.

(** Every value the computation can return satisfies [P]. *)
Definition answers {A : Type} (P : A → Prop) (m : Async A) : Prop :=
  ∀ s a, outcome (m s) = Ok a → P a.

(** A computation that issues no write to the store and no call to the
    executor's [/execute]. *)
Definition quiet {A : Type} (m : Async A) : Prop :=
  ∀ s, writes (events (m s)) = [] ∧ executes (events (m s)) = [].

(** The [GET] routes. *)
Definition is_read (req : Request) : bool :=
  match req with
  | GetWorkflow _ _ | GetWorkflowResult _ | GetLogs _ | GetWorkflows _
  | GetDashboardStats _ | GetDownloadUrl _ | GetExecutorPubkey => true
  | _ => false
  end.

(** [success: false] in the body. *)
Definition is_error (j : Json) : bool :=
  match j with
  | JError _ _ => true
  | _ => false
  end.

(** The status codes each route can answer with. *)
Definition route_codes (req : Request) : list nat :=
  match req with
  | PostWorkflows _ => [200; 400; 500]
  | GetWorkflow _ _ => [200; 400; 404; 500]
  | PostApprove _ _ => [200; 400; 500]
  | PostRun _ _ _ => [200; 400; 403; 404; 500; 502]
  | GetWorkflowResult _ => [200; 404; 500]
  | GetLogs _ => [200; 500]
  | GetWorkflows _ => [200; 400; 500]
  | GetDashboardStats _ => [200; 400; 500]
  | PostUploadUrl _ _ _ _ _ => [200; 400; 500]
  | GetDownloadUrl _ => [200; 400; 500]
  | GetExecutorPubkey => [200; 502]
  | PostUpload _ _ _ _ _ => [200; 400; 500]
  end.

(** A response with one of the [codes], whose body reports an error exactly
    when the code is not 200. *)
Definition well_formed (codes : list nat) (response : Response) : Prop :=
  status_code response ∈ codes
  ∧ (is_error (json response) = true ↔ status_code response ≠ 200).

(** ** The collaborators recorded with a workflow *)

(** Two workflow rows that differ at most in their recorded collaborators. *)
Definition same_but_collaborators (row row' : Workflow) : Prop :=
  w_workflow_id row' = w_workflow_id row
  ∧ w_creator row' = w_creator row
  ∧ w_workload_path row' = w_workload_path row
  ∧ w_status row' = w_status row
  ∧ w_created_at row' = w_created_at row
  ∧ w_updated_at row' = w_updated_at row.

(** Two stores that differ at most in the collaborators recorded with
    their workflows. *)
Definition same_but_recorded (s s' : Store) : Prop :=
  (∀ o, Forall2 same_but_collaborators (table (workflows s) o)
          (table (workflows s') o))
  ∧ approvals s' = approvals s
  ∧ dataset_rows s' = dataset_rows s
  ∧ key_rows s' = key_rows s
  ∧ results s' = results s.

(** ** Reading results *)

(** What [getWorkflowResults] makes of one result row: the row with a
    signed URL for its result path, or the failure of parsing the path or
    of signing. *)
Definition signed_result (env : Env) (row : ExecutionResult)
    : Outcome ResultWithUrl :=
  match storageService.parseGcsUri (r_result_path row) with
  | Throw e => Throw e
  | Ok (bucket, objectPath) =>
      match signed_read_url env bucket objectPath with
      | Throw e => Throw e
      | Ok url => Ok {| u_result_path := r_result_path row;
                        u_executed_notebook_path := r_executed_notebook_path row;
                        u_created_at := r_created_at row;
                        download_url := url |}
      end
  end.

(** The signing call made for one result row, if its path parses. *)
Definition sign_events (row : ExecutionResult) : list Event :=
  match storageService.parseGcsUri (r_result_path row) with
  | Throw _ => []
  | Ok (bucket, objectPath) => [EvSignedReadUrl bucket objectPath]
  end.

(** ** What a request does to the store *)

(** The row an upload of a dataset records. *)
Definition dataset_row (cfg : Config) (env : Env)
    (workflow_id dataset_id owner_ filename : string) : Dataset := {|
  d_dataset_id := dataset_id;
  d_workflow_id := workflow_id;
  d_owner := owner_;
  d_filename := filename;
  d_gcs_path :=
    storageService.getGcsPath cfg
      ("datasets/" +:+ owner_ +:+ "/" +:+ workflow_id +:+ "/" +:+ dataset_id
         +:+ "/" +:+ filename);
  d_created_at := now env
|}.

(** The row an upload of a wrapped key records. *)
Definition key_row (cfg : Config) (env : Env)
    (workflow_id dataset_id owner_ filename : string) : WrappedKey := {|
  k_key_id := dataset_id;
  k_dataset_id := dataset_id;
  k_workflow_id := workflow_id;
  k_owner := owner_;
  k_gcs_path :=
    storageService.getGcsPath cfg
      ("keys/" +:+ owner_ +:+ "/" +:+ workflow_id +:+ "/" +:+ dataset_id
         +:+ "/" +:+ filename);
  k_created_at := now env
|}.

(** The changes a request can make. *)
Inductive Effect : Type :=
| Nothing
| Created (row : Workflow)
| Approved (row : WorkflowApproval)
| DatasetAdded (row : Dataset)
| KeyAdded (row : WrappedKey)
| Ran (workflow_id creator : string) (statuses : list WorkflowStatus)
      (rows : list ExecutionResult).

Definition apply_effect (env : Env) (eff : Effect) (s : Store) : Store :=
  match eff with
  | Nothing => s
  | Created row => bigqueryService.insert_workflow row s
  | Approved row => bigqueryService.insert_approval row s
  | DatasetAdded row => bigqueryService.insert_dataset_row row s
  | KeyAdded row => bigqueryService.insert_key_row row s
  | Ran workflow_id creator statuses rows =>
      bigqueryService.insert_results rows
        (apply_statuses env workflow_id creator statuses s)
  end.

(** What the code guarantees about each change, in the store [s] the
    request found. *)
Definition allowed (cfg : Config) (env : Env) (s : Store) (eff : Effect) : Prop :=
  match eff with
  | Nothing => True
  | Created row =>
      w_workflow_id row ≠ "" ∧ w_creator row ≠ ""
      ∧ w_workload_path row = workload_fixedPath cfg
      ∧ w_status row = PENDING_APPROVAL
      ∧ w_created_at row = now env ∧ w_updated_at row = None
  | Approved row =>
      a_approver row ≠ "" ∧ a_approved row = true
      ∧ a_approved_at row = current_timestamp env
  | DatasetAdded row =>
      ∃ workflow_id dataset_id owner_ filename,
        row = dataset_row cfg env workflow_id dataset_id owner_ filename
        ∧ workflow_id ≠ "" ∧ dataset_id ≠ "" ∧ owner_ ≠ ""
  | KeyAdded row =>
      ∃ workflow_id dataset_id owner_ filename,
        row = key_row cfg env workflow_id dataset_id owner_ filename
        ∧ workflow_id ≠ "" ∧ dataset_id ≠ "" ∧ owner_ ≠ ""
  | Ran workflow_id creator statuses rows =>
      statuses ∈ run_status_writes
      ∧ (statuses ≠ [] →
         bigqueryService.select_workflow workflow_id creator s ≠ [])
      ∧ (rows ≠ [] → statuses ≠ [])
      ∧ Forall (λ row, r_workflow_id row = workflow_id
                       ∧ r_created_at row = now env) rows
  end.

(** Everything of a workflow row but its status and its time of update. *)
Definition same_but_status (row row' : Workflow) : Prop :=
  w_workflow_id row' = w_workflow_id row
  ∧ w_creator row' = w_creator row
  ∧ w_collaborators row' = w_collaborators row
  ∧ w_workload_path row' = w_workload_path row
  ∧ w_created_at row' = w_created_at row.

(** No row of [s] is missing from [s'] or changed in it, but for the
    status of workflows; [s'] may have rows after them. *)
Definition extends (s s' : Store) : Prop :=
  (∀ o, ∃ kept new,
      table (workflows s') o = kept ++ new
      ∧ Forall2 same_but_status (table (workflows s) o) kept)
  ∧ (∀ o, table (approvals s) o `prefix_of` table (approvals s') o)
  ∧ (∀ o, table (dataset_rows s) o `prefix_of` table (dataset_rows s') o)
  ∧ (∀ o, table (key_rows s) o `prefix_of` table (key_rows s') o)
  ∧ results s `prefix_of` results s'.

(** What holds of every row the routes have written. *)
Definition consistent (cfg : Config) (s : Store) : Prop :=
  (∀ o row, row ∈ table (workflows s) o →
     w_creator row = o
     ∧ w_workload_path row = workload_fixedPath cfg
     ∧ w_status row ∈ [PENDING_APPROVAL; RUNNING; COMPLETED; FAILED])
  ∧ (∀ o row, row ∈ table (approvals s) o →
       a_approver row = o ∧ a_approved row = true)
  ∧ (∀ o row, row ∈ table (dataset_rows s) o →
       d_owner row = o
       ∧ d_gcs_path row
         = storageService.getGcsPath cfg
             ("datasets/" +:+ o +:+ "/" +:+ d_workflow_id row +:+ "/"
                +:+ d_dataset_id row +:+ "/" +:+ d_filename row))
  ∧ (∀ o row, row ∈ table (key_rows s) o →
       k_owner row = o ∧ k_key_id row = k_dataset_id row
       ∧ ∃ filename,
           k_gcs_path row
           = storageService.getGcsPath cfg
               ("keys/" +:+ o +:+ "/" +:+ k_workflow_id row +:+ "/"
                  +:+ k_dataset_id row +:+ "/" +:+ filename))
  ∧ (∀ row, row ∈ results s →
       ∃ o workflow, workflow ∈ table (workflows s) o
                     ∧ w_workflow_id workflow = r_workflow_id row).

(** ** Strings spliced into the text of a query

    [getWorkflow], [updateWorkflowStatus], [approveWorkflow],
    [isWorkflowApproved], [getDatasets], [getKeys], [getDashboardStats] and
    [getAllWorkflows] name their table in the text of the query, by splicing
    a string of the caller, unescaped, between backquotes:
    [`{project}.{dataset}.{owner}{suffix}`].  [bq_read] and [bq_write] take
    such a query as an operation on the table of that owner; this is what
    the query does when the string leaves the quoted text one table name.
    The inserts of [createWorkflow], [insertDataset], [insertKey] and
    [insertResults] pass the table name to [table(...).insert], and
    [getResults] names the configured results table: no string of the caller
    reaches the text of a query there. *)

(** Letters, digits, the underscore and the hyphen. *)
Definition is_identifier_char (c : ascii) : bool :=
  let n := nat_of_ascii c in
  (Nat.leb 48 n && Nat.leb n 57) || (Nat.leb 65 n && Nat.leb n 90)
  || (Nat.leb 97 n && Nat.leb n 122) || Nat.eqb n 95 || Nat.eqb n 45.

(** A string without a backquote, a backslash, a dot, a quote, white space
    or any other character that is not one of the above. *)
Fixpoint identifier_like (s : string) : bool :=
  match s with
  | EmptyString => true
  | String c s' => is_identifier_char c && identifier_like s'
  end.

(** The strings of a request that its handler passes on to a query that
    splices them. *)
Definition spliced (req : Request) : list string :=
  match req with
  | GetWorkflow _ creator => [as_string creator]
  | PostApprove _ client_id => [as_string client_id]
  | PostRun _ creator collaborators =>
      as_string creator :: workflowController.collaboratorList collaborators
  | GetWorkflows user_id | GetDashboardStats user_id => [as_string user_id]
  | PostWorkflows _ | GetWorkflowResult _ | GetLogs _ | PostUploadUrl _ _ _ _ _
  | GetDownloadUrl _ | GetExecutorPubkey | PostUpload _ _ _ _ _ => []
  end.

(** A request all of whose spliced strings are identifier-like. *)
Definition safe_request (req : Request) : bool :=
  forallb identifier_like (spliced req).

Definition safe_script (script : list (Env * Request)) : bool :=
  forallb (λ step, safe_request step.2) script.

(** ** Further scenarios *)

Module GateScenario.
Import Scenario.

(** The approvals table of [B] cannot be read. *)
Definition approvals_down : Env :=
  with_store_fault
    (λ op, match op with
           | BqIsWorkflowApproved _ clientId =>
               if bool_decide (clientId = "B") then Some "quota exceeded" else None
           | _ => None
           end)
    calm.

End GateScenario.

Module FaultScenario.
Import Scenario.

(** The store rejects every write of the status COMPLETED. *)
Definition completed_rejected : Env :=
  with_store_fault
    (λ op, match op with
           | BqUpdateWorkflowStatus _ _ COMPLETED => Some "quota exceeded"
           | _ => None
           end)
    calm.

(** The executor is down and the store rejects every write of the status
    FAILED. *)
Definition failed_rejected : Env :=
  with_store_fault
    (λ op, match op with
           | BqUpdateWorkflowStatus _ _ FAILED => Some "quota exceeded"
           | _ => None
           end)
    executor_down.

(** The key tables cannot be read. *)
Definition keys_down : Env :=
  with_store_fault
    (λ op, match op with
           | BqGetKeys _ _ => Some "quota exceeded"
           | _ => None
           end)
    calm.

End FaultScenario.

Module Rekey.
Import Scenario.

(** On top of [prepared], [A] records a second key for the dataset [d1]. *)
Definition rekeyed : Store :=
  (serve config
     [ (at_time 9 calm,
        PostUploadUrl (Some "W") (Some "d1") (Some "data.key2") (Some "key")
          (Some "A")) ]
     prepared).2.

(** The request a run of [W] by [A] with collaborator [B] then sends. *)
Definition payload : ExecuteRequest := {|
  x_workflow_id := "W";
  workload_gcs :=
    "gs://yellowsense-technologies-cleanroom/workloads/fraud-detector.ipynb";
  datasets :=
    [ {| owner := "A";
         ciphertext_gcs :=
           "gs://yellowsense-technologies-cleanroom/datasets/A/W/d1/data.enc";
         wrapped_dek_gcs :=
           "gs://yellowsense-technologies-cleanroom/keys/A/W/d1/data.key2" |};
      {| owner := "B";
         ciphertext_gcs :=
           "gs://yellowsense-technologies-cleanroom/datasets/B/W/d3/data.enc";
         wrapped_dek_gcs :=
           "gs://yellowsense-technologies-cleanroom/keys/B/W/d3/data.enc" |} ];
  result_base := "gs://yellowsense-technologies-cleanroom/results/W/result";
  executed_notebook_base :=
    "gs://yellowsense-technologies-cleanroom/results/W/executed"
|}.

End Rekey.

Module Poison.
Import Scenario.

(** The executor reports a result path that is not a [gs://] URI. *)
Definition local_paths : Env := {|
  store_fault := store_fault calm;
  executor := λ _, Ok {| executed_notebook_path := "gs://b/results/W/executed.ipynb";
                         result_paths := Some ["gs://b/results/W/result_0.json";
                                               "/tmp/result_1.json"] |};
  executor_get := executor_get calm;
  file_exists := file_exists calm;
  signed_url := signed_url calm;
  signed_read_url := signed_read_url calm;
  upload_fault := upload_fault calm;
  now := now calm;
  current_timestamp := current_timestamp calm;
  uuidv4 := uuidv4 calm;
  first_rejection := first_rejection calm
|}.

(** The store after [A] has run [W] with that executor. *)
Definition poisoned : Store :=
  (serve config [ (local_paths, PostRun "W" (Some "A") (Some (QString "B"))) ]
     prepared).2.

(** The row that run has stored for the second path. *)
Definition bad_row : ExecutionResult := {|
  r_id := "uuid-1";
  r_workflow_id := "W";
  r_executed_notebook_path := "gs://b/results/W/executed.ipynb";
  r_result_path := "/tmp/result_1.json";
  r_created_at := 10
|}.

(** The store after [A] has run [W] in [calm]. *)
Definition completed : Store :=
  (serve config [ (calm, PostRun "W" (Some "A") (Some (QString "B"))) ]
     prepared).2.

End Poison.

Module Alone.
Import Scenario.

(** As [prepared], but [A] creates [W] without naming any collaborator. *)
Definition prepared_alone : Store :=
  (serve config
     [ (at_time 1 calm,
        PostWorkflows {| c_workflow_id := Some "W"; c_creator := Some "A";
                         c_collaborators := Some [] |});
       (at_time 2 calm, upload "dataset" "A" "d1");
       (at_time 3 calm, upload "key" "A" "d1");
       (at_time 4 calm, upload "dataset" "A" "d2");
       (at_time 5 calm, upload "dataset" "B" "d3");
       (at_time 6 calm, upload "key" "B" "d3");
       (at_time 7 calm, upload "key" "C" "d4");
       (at_time 8 calm, PostApprove "W" (Some "B")) ]
     empty_store).2.

End Alone.

Module Rerun.
Import Scenario.

(** On top of [Poison.completed], [A] runs [W] once more, ten instants
    later, with the same answer of the executor. *)
Definition twice : Store :=
  (serve config
     [ (at_time 20 calm, PostRun "W" (Some "A") (Some (QString "B"))) ]
     Poison.completed).2.

End Rerun.

Module Lifecycle.
Import Scenario.

(** [C] creates [V] with collaborators [B] and [D]; [B] uploads a dataset
    and its key; both approve; [C] runs [V] naming [B], then runs it again
    naming [D], who has uploaded nothing.  The status is read after the
    creation and after each run. *)
Definition script : list (Env * Request) :=
  [ (at_time 1 calm,
     PostWorkflows {| c_workflow_id := Some "V"; c_creator := Some "C";
                      c_collaborators := Some ["B"; "D"] |});
    (at_time 2 calm, GetWorkflow "V" (Some "C"));
    (at_time 3 calm,
     PostUploadUrl (Some "V") (Some "d1") (Some "data.enc") (Some "dataset")
       (Some "B"));
    (at_time 4 calm,
     PostUploadUrl (Some "V") (Some "d1") (Some "data.enc.key") (Some "key")
       (Some "B"));
    (at_time 5 calm, PostApprove "V" (Some "B"));
    (at_time 6 calm, PostApprove "V" (Some "D"));
    (at_time 7 calm, PostRun "V" (Some "C") (Some (QString "B")));
    (at_time 8 calm, GetWorkflow "V" (Some "C"));
    (at_time 9 calm, PostRun "V" (Some "C") (Some (QString "D")));
    (at_time 10 calm, GetWorkflow "V" (Some "C")) ].

End Lifecycle.

(** ** Tactics *)

(** Two runs that differ only in how their event lists are bracketed. *)
Ltac same_run :=
  simpl; rewrite ?app_nil_r; repeat rewrite <- app_assoc; simpl; reflexivity.

(** * Properties *)

(** ** Running the service functions *)

Section ServiceFacts.
Context (env : Env).

Lemma isWorkflowApproved_run workflowId clientId s :
  bigqueryService.isWorkflowApproved env workflowId clientId s
  = MkRun (Ok (approved_now env s workflowId clientId)) s
      [EvStore (BqIsWorkflowApproved workflowId clientId)].
Proof.
  unfold bigqueryService.isWorkflowApproved, approved_now, try_catch, bind,
    bigqueryService.bq_read, ret.
  destruct (store_fault env _) as [e|]; simpl; [done|].
  destruct (bigqueryService.select_latest_approval _ _ _) as [|row rows]; simpl;
    [done|].
  by destruct (a_approved row).
Qed.

Lemma getWorkflow_run workflowId creator s :
  bigqueryService.getWorkflow env workflowId creator s
  = MkRun
      match store_fault env (BqGetWorkflow workflowId creator) with
      | Some e => Throw ("Failed to get workflow: " +:+ e)
      | None => Ok (head (bigqueryService.select_workflow workflowId creator s))
      end
      s [EvStore (BqGetWorkflow workflowId creator)].
Proof.
  unfold bigqueryService.getWorkflow, try_catch, bind, bigqueryService.bq_read,
    ret, throw.
  destruct (store_fault env _) as [e|]; simpl; [done|].
  by destruct (bigqueryService.select_workflow _ _ _).
Qed.

Lemma updateWorkflowStatus_run workflowId creator status s :
  bigqueryService.updateWorkflowStatus env workflowId creator status s
  = match store_fault env (BqUpdateWorkflowStatus workflowId creator status) with
    | Some e =>
        MkRun (Throw ("Failed to update workflow status: " +:+ e)) s
          [EvStore (BqUpdateWorkflowStatus workflowId creator status)]
    | None =>
        MkRun (Ok tt) (bigqueryService.update_status env workflowId creator status s)
          [EvStore (BqUpdateWorkflowStatus workflowId creator status)]
    end.
Proof.
  unfold bigqueryService.updateWorkflowStatus, try_catch, bigqueryService.bq_write,
    throw.
  by destruct (store_fault env _) as [e|].
Qed.

Lemma getDatasets_run workflowId o s :
  bigqueryService.getDatasets env workflowId o s
  = MkRun
      match store_fault env (BqGetDatasets workflowId o) with
      | Some e => Throw ("Failed to get datasets: " +:+ e)
      | None => Ok (bigqueryService.select_datasets workflowId o s)
      end
      s [EvStore (BqGetDatasets workflowId o)].
Proof.
  unfold bigqueryService.getDatasets, try_catch, bigqueryService.bq_read, throw.
  by destruct (store_fault env _) as [e|].
Qed.

Lemma getKeys_run workflowId o s :
  bigqueryService.getKeys env workflowId o s
  = MkRun
      match store_fault env (BqGetKeys workflowId o) with
      | Some e => Throw ("Failed to get keys: " +:+ e)
      | None => Ok (bigqueryService.select_keys workflowId o s)
      end
      s [EvStore (BqGetKeys workflowId o)].
Proof.
  unfold bigqueryService.getKeys, try_catch, bigqueryService.bq_read, throw.
  by destruct (store_fault env _) as [e|].
Qed.

Lemma insertResults_run rows s :
  bigqueryService.insertResults env rows s
  = match store_fault env (BqInsertResults rows) with
    | Some e =>
        MkRun (Throw ("Failed to insert results: " +:+ e)) s
          [EvStore (BqInsertResults rows)]
    | None =>
        MkRun (Ok tt) (bigqueryService.insert_results rows s)
          [EvStore (BqInsertResults rows)]
    end.
Proof.
  unfold bigqueryService.insertResults, try_catch, bigqueryService.bq_write, throw.
  by destruct (store_fault env _) as [e|].
Qed.

Lemma createWorkflow_run workflow s :
  w_updated_at workflow = None →
  bigqueryService.createWorkflow env workflow s
  = match store_fault env
            (BqCreateWorkflow (w_creator workflow) (w_workflow_id workflow)) with
    | Some e =>
        MkRun (Throw ("Failed to insert workflow: " +:+ e)) s
          [EvStore (BqCreateWorkflow (w_creator workflow) (w_workflow_id workflow))]
    | None =>
        MkRun (Ok tt) (bigqueryService.insert_workflow workflow s)
          [EvStore (BqCreateWorkflow (w_creator workflow) (w_workflow_id workflow))]
    end.
Proof.
  intros Hu.
  unfold bigqueryService.createWorkflow, try_catch, bigqueryService.bq_write, throw.
  destruct workflow; simpl in *; subst.
  by destruct (store_fault env _) as [e|].
Qed.

Lemma approveWorkflow_run workflowId clientId s :
  bigqueryService.approveWorkflow env workflowId clientId s
  = match store_fault env (BqApproveWorkflow workflowId clientId) with
    | Some e =>
        MkRun (Throw ("Failed to approve workflow: " +:+ e)) s
          [EvStore (BqApproveWorkflow workflowId clientId)]
    | None =>
        MkRun (Ok tt)
          (bigqueryService.insert_approval
             {| a_workflow_id := workflowId; a_approver := clientId;
                a_approved := true; a_approved_at := current_timestamp env |} s)
          [EvStore (BqApproveWorkflow workflowId clientId)]
    end.
Proof.
  unfold bigqueryService.approveWorkflow, try_catch, bigqueryService.bq_write, throw.
  by destruct (store_fault env _) as [e|].
Qed.

End ServiceFacts.

(** ** The loops of [runWorkflow] *)

Arguments executes : simpl never.
Arguments writes : simpl never.

Lemma executes_nil : executes [] = [].
Proof. done. Qed.

Lemma executes_app evs1 evs2 :
  executes (evs1 ++ evs2) = executes evs1 ++ executes evs2.
Proof. unfold executes. apply omap_app. Qed.

Lemma executes_store op evs : executes (EvStore op :: evs) = executes evs.
Proof. done. Qed.

Lemma executes_execute url payload t evs :
  executes (EvExecute url payload t :: evs) = (url, payload, t) :: executes evs.
Proof. done. Qed.

Lemma executes_file_exists p evs : executes (EvFileExists p :: evs) = executes evs.
Proof. done. Qed.

Lemma writes_nil : writes [] = [].
Proof. done. Qed.

Lemma writes_app evs1 evs2 : writes (evs1 ++ evs2) = writes evs1 ++ writes evs2.
Proof. unfold writes, store_ops. by rewrite omap_app, filter_app. Qed.

Lemma writes_store op evs :
  writes (EvStore op :: evs) = if is_write op then op :: writes evs else writes evs.
Proof.
  unfold writes, store_ops. simpl. rewrite filter_cons.
  destruct (is_write op); by case_decide.
Qed.

Lemma writes_execute url payload t evs :
  writes (EvExecute url payload t :: evs) = writes evs.
Proof. done. Qed.

Lemma writes_file_exists p evs : writes (EvFileExists p :: evs) = writes evs.
Proof. done. Qed.

Create Rewrite HintDb trace.
#[global] Hint Rewrite executes_nil executes_app executes_store executes_execute
  executes_file_exists writes_nil writes_app writes_store writes_execute
  writes_file_exists : trace.

Section LoopFacts.
Context (cfg : Config) (env : Env).

Lemma checkApprovals_trace workflow_id collaborators approved :
  let evs := (λ c, EvStore (BqIsWorkflowApproved workflow_id c))
             <$> asked approved collaborators in
  executes evs = [] ∧ writes evs = [].
Proof.
  simpl. induction collaborators as [|c rest [IH1 IH2]]; simpl; [done|].
  autorewrite with trace. simpl.
  destruct (approved c); simpl; [done|]. by autorewrite with trace.
Qed.

Lemma approval_checks_trace workflow_id (checked : list string) :
  let evs := (λ c, EvStore (BqIsWorkflowApproved workflow_id c)) <$> checked in
  writes evs = [] ∧ executes evs = [].
Proof.
  simpl. induction checked as [|c rest [IH1 IH2]]; simpl; [done|].
  by autorewrite with trace.
Qed.

Lemma checkApprovals_run workflow_id collaborators s :
  workflowController.checkApprovals env workflow_id collaborators s
  = MkRun
      (Ok (List.find (λ c, negb (approved_now env s workflow_id c)) collaborators))
      s
      ((λ c, EvStore (BqIsWorkflowApproved workflow_id c))
       <$> asked (approved_now env s workflow_id) collaborators).
Proof.
  induction collaborators as [|c rest IH]; simpl; [done|].
  unfold bind. rewrite isWorkflowApproved_run. simpl.
  destruct (approved_now env s workflow_id c); simpl; [|done].
  by rewrite IH.
Qed.

Lemma matchDatasets_app o ds ks acc :
  workflowController.matchDatasets o ds ks acc
  = acc ++ omap
             (λ d,
                (λ k, {| owner := o; ciphertext_gcs := d_gcs_path d;
                         wrapped_dek_gcs := k_gcs_path k |})
                <$> List.find (λ k, bool_decide (k_dataset_id k = d_dataset_id d)) ks)
             ds.
Proof.
  unfold workflowController.matchDatasets.
  revert acc. induction ds as [|d ds IH]; intros acc; simpl.
  - by rewrite app_nil_r.
  - rewrite IH. destruct (List.find _ ks) as [k|]; simpl; [|done].
    by rewrite <- app_assoc.
Qed.

Lemma matchDatasets_owner workflow_id o acc s :
  workflowController.matchDatasets o
    (bigqueryService.select_datasets workflow_id o s)
    (bigqueryService.select_keys workflow_id o s) acc
  = acc ++ owner_tuples s workflow_id o.
Proof. apply matchDatasets_app. Qed.

Lemma assemble_unfold s workflow_id creator collaborators :
  assemble s workflow_id creator collaborators
  = owner_tuples s workflow_id creator
    ++ concat (owner_tuples s workflow_id
               <$> filter (λ c, c ≠ creator) collaborators).
Proof. done. Qed.

Lemma read_events_trace workflow_id owners :
  executes (read_events env workflow_id owners) = []
  ∧ writes (read_events env workflow_id owners) = [].
Proof.
  induction owners as [|o rest [IH1 IH2]]; simpl; [done|].
  autorewrite with trace. simpl.
  destruct (store_fault env (BqGetDatasets workflow_id o)); [done|].
  autorewrite with trace. simpl.
  by destruct (store_fault env (BqGetKeys workflow_id o)).
Qed.

Lemma gatherCollaborators_run workflow_id creator collaborators acc s :
  workflowController.gatherCollaborators env workflow_id creator collaborators acc s
  = MkRun
      match first_read_fault env workflow_id
              (filter (λ c, c ≠ creator) collaborators) with
      | Some e => Throw e
      | None =>
          Ok (acc ++ concat (owner_tuples s workflow_id
                             <$> filter (λ c, c ≠ creator) collaborators))
      end
      s
      (read_events env workflow_id (filter (λ c, c ≠ creator) collaborators)).
Proof.
  revert acc. induction collaborators as [|c rest IH]; intros acc; simpl.
  - by rewrite app_nil_r.
  - rewrite filter_cons. case_bool_decide as Hc; simpl.
    + subst c. destruct (decide (creator ≠ creator)) as [Hn|_]; [done|]. apply IH.
    + destruct (decide (c ≠ creator)) as [_|Hn]; [|done]. simpl.
      unfold bind. rewrite getDatasets_run. simpl.
      destruct (store_fault env (BqGetDatasets workflow_id c)) as [e|]; simpl;
        [done|].
      rewrite getKeys_run. simpl.
      destruct (store_fault env (BqGetKeys workflow_id c)) as [e|]; simpl;
        [done|].
      rewrite IH. simpl.
      destruct (first_read_fault _ _ _); [done|].
      by rewrite matchDatasets_app, <- app_assoc.
Qed.

End LoopFacts.

(** ** The executor block and the whole run, path by path *)

Section RunFacts.
Context (cfg : Config) (env : Env).

Lemma prefix_gs x : String.prefix "gs://" ("gs://" +:+ x) = true.
Proof. by destruct x. Qed.

Lemma getModelPath_run workflow_id s :
  storageService.getModelPath cfg env workflow_id s
  = MkRun
      (Ok (if file_exists env (model_path cfg workflow_id)
           then Some (model_path cfg workflow_id) else None))
      s [EvFileExists (model_path cfg workflow_id)].
Proof.
  unfold storageService.getModelPath, storageService.fileExists,
    storageService.getGcsPath, bind, ret, model_path.
  rewrite prefix_gs. simpl.
  by destruct (file_exists env _).
Qed.

Lemma callExecutor_run workflow_id creator payload s :
  workflowController.callExecutor cfg env workflow_id creator payload s
  = match executor env payload with
    | Throw e =>
        executor_failed env workflow_id creator e [execute_event cfg payload] s
    | Ok info =>
        let rows := result_rows env workflow_id info in
        match rows with
        | [] =>
            match store_fault env
                    (BqUpdateWorkflowStatus workflow_id creator COMPLETED) with
            | Some e =>
                executor_failed env workflow_id creator
                  ("Failed to update workflow status: " +:+ e)
                  [execute_event cfg payload;
                   EvStore (BqUpdateWorkflowStatus workflow_id creator COMPLETED)]
                  s
            | None =>
                MkRun
                  (Ok {| status_code := 200;
                         json := JRun (executed_notebook_path info)
                                   (default [] (result_paths info))
                                   (if file_exists env (model_path cfg workflow_id)
                                    then Some (model_path cfg workflow_id)
                                    else None) |})
                  (bigqueryService.update_status env workflow_id creator COMPLETED s)
                  [execute_event cfg payload;
                   EvStore (BqUpdateWorkflowStatus workflow_id creator COMPLETED);
                   EvFileExists (model_path cfg workflow_id)]
            end
        | _ :: _ =>
            match store_fault env (BqInsertResults rows) with
            | Some e =>
                executor_failed env workflow_id creator
                  ("Failed to insert results: " +:+ e)
                  [execute_event cfg payload; EvStore (BqInsertResults rows)] s
            | None =>
                match store_fault env
                        (BqUpdateWorkflowStatus workflow_id creator COMPLETED) with
                | Some e =>
                    executor_failed env workflow_id creator
                      ("Failed to update workflow status: " +:+ e)
                      [execute_event cfg payload; EvStore (BqInsertResults rows);
                       EvStore (BqUpdateWorkflowStatus workflow_id creator COMPLETED)]
                      (bigqueryService.insert_results rows s)
                | None =>
                    MkRun
                      (Ok {| status_code := 200;
                             json := JRun (executed_notebook_path info)
                                       (default [] (result_paths info))
                                       (if file_exists env (model_path cfg workflow_id)
                                        then Some (model_path cfg workflow_id)
                                        else None) |})
                      (bigqueryService.update_status env workflow_id creator COMPLETED
                         (bigqueryService.insert_results rows s))
                      [execute_event cfg payload; EvStore (BqInsertResults rows);
                       EvStore (BqUpdateWorkflowStatus workflow_id creator COMPLETED);
                       EvFileExists (model_path cfg workflow_id)]
                end
            end
        end
    end.
Proof.
  unfold workflowController.callExecutor, try_catch, bind,
    workflowController.axios_post, respond, ret, executor_failed, execute_event.
  simpl.
  destruct (executor env payload) as [info|e]; simpl.
  - fold (result_rows env workflow_id info).
    destruct (result_rows env workflow_id info) as [|row rows] eqn:Hrows; simpl.
    + rewrite updateWorkflowStatus_run.
      destruct (store_fault env (BqUpdateWorkflowStatus _ _ COMPLETED)); simpl.
      * rewrite updateWorkflowStatus_run.
        by destruct (store_fault env (BqUpdateWorkflowStatus _ _ FAILED)).
      * by rewrite getModelPath_run.
    + rewrite insertResults_run.
      destruct (store_fault env (BqInsertResults _)); simpl.
      * rewrite updateWorkflowStatus_run.
        by destruct (store_fault env (BqUpdateWorkflowStatus _ _ FAILED)).
      * rewrite updateWorkflowStatus_run.
        destruct (store_fault env (BqUpdateWorkflowStatus _ _ COMPLETED)); simpl.
        -- rewrite updateWorkflowStatus_run.
           by destruct (store_fault env (BqUpdateWorkflowStatus _ _ FAILED)).
        -- by rewrite getModelPath_run.
  - rewrite updateWorkflowStatus_run.
    by destruct (store_fault env (BqUpdateWorkflowStatus _ _ FAILED)).
Qed.

(** Every path through [runWorkflow]: the answer, the store and the
    external calls. *)
Lemma runWorkflow_run workflow_id creator_ collaborators s :
  workflowController.runWorkflow cfg env workflow_id creator_ collaborators s
  = if falsy creator_ || falsy_query collaborators then
      MkRun (Ok {| status_code := 400;
                   json := JError "creator and collaborators parameters are required"
                             None |}) s []
    else
      let creator := as_string creator_ in
      let l := workflowController.collaboratorList collaborators in
      let checks := (λ c, EvStore (BqIsWorkflowApproved workflow_id c))
                    <$> asked (approved_now env s workflow_id) l in
      let pre := checks ++ [EvStore (BqGetWorkflow workflow_id creator)] in
      let failure e := {| status_code := 500;
                          json := JError "Failed to run workflow" (Some e) |} in
      match List.find (λ c, negb (approved_now env s workflow_id c)) l with
      | Some c =>
          MkRun (Ok {| status_code := 403;
                       json := JError ("Workflow not approved by " +:+ c) None |})
            s checks
      | None =>
      match store_fault env (BqGetWorkflow workflow_id creator) with
      | Some e => MkRun (Ok (failure ("Failed to get workflow: " +:+ e))) s pre
      | None =>
      match head (bigqueryService.select_workflow workflow_id creator s) with
      | None =>
          MkRun (Ok {| status_code := 404; json := JError "Workflow not found" None |})
            s pre
      | Some workflow =>
      let pre :=
        pre ++ [EvStore (BqUpdateWorkflowStatus workflow_id creator RUNNING)] in
      match store_fault env (BqUpdateWorkflowStatus workflow_id creator RUNNING) with
      | Some e =>
          MkRun (Ok (failure ("Failed to update workflow status: " +:+ e))) s pre
      | None =>
      let s1 := bigqueryService.update_status env workflow_id creator RUNNING s in
      let pre := pre ++ read_events env workflow_id (owners_of creator l) in
      match first_read_fault env workflow_id (owners_of creator l) with
      | Some e => MkRun (Ok (failure e)) s1 pre
      | None =>
      let datasets_ := assemble s1 workflow_id creator l in
      if bool_decide (length datasets_ = 0) then
        MkRun (Ok {| status_code := 400;
                     json := JError "No datasets found for this workflow" None |})
          s1 pre
      else
        let r := workflowController.callExecutor cfg env workflow_id creator
                   {| x_workflow_id := workflow_id;
                      workload_gcs := w_workload_path workflow;
                      datasets := datasets_;
                      result_base :=
                        "gs://" +:+ gcp_bucket cfg +:+ "/results/" +:+ workflow_id
                          +:+ "/result";
                      executed_notebook_base :=
                        "gs://" +:+ gcp_bucket cfg +:+ "/results/" +:+ workflow_id
                          +:+ "/executed" |} s1 in
        MkRun (Ok match outcome r with
                  | Ok response => response
                  | Throw e => failure e
                  end)
          (store_after r) (pre ++ events r)
      end end end end end.
Proof.
  unfold workflowController.runWorkflow, try_catch, bind, respond, ret.
  destruct (falsy creator_ || falsy_query collaborators); [done|].
  rewrite checkApprovals_run. simpl.
  destruct (List.find _ _) as [c|]; simpl; [same_run|].
  rewrite getWorkflow_run.
  destruct (store_fault env (BqGetWorkflow _ _)) as [e|]; simpl; [same_run|].
  destruct (head _) as [workflow|]; simpl; [|same_run].
  rewrite updateWorkflowStatus_run.
  destruct (store_fault env (BqUpdateWorkflowStatus _ _ RUNNING)) as [e|]; simpl;
    [same_run|].
  rewrite getDatasets_run.
  destruct (store_fault env (BqGetDatasets _ _)) as [e|]; simpl; [same_run|].
  rewrite getKeys_run.
  destruct (store_fault env (BqGetKeys _ _)) as [e|]; simpl; [same_run|].
  rewrite gatherCollaborators_run.
  destruct (first_read_fault _ _ _) as [e|]; simpl; [same_run|].
  rewrite matchDatasets_owner, !assemble_unfold. simpl.
  case_bool_decide; simpl; [same_run|].
  destruct (workflowController.callExecutor _ _ _ _ _ _) as [[response|e] s2 evs];
    simpl; same_run.
Qed.

End RunFacts.

(** ** The approval gate *)

Section GateFacts.
Context {A : Type} (key : A → Timestamp).

Lemma later_first_trans : Transitive (later_first key).
Proof. unfold later_first. intros x y z ??. lia. Qed.

Lemma later_first_total : Total (later_first key).
Proof. unfold later_first. intros x y. lia. Qed.

#[local] Existing Instance later_first_trans.
#[local] Existing Instance later_first_total.

Lemma order_by_desc_perm rows : order_by_desc key rows ≡ₚ rows.
Proof. apply merge_sort_Permutation. Qed.

Lemma order_by_desc_elem x rows : x ∈ order_by_desc key rows ↔ x ∈ rows.
Proof. by rewrite order_by_desc_perm. Qed.

Lemma order_by_desc_nil rows : order_by_desc key rows = [] ↔ rows = [].
Proof.
  split; [|by intros ->].
  intros H. apply Permutation_nil_r. by rewrite <- H, order_by_desc_perm.
Qed.

Lemma order_by_desc_head x rows :
  head (order_by_desc key rows) = Some x →
  x ∈ rows ∧ ∀ y, y ∈ rows → key y ≤ key x.
Proof.
  intros Hh.
  pose proof (StronglySorted_merge_sort (later_first key) rows) as Hs.
  fold (order_by_desc key rows) in Hs.
  destruct (order_by_desc key rows) as [|x' sorted] eqn:Ho; simplify_eq/=.
  assert (Hin : ∀ y, y ∈ rows ↔ y ∈ x :: sorted).
  { intros y. by rewrite <- Ho, order_by_desc_elem. }
  split; [apply Hin; left|].
  intros y [->|Hy]%Hin%elem_of_cons; [done|].
  apply StronglySorted_inv in Hs as [_ Hall].
  rewrite Forall_forall in Hall. by apply Hall.
Qed.

End GateFacts.

Lemma find_split {A : Type} (f : A → bool) (l : list A) (x : A) :
  List.find f l = Some x ↔
  ∃ before rest,
    l = before ++ x :: rest ∧ f x = true ∧ ∀ y, y ∈ before → f y = false.
Proof.
  induction l as [|a l IH]; simpl.
  - split; [done|]. intros (before & rest & H & _). by destruct before.
  - destruct (f a) eqn:Ha.
    + split.
      * intros [= ->]. exists [], l. split_and!; [done..|]. by intros y ?%elem_of_nil.
      * intros (before & rest & H & Hx & Hb). destruct before as [|b before].
        -- by simplify_eq/=.
        -- simplify_eq/=. rewrite Hb in Ha; [done|by left].
    + rewrite IH. split.
      * intros (before & rest & -> & Hx & Hb). exists (a :: before), rest.
        split_and!; [done..|]. by intros y [->|?]%elem_of_cons; auto.
      * intros (before & rest & H & Hx & Hb). destruct before as [|b before].
        -- simplify_eq/=. congruence.
        -- simplify_eq/=. exists before, rest. split_and!; [done..|].
           intros y ?. apply Hb. by right.
Qed.

Lemma find_none_iff {A : Type} (f : A → bool) (l : list A) :
  List.find f l = None ↔ ∀ y, y ∈ l → f y = false.
Proof.
  induction l as [|a l IH]; simpl.
  - split; [|done]. by intros _ y ?%elem_of_nil.
  - destruct (f a) eqn:Ha.
    + split; [done|]. intros H. rewrite H in Ha; [done|by left].
    + rewrite IH. split.
      * by intros H y [->|?]%elem_of_cons; auto.
      * intros H y ?. apply H. by right.
Qed.

Lemma asked_split (approved : string → bool) before c rest :
  (∀ y, y ∈ before → approved y = true) → approved c = false →
  asked approved (before ++ c :: rest) = before ++ [c].
Proof.
  intros Hb Hc. induction before as [|b before IH]; simpl.
  - by rewrite Hc.
  - rewrite Hb by (by left). f_equal. apply IH. intros y ?. apply Hb. by right.
Qed.

Section ApprovalFacts.
Context (env : Env).

Lemma approved_now_latest s workflowId clientId :
  approved_now env s workflowId clientId
  = match store_fault env (BqIsWorkflowApproved workflowId clientId) with
    | Some _ => false
    | None =>
        match latest_approval s workflowId clientId with
        | None => false
        | Some row => a_approved row
        end
    end.
Proof.
  unfold approved_now, bigqueryService.select_latest_approval, latest_approval,
    approval_rows.
  destruct (store_fault env _); [done|].
  by destruct (order_by_desc _ _).
Qed.

Lemma approved_now_false s workflowId clientId :
  approved_now env s workflowId clientId = false
  ↔ fails_gate env s workflowId clientId.
Proof.
  rewrite approved_now_latest. unfold fails_gate, lacks_approval.
  destruct (store_fault env _) as [e|].
  - split; [left; eauto|done].
  - destruct (latest_approval _ _ _) as [row|].
    + split; [by right|]. by intros [[? [=]]|?].
    + split; [by right|done].
Qed.

Lemma approved_now_true s workflowId clientId :
  approved_now env s workflowId clientId = true
  ↔ ¬ fails_gate env s workflowId clientId.
Proof.
  rewrite <- approved_now_false. by destruct (approved_now _ _ _ _).
Qed.

End ApprovalFacts.

(** C7. Whatever the store does, the approval check returns a boolean and
    never throws, leaves the store as it is and issues exactly one query.
    When the query rejects, the answer is [false].  Otherwise the answer is
    [false] if the approver has no row for the workflow, and else the
    [approved] flag of a most recent such row: the head of the rows
    ordered by [approved_at] descending. *)
Theorem isWorkflowApproved_fail_closed (env : Env) (workflowId clientId : string)
    (s : Store) :
  ∃ answer : bool,
    bigqueryService.isWorkflowApproved env workflowId clientId s
    = MkRun (Ok answer) s [EvStore (BqIsWorkflowApproved workflowId clientId)]
    ∧ match store_fault env (BqIsWorkflowApproved workflowId clientId) with
      | Some _ => answer = false
      | None =>
          (approval_rows s workflowId clientId = [] ∧ answer = false)
          ∨ (∃ row, most_recent (approval_rows s workflowId clientId) row
                    ∧ head (order_by_desc a_approved_at
                              (approval_rows s workflowId clientId)) = Some row
                    ∧ answer = a_approved row)
      end.
Proof.
  exists (approved_now env s workflowId clientId).
  split; [apply isWorkflowApproved_run|].
  rewrite approved_now_latest. unfold latest_approval.
  destruct (store_fault env _) as [e|]; [done|].
  destruct (head _) as [row|] eqn:Hhead.
  - right. exists row. split_and!; [|done..].
    by apply order_by_desc_head in Hhead.
  - left. split; [|done]. apply (order_by_desc_nil a_approved_at).
    by destruct (order_by_desc _ _).
Qed.

Section RunOutcomes.
Context (cfg : Config) (env : Env).

Lemma executor_failed_outcome workflow_id creator e evs s response :
  outcome (executor_failed env workflow_id creator e evs s) = Ok response →
  status_code response = 502.
Proof.
  unfold executor_failed. destruct (store_fault env _); simpl; [done|].
  by intros [= <-].
Qed.

Lemma callExecutor_status workflow_id creator payload s response :
  outcome (workflowController.callExecutor cfg env workflow_id creator payload s)
  = Ok response →
  status_code response = 200 ∨ status_code response = 502.
Proof.
  rewrite callExecutor_run.
  repeat
    match goal with
    | |- context [match ?x with _ => _ end] => destruct x eqn:?; simpl
    | |- outcome (executor_failed _ _ _ _ _ _) = _ → _ =>
        intros ?%executor_failed_outcome; by right
    end;
    intros [= <-]; by left.
Qed.

(** After the gate has let every collaborator through, the answer is
    never 403. *)
Lemma runWorkflow_past_gate workflow_id creator collaborators s :
  falsy creator || falsy_query collaborators = false →
  List.find (λ c, negb (approved_now env s workflow_id c))
    (workflowController.collaboratorList collaborators) = None →
  ∃ response,
    outcome (workflowController.runWorkflow cfg env workflow_id creator
               collaborators s) = Ok response
    ∧ status_code response ≠ 403.
Proof.
  intros Hguard Hfind. rewrite runWorkflow_run, Hguard. simpl. rewrite Hfind.
  repeat
    match goal with
    | |- context [match ?x with _ => _ end] =>
        lazymatch x with
        | outcome _ => fail
        | _ => destruct x eqn:?; simpl
        end
    end;
    try (eexists; split; [done|done]).
  destruct (outcome _) as [response|e] eqn:Hout; simpl.
  - exists response. split; [done|].
    apply callExecutor_status in Hout as [-> | ->]; done.
  - eexists; split; done.
Qed.

End RunOutcomes.

(** C1, as amended.  For a run request that carries a creator and a
    collaborator list, [run] answers 403 exactly when some collaborator of
    the list fails the gate: its approval query rejects, or its latest
    Approval row is absent or negative.  The list is checked in order: with
    [c] the first collaborator that fails, the answer names [c], only the
    approval queries for the collaborators up to [c] were issued, so that
    there is no status update and no call to the executor, and the store is
    unchanged. *)
Theorem runWorkflow_not_approved (cfg : Config) (env : Env) (workflow_id : string)
    (creator : option string) (collaborators : option QueryValue) (s : Store) :
  falsy creator = false →
  falsy_query collaborators = false →
  let l := workflowController.collaboratorList collaborators in
  let r := workflowController.runWorkflow cfg env workflow_id creator collaborators s in
  (∃ response,
     outcome r = Ok response
     ∧ (status_code response = 403
        ↔ ∃ c, c ∈ l ∧ fails_gate env s workflow_id c))
  ∧ (∀ passed c rest,
       l = passed ++ c :: rest →
       (∀ p, p ∈ passed → ¬ fails_gate env s workflow_id p) →
       fails_gate env s workflow_id c →
       outcome r
       = Ok {| status_code := 403;
               json := JError ("Workflow not approved by " +:+ c) None |}
       ∧ store_after r = s
       ∧ events r = (λ c, EvStore (BqIsWorkflowApproved workflow_id c))
                    <$> (passed ++ [c])
       ∧ writes (events r) = []
       ∧ executes (events r) = []).
Proof.
  intros Hcreator Hcollab l r.
  assert (Hguard : falsy creator || falsy_query collaborators = false)
    by (by rewrite Hcreator, Hcollab).
  split.
  - destruct (List.find (λ c, negb (approved_now env s workflow_id c)) l)
      as [c|] eqn:Hfind.
    + subst r. rewrite runWorkflow_run, Hguard. simpl. fold l. rewrite Hfind. simpl.
      eexists. split; [done|]. simpl. split; [|done]. intros _.
      apply find_split in Hfind as (before & rest & Hl & Hc & _).
      exists c. split.
      * rewrite Hl. apply elem_of_app. right. by left.
      * apply approved_now_false. by destruct (approved_now _ _ _ _).
    + destruct (runWorkflow_past_gate cfg env workflow_id creator collaborators s
                  Hguard Hfind) as (response & Hout & Hcode).
      exists response. split; [done|]. split; [done|].
      intros (c & Hc & Hfails). exfalso.
      rewrite find_none_iff in Hfind. specialize (Hfind c Hc).
      apply approved_now_false in Hfails. by rewrite Hfails in Hfind.
  - intros passed c rest Hl Hpassed Hc.
    assert (Hfind : List.find (λ c, negb (approved_now env s workflow_id c)) l
                    = Some c).
    { apply find_split. exists passed, rest. split_and!; [done|..].
      - apply approved_now_false in Hc. by rewrite Hc.
      - intros p Hp. apply Hpassed, approved_now_true in Hp. by rewrite Hp. }
    subst r. rewrite runWorkflow_run, Hguard. simpl. fold l. rewrite Hfind. simpl.
    rewrite Hl, asked_split.
    + split_and!; [done..| |]; apply (approval_checks_trace workflow_id).
    + intros p Hp. by apply approved_now_true, Hpassed.
    + by apply approved_now_false.
Qed.

(** C1 as stated fails in both directions.  [B]'s latest approval is
    affirmative, yet a run naming only [B] answers 403 when the approval
    query rejects; and a run that names the unapproved [C] but carries no
    creator answers 400, not 403. *)
Lemma not_approved_iff_fails :
  (let r := workflowController.runWorkflow config GateScenario.approvals_down "W"
              (Some "A") (Some (QString "B")) Scenario.prepared in
   outcome r = Ok {| status_code := 403;
                     json := JError "Workflow not approved by B" None |}
   ∧ ¬ ∃ c, c ∈ workflowController.collaboratorList (Some (QString "B"))
            ∧ lacks_approval Scenario.prepared "W" c)
  ∧ (let r := workflowController.runWorkflow config Scenario.calm "W"
                None (Some (QString "C")) Scenario.prepared in
     outcome r = Ok {| status_code := 400;
                       json := JError "creator and collaborators parameters are required"
                                 None |}
     ∧ ∃ c, c ∈ workflowController.collaboratorList (Some (QString "C"))
            ∧ lacks_approval Scenario.prepared "W" c).
Proof.
  split; simpl.
  - split; [by vm_compute|].
    intros (c & Hc & Hlacks). vm_compute in Hc.
    apply list_elem_of_singleton in Hc as ->. by vm_compute in Hlacks.
  - split; [by vm_compute|].
    exists "C". split; [by left|]. by vm_compute.
Qed.

Lemma runWorkflow_not_approved_witness :
  falsy (Some "A") = false
  ∧ falsy_query (Some (QString "B, C")) = false
  ∧ outcome (workflowController.runWorkflow config Scenario.calm "W" (Some "A")
               (Some (QString "B, C")) Scenario.prepared)
    = Ok {| status_code := 403;
            json := JError "Workflow not approved by C" None |}.
Proof.
  split; [reflexivity|]. split; [reflexivity|].
  destruct (runWorkflow_not_approved config Scenario.calm "W" (Some "A")
              (Some (QString "B, C")) Scenario.prepared eq_refl eq_refl) as [_ H].
  apply (H ["B"] "C" []).
  - reflexivity.
  - intros p Hp. apply list_elem_of_singleton in Hp as ->.
    intros [[e He]|Hlacks]; [by vm_compute in He|by vm_compute in Hlacks].
  - right. by vm_compute.
Defined.

(** ** The dataset/key join *)

Section JoinFacts.
Context (s : Store) (workflowId o : string).

Lemma find_key_Some (d : Dataset) (ks : list WrappedKey) :
  is_Some (List.find (λ k, bool_decide (k_dataset_id k = d_dataset_id d)) ks)
  ↔ Exists (λ k, k_dataset_id k = d_dataset_id d) ks.
Proof.
  induction ks as [|k ks IH]; simpl.
  - split; [by intros [? [=]]|by intros ?%Exists_nil].
  - case_bool_decide as Hk.
    + split; [by left|eauto].
    + rewrite IH, Exists_cons. split; [by right|]. by intros [?|?].
Qed.

Lemma select_keys_ids (d : Dataset) :
  Exists (λ k, k_dataset_id k = d_dataset_id d)
    (bigqueryService.select_keys workflowId o s)
  ↔ has_key s workflowId o d.
Proof.
  unfold bigqueryService.select_keys, has_key. fold (owner_keys s workflowId o).
  rewrite !Exists_exists. setoid_rewrite list_elem_of_fmap.
  setoid_rewrite (order_by_desc_elem k_created_at).
  split.
  - intros (k & (k0 & -> & Hin) & Hid). by exists k0.
  - intros (k & Hin & Hid). eexists. split; [eexists; split; [done|apply Hin]|done].
Qed.

(** The tuples of one owner are, in order, its dataset rows that have a
    key. *)
Lemma owner_tuples_matched :
  (λ tuple, (owner tuple, ciphertext_gcs tuple)) <$> owner_tuples s workflowId o
  = (λ d, (o, d_gcs_path d)) <$> matched_rows s workflowId o.
Proof.
  unfold owner_tuples, matched_rows, bigqueryService.select_datasets.
  fold (owner_datasets s workflowId o).
  induction (order_by_desc d_created_at (owner_datasets s workflowId o))
    as [|d ds IH]; simpl; [done|].
  rewrite filter_cons.
  pose proof (find_key_Some
    {| d_dataset_id := d_dataset_id d; d_workflow_id := workflowId; d_owner := o;
       d_filename := d_filename d; d_gcs_path := d_gcs_path d;
       d_created_at := d_created_at d |}
    (bigqueryService.select_keys workflowId o s)) as Hfind.
  rewrite select_keys_ids in Hfind. simpl in Hfind.
  destruct (List.find _ _) as [k|]; simpl.
  - destruct (decide (has_key s workflowId o d)) as [_|Hn]; simpl.
    + f_equal. apply IH.
    + destruct Hn. apply Hfind. eauto.
  - destruct (decide (has_key s workflowId o d)) as [Hy|_]; simpl; [|apply IH].
    apply Hfind in Hy as [? [=]].
Qed.

(** Each tuple pairs a dataset row and a key row of the same owner's
    tables, with the same dataset id. *)
Lemma owner_tuples_sound tuple :
  tuple ∈ owner_tuples s workflowId o →
  ∃ d k,
    d ∈ owner_datasets s workflowId o ∧ k ∈ owner_keys s workflowId o
    ∧ k_dataset_id k = d_dataset_id d
    ∧ tuple = {| owner := o; ciphertext_gcs := d_gcs_path d;
                 wrapped_dek_gcs := k_gcs_path k |}.
Proof.
  unfold owner_tuples. rewrite list_elem_of_omap.
  intros (d' & Hd' & Htuple).
  destruct (List.find _ _) as [k'|] eqn:Hfind; simplify_eq/=.
  apply find_some in Hfind as [Hk' Hid%bool_decide_eq_true].
  unfold bigqueryService.select_datasets in Hd'.
  apply list_elem_of_fmap in Hd' as (d & -> & Hd).
  rewrite (order_by_desc_elem d_created_at) in Hd.
  apply list_elem_of_In in Hk'.
  unfold bigqueryService.select_keys in Hk'.
  apply list_elem_of_fmap in Hk' as (k & -> & Hk).
  rewrite (order_by_desc_elem k_created_at) in Hk.
  simpl in Hid. by exists d, k.
Qed.

End JoinFacts.

(** ** Reaching the executor *)

Arguments read_events : simpl never.
Arguments first_read_fault : simpl never.
Arguments owners_of : simpl never.
Arguments assemble : simpl never.

Section DispatchFacts.
Context (cfg : Config) (env : Env).

Lemma preflight_trace s workflow_id creator l :
  executes (preflight_events env s workflow_id creator l) = []
  ∧ writes (preflight_events env s workflow_id creator l)
    = [BqUpdateWorkflowStatus workflow_id creator RUNNING].
Proof.
  unfold preflight_events.
  destruct (checkApprovals_trace workflow_id l (approved_now env s workflow_id))
    as [Hc1 Hc2].
  destruct (read_events_trace env workflow_id (owners_of creator l)) as [Hr1 Hr2].
  simpl in Hc1, Hc2.
  by rewrite !executes_app, !writes_app, Hc1, Hc2, Hr1, Hr2.
Qed.

Lemma executor_failed_trace workflow_id creator e evs s :
  executes (events (executor_failed env workflow_id creator e evs s)) = executes evs
  ∧ writes (events (executor_failed env workflow_id creator e evs s))
    = writes evs ++ [BqUpdateWorkflowStatus workflow_id creator FAILED].
Proof.
  unfold executor_failed.
  destruct (store_fault env _); simpl; autorewrite with trace; simpl;
    by rewrite app_nil_r.
Qed.

Lemma callExecutor_executes workflow_id creator payload s :
  executes (events (workflowController.callExecutor cfg env workflow_id creator
                      payload s))
  = [(executor_url cfg +:+ "/execute", payload, 600000%N)].
Proof.
  rewrite callExecutor_run.
  repeat
    match goal with
    | |- context [executor_failed _ _ _ _ _ _] =>
        rewrite (proj1 (executor_failed_trace _ _ _ _ _))
    | |- context [match ?x with _ => _ end] => destruct x eqn:?; simpl
    end;
    unfold execute_event; by autorewrite with trace.
Qed.

Lemma assemble_update_status s workflowId creator status workflowId' creator' l :
  assemble (bigqueryService.update_status env workflowId creator status s)
    workflowId' creator' l
  = assemble s workflowId' creator' l.
Proof. done. Qed.

(** A run that calls the executor went down the one path that does. *)
Lemma runWorkflow_dispatch workflow_id creator collaborators s url payload t :
  (url, payload, t)
  ∈ executes (events (workflowController.runWorkflow cfg env workflow_id creator
                        collaborators s)) →
  let c := as_string creator in
  let l := workflowController.collaboratorList collaborators in
  let s1 := bigqueryService.update_status env workflow_id c RUNNING s in
  let rx := workflowController.callExecutor cfg env workflow_id c payload s1 in
  ∃ workflow,
    head (bigqueryService.select_workflow workflow_id c s) = Some workflow
    ∧ payload = execute_request cfg s workflow_id c l workflow
    ∧ url = executor_url cfg +:+ "/execute" ∧ t = 600000%N
    ∧ assemble s workflow_id c l ≠ []
    ∧ workflowController.runWorkflow cfg env workflow_id creator collaborators s
      = MkRun (Ok match outcome rx with
                  | Ok response => response
                  | Throw e => run_failure e
                  end)
          (store_after rx)
          (preflight_events env s workflow_id c l ++ events rx).
Proof.
  rewrite runWorkflow_run.
  destruct (falsy creator || falsy_query collaborators); simpl;
    [by intros ?%elem_of_nil|].
  pose proof (checkApprovals_trace workflow_id
                (workflowController.collaboratorList collaborators)
                (approved_now env s workflow_id)) as [Hchecks _].
  pose proof (read_events_trace env workflow_id
                (owners_of (as_string creator)
                   (workflowController.collaboratorList collaborators)))
    as [Hreads _].
  simpl in Hchecks.
  repeat
    match goal with
    | |- context [match ?x with _ => _ end] =>
        lazymatch x with
        | outcome _ => fail
        | _ => destruct x eqn:?; simpl
        end
    end;
    autorewrite with trace; rewrite ?Hchecks, ?Hreads; simpl;
    try (by intros ?%elem_of_nil).
  rewrite callExecutor_executes. intros [= -> -> ->]%list_elem_of_singleton.
  eexists. split; [done|]. rewrite assemble_update_status in *.
  split_and!; [done..| |done].
  intros Hnil. rewrite Hnil in *. by case_bool_decide.
Qed.

End DispatchFacts.

Lemma fmap_concat_fmap {A B C : Type} (f : B → C) (g : A → list B) (l : list A) :
  f <$> concat (g <$> l) = concat ((λ a, f <$> g a) <$> l).
Proof.
  induction l as [|a l IH]; [done|].
  rewrite !fmap_cons. simpl. rewrite fmap_app. f_equal. apply IH.
Qed.

Lemma Forall_concat_fmap {A B : Type} (P : B → Prop) (g : A → list B) (l : list A) :
  (∀ a, Forall P (g a)) → Forall P (concat (g <$> l)).
Proof.
  intros H. induction l as [|a l IH]; [by constructor|].
  rewrite fmap_cons. simpl. apply Forall_app. eauto.
Qed.

Section StatusFacts.
Context (env : Env).

Lemma set_status_id workflowId status row :
  w_workflow_id (bigqueryService.set_status env workflowId status row)
  = w_workflow_id row.
Proof. unfold bigqueryService.set_status. by case_decide. Qed.

Lemma select_workflow_update workflowId creator status s :
  bigqueryService.select_workflow workflowId creator
    (bigqueryService.update_status env workflowId creator status s)
  = bigqueryService.set_status env workflowId status
    <$> bigqueryService.select_workflow workflowId creator s.
Proof.
  unfold bigqueryService.select_workflow, bigqueryService.update_status, table.
  simpl. destruct (workflows s !! creator) as [rows|] eqn:Hrows; simpl.
  - rewrite lookup_insert_eq. simpl.
    clear Hrows. induction rows as [|row rows IH]; [done|].
    rewrite fmap_cons.
    destruct (decide (w_workflow_id row = workflowId)) as [Hid|Hid].
    + rewrite !filter_cons_True by (by rewrite ?set_status_id).
      by rewrite fmap_cons, IH.
    + by rewrite !filter_cons_False by (by rewrite ?set_status_id).
  - by rewrite Hrows.
Qed.

Lemma select_workflow_updated workflowId creator status s :
  Forall (λ row, w_status row = status)
    (bigqueryService.select_workflow workflowId creator
       (bigqueryService.update_status env workflowId creator status s)).
Proof.
  rewrite select_workflow_update. apply Forall_fmap, Forall_forall.
  intros row Hrow. unfold bigqueryService.select_workflow in Hrow.
  apply list_elem_of_filter in Hrow as [Hid _]. simpl.
  unfold bigqueryService.set_status. by rewrite decide_True.
Qed.

Lemma select_workflow_update_nil workflowId creator status s :
  bigqueryService.select_workflow workflowId creator
    (bigqueryService.update_status env workflowId creator status s) = []
  ↔ bigqueryService.select_workflow workflowId creator s = [].
Proof.
  rewrite select_workflow_update.
  by destruct (bigqueryService.select_workflow workflowId creator s).
Qed.

End StatusFacts.

(** C3. The dataset list a run sends to the executor is the concatenation,
    over the creator first and then the collaborators in the order given
    (the creator left out of them), of each owner's tuples; an owner's
    tuples are, in query order, exactly its dataset rows that have a key row
    of the same owner with the same dataset id; and every tuple pairs a
    dataset row and a key row taken from the tables of the tuple's own
    owner. *)
Theorem dispatched_datasets (cfg : Config) (env : Env) (workflow_id : string)
    (creator : option string) (collaborators : option QueryValue) (s : Store)
    (url : string) (payload : ExecuteRequest) (t : N) :
  (url, payload, t)
  ∈ executes (events (workflowController.runWorkflow cfg env workflow_id creator
                        collaborators s)) →
  let c := as_string creator in
  let l := workflowController.collaboratorList collaborators in
  datasets payload = assemble s workflow_id c l
  ∧ (λ tuple, (owner tuple, ciphertext_gcs tuple)) <$> datasets payload
    = concat ((λ o, (λ d, (o, d_gcs_path d)) <$> matched_rows s workflow_id o)
              <$> (c :: filter (λ x, x ≠ c) l))
  ∧ Forall
      (λ tuple,
         ∃ d k,
           d ∈ owner_datasets s workflow_id (owner tuple)
           ∧ k ∈ owner_keys s workflow_id (owner tuple)
           ∧ k_dataset_id k = d_dataset_id d
           ∧ ciphertext_gcs tuple = d_gcs_path d
           ∧ wrapped_dek_gcs tuple = k_gcs_path k)
      (datasets payload).
Proof.
  intros Hdispatch c l.
  apply runWorkflow_dispatch in Hdispatch as (workflow & _ & -> & _ & _ & _ & _).
  fold c l.
  change (datasets (execute_request cfg s workflow_id c l workflow))
    with (assemble s workflow_id c l).
  split; [done|]. unfold assemble, owners_of. split.
  - rewrite fmap_concat_fmap. f_equal. apply list_fmap_ext.
    intros _ o _. apply owner_tuples_matched.
  - apply Forall_concat_fmap. intros o. apply Forall_forall. intros tuple Htuple.
    apply owner_tuples_sound in Htuple as (d & k & Hd & Hk & Hid & ->).
    by exists d, k.
Qed.

(** C4 as stated fails: the run of [W] reaches the executor call and the
    call times out, yet the answer is 500, not 502, and the workflow is left
    RUNNING, not FAILED, because the store rejects the status write of the
    failure handler. *)
Lemma executor_failure_left_running :
  let r := workflowController.runWorkflow config FaultScenario.failed_rejected "W"
             (Some "A") (Some (QString "B")) Scenario.prepared in
  executes (events r)
  = [("http://localhost:8443/execute", Scenario.payload, 600000%N)]
  ∧ executor FaultScenario.failed_rejected Scenario.payload
    = Throw "timeout of 600000ms exceeded"
  ∧ outcome r
    = Ok {| status_code := 500;
            json := JError "Failed to run workflow"
                      (Some "Failed to update workflow status: quota exceeded") |}
  ∧ w_status <$> bigqueryService.select_workflow "W" "A" (store_after r)
    = [RUNNING].
Proof. by vm_compute. Qed.

(** C4, as amended.  When a run reaches the executor and the call fails (a
    timeout of the 600000 ms budget included), and the store accepts the
    status write FAILED, the run answers 502 with the upstream message, the
    workflow's rows are FAILED, the results table is as before, the only
    writes are the two status updates, and the executor was called exactly
    once. *)
Theorem executor_failure (cfg : Config) (env : Env) (workflow_id : string)
    (creator : option string) (collaborators : option QueryValue) (s : Store)
    (url : string) (payload : ExecuteRequest) (t : N) (e : string) :
  let c := as_string creator in
  let r := workflowController.runWorkflow cfg env workflow_id creator collaborators s in
  (url, payload, t) ∈ executes (events r) →
  executor env payload = Throw e →
  store_fault env (BqUpdateWorkflowStatus workflow_id c FAILED) = None →
  outcome r = Ok {| status_code := 502;
                    json := JError "Executor failed" (Some e) |}
  ∧ Forall (λ row, w_status row = FAILED)
      (bigqueryService.select_workflow workflow_id c (store_after r))
  ∧ bigqueryService.select_workflow workflow_id c (store_after r) ≠ []
  ∧ results (store_after r) = results s
  ∧ writes (events r) = [BqUpdateWorkflowStatus workflow_id c RUNNING;
                         BqUpdateWorkflowStatus workflow_id c FAILED]
  ∧ executes (events r) = [(executor_url cfg +:+ "/execute", payload, 600000%N)]
  ∧ t = 600000%N.
Proof.
  intros c r Hdispatch Hexec Hwrite. subst r.
  apply runWorkflow_dispatch in Hdispatch
    as (workflow & Hhead & Hpayload & _ & -> & _ & ->).
  fold c in Hhead |- *.
  destruct (preflight_trace env s workflow_id c
              (workflowController.collaboratorList collaborators)) as [Hpe Hpw].
  rewrite callExecutor_run, Hexec. unfold executor_failed. rewrite Hwrite. simpl.
  rewrite executes_app, writes_app, Hpe, Hpw. split_and!; try done.
  - apply select_workflow_updated.
  - rewrite !select_workflow_update_nil.
    by destruct (bigqueryService.select_workflow workflow_id c s).
Qed.

(** C5 as stated fails: the executor call of the run of [W] succeeds and
    its two results are stored, yet the answer is 502 "Executor failed" and
    the workflow ends FAILED, not COMPLETED, because the store rejects the
    status write COMPLETED. *)
Lemma executor_success_answered_502 :
  let r := workflowController.runWorkflow config FaultScenario.completed_rejected
             "W" (Some "A") (Some (QString "B")) Scenario.prepared in
  executes (events r)
  = [("http://localhost:8443/execute", Scenario.payload, 600000%N)]
  ∧ executor FaultScenario.completed_rejected Scenario.payload = Ok Scenario.answer
  ∧ outcome r
    = Ok {| status_code := 502;
            json := JError "Executor failed"
                      (Some "Failed to update workflow status: quota exceeded") |}
  ∧ w_status <$> bigqueryService.select_workflow "W" "A" (store_after r)
    = [FAILED]
  ∧ results (store_after r)
    = results Scenario.prepared
      ++ result_rows FaultScenario.completed_rejected "W" Scenario.answer.
Proof. by vm_compute. Qed.

(** C5, as amended.  When a run reaches the executor and the call succeeds,
    and the store accepts the batch insert and the status write COMPLETED,
    the run answers 200 with the executed-artifact reference, all result
    references and the optional model reference; the results table has
    grown by one row per
    result reference, in order, each tagged with the workflow, written by a
    single insert (none when the executor returned no reference); the
    workflow's rows are COMPLETED; and the two output prefixes of the
    request are [gs://{bucket}/results/{workflowId}/result] and
    [gs://{bucket}/results/{workflowId}/executed]. *)
Theorem executor_success (cfg : Config) (env : Env) (workflow_id : string)
    (creator : option string) (collaborators : option QueryValue) (s : Store)
    (url : string) (payload : ExecuteRequest) (t : N) (info : ExecuteResponse) :
  let c := as_string creator in
  let r := workflowController.runWorkflow cfg env workflow_id creator collaborators s in
  let rows := result_rows env workflow_id info in
  (url, payload, t) ∈ executes (events r) →
  executor env payload = Ok info →
  (rows ≠ [] → store_fault env (BqInsertResults rows) = None) →
  store_fault env (BqUpdateWorkflowStatus workflow_id c COMPLETED) = None →
  outcome r
  = Ok {| status_code := 200;
          json := JRun (executed_notebook_path info)
                    (default [] (result_paths info))
                    (if file_exists env (model_path cfg workflow_id)
                     then Some (model_path cfg workflow_id) else None) |}
  ∧ results (store_after r) = results s ++ rows
  ∧ r_result_path <$> rows = default [] (result_paths info)
  ∧ Forall (λ row, r_workflow_id row = workflow_id
                   ∧ r_executed_notebook_path row = executed_notebook_path info) rows
  ∧ writes (events r)
    = BqUpdateWorkflowStatus workflow_id c RUNNING
      :: match rows with [] => [] | _ :: _ => [BqInsertResults rows] end
      ++ [BqUpdateWorkflowStatus workflow_id c COMPLETED]
  ∧ Forall (λ row, w_status row = COMPLETED)
      (bigqueryService.select_workflow workflow_id c (store_after r))
  ∧ bigqueryService.select_workflow workflow_id c (store_after r) ≠ []
  ∧ result_base payload
    = "gs://" +:+ gcp_bucket cfg +:+ "/results/" +:+ workflow_id +:+ "/result"
  ∧ executed_notebook_base payload
    = "gs://" +:+ gcp_bucket cfg +:+ "/results/" +:+ workflow_id +:+ "/executed".
Proof.
  intros c r rows Hdispatch Hexec Hinsert Hwrite. subst r.
  apply runWorkflow_dispatch in Hdispatch
    as (workflow & Hhead & Hpayload & _ & -> & _ & ->).
  fold c in Hhead |- *.
  destruct (preflight_trace env s workflow_id c
              (workflowController.collaboratorList collaborators)) as [Hpe Hpw].
  assert (Hpaths : r_result_path <$> rows = default [] (result_paths info)).
  { unfold rows, result_rows. rewrite fmap_imap.
    rewrite (imap_ext _ (const id)) by done. rewrite imap_const. apply list_fmap_id. }
  assert (Htagged : Forall (λ row, r_workflow_id row = workflow_id
            ∧ r_executed_notebook_path row = executed_notebook_path info) rows).
  { apply Forall_forall. intros row Hrow. unfold rows, result_rows in Hrow.
    by apply elem_of_lookup_imap in Hrow as (i & x & -> & _). }
  assert (Hfound : bigqueryService.select_workflow workflow_id c s ≠ [])
    by (by destruct (bigqueryService.select_workflow workflow_id c s)).
  rewrite callExecutor_run, Hexec. simpl. fold rows.
  destruct rows as [|row rows'] eqn:Hrows.
  - rewrite Hwrite. simpl. rewrite writes_app, Hpw, Hpayload, app_nil_r.
    split_and!; try done.
    + apply select_workflow_updated.
    + by rewrite !select_workflow_update_nil.
  - rewrite Hinsert, Hwrite by done. simpl. rewrite writes_app, Hpw, Hpayload.
    split_and!; try done.
    + apply (select_workflow_updated env workflow_id c COMPLETED
               (bigqueryService.insert_results (row :: rows')
                  (bigqueryService.update_status env workflow_id c RUNNING s))).
    + rewrite select_workflow_update_nil.
      change (bigqueryService.select_workflow workflow_id c
                (bigqueryService.update_status env workflow_id c RUNNING s) ≠ []).
      by rewrite select_workflow_update_nil.
Qed.

Lemma dispatched_datasets_witness :
  ("http://localhost:8443/execute", Scenario.payload, 600000%N)
  ∈ executes (events (workflowController.runWorkflow config Scenario.calm "W"
                        (Some "A") (Some (QString "B")) Scenario.prepared))
  ∧ (λ tuple, (owner tuple, ciphertext_gcs tuple)) <$> datasets Scenario.payload
    = concat ((λ o, (λ d, (o, d_gcs_path d)) <$> matched_rows Scenario.prepared "W" o)
              <$> ["A"; "B"]).
Proof.
  assert (H : ("http://localhost:8443/execute", Scenario.payload, 600000%N)
              ∈ executes (events (workflowController.runWorkflow config Scenario.calm
                                    "W" (Some "A") (Some (QString "B"))
                                    Scenario.prepared)))
    by (vm_compute; left).
  split; [exact H|].
  exact (proj1 (proj2 (dispatched_datasets config Scenario.calm "W" (Some "A")
                         (Some (QString "B")) Scenario.prepared _ _ _ H))).
Defined.

Lemma executor_failure_witness :
  ("http://localhost:8443/execute", Scenario.payload, 600000%N)
  ∈ executes (events (workflowController.runWorkflow config Scenario.executor_down
                        "W" (Some "A") (Some (QString "B")) Scenario.prepared))
  ∧ executor Scenario.executor_down Scenario.payload
    = Throw "timeout of 600000ms exceeded"
  ∧ store_fault Scenario.executor_down (BqUpdateWorkflowStatus "W" "A" FAILED) = None
  ∧ outcome (workflowController.runWorkflow config Scenario.executor_down "W"
               (Some "A") (Some (QString "B")) Scenario.prepared)
    = Ok {| status_code := 502;
            json := JError "Executor failed" (Some "timeout of 600000ms exceeded") |}.
Proof.
  assert (H : ("http://localhost:8443/execute", Scenario.payload, 600000%N)
              ∈ executes (events (workflowController.runWorkflow config
                                    Scenario.executor_down "W" (Some "A")
                                    (Some (QString "B")) Scenario.prepared)))
    by (vm_compute; left).
  split; [exact H|]. split; [reflexivity|]. split; [reflexivity|].
  exact (proj1 (executor_failure config Scenario.executor_down "W" (Some "A")
                  (Some (QString "B")) Scenario.prepared _ _ _ _ H eq_refl eq_refl)).
Defined.

Lemma executor_success_witness :
  ("http://localhost:8443/execute", Scenario.payload, 600000%N)
  ∈ executes (events (workflowController.runWorkflow config Scenario.calm "W"
                        (Some "A") (Some (QString "B")) Scenario.prepared))
  ∧ executor Scenario.calm Scenario.payload = Ok Scenario.answer
  ∧ store_fault Scenario.calm
      (BqInsertResults (result_rows Scenario.calm "W" Scenario.answer)) = None
  ∧ store_fault Scenario.calm (BqUpdateWorkflowStatus "W" "A" COMPLETED) = None
  ∧ results (store_after (workflowController.runWorkflow config Scenario.calm "W"
                            (Some "A") (Some (QString "B")) Scenario.prepared))
    = results Scenario.prepared ++ result_rows Scenario.calm "W" Scenario.answer.
Proof.
  assert (H : ("http://localhost:8443/execute", Scenario.payload, 600000%N)
              ∈ executes (events (workflowController.runWorkflow config Scenario.calm
                                    "W" (Some "A") (Some (QString "B"))
                                    Scenario.prepared)))
    by (vm_compute; left).
  split; [exact H|]. split; [reflexivity|]. split; [reflexivity|].
  split; [reflexivity|].
  exact (proj1 (proj2 (executor_success config Scenario.calm "W" (Some "A")
                         (Some (QString "B")) Scenario.prepared _ _ _ Scenario.answer
                         H eq_refl (λ _, eq_refl) eq_refl))).
Defined.

(** ** No datasets *)

Section NoDatasetsFacts.
Context (cfg : Config) (env : Env).

Lemma first_read_fault_None workflowId owners :
  first_read_fault env workflowId owners = None
  ↔ ∀ o, o ∈ owners →
      store_fault env (BqGetDatasets workflowId o) = None
      ∧ store_fault env (BqGetKeys workflowId o) = None.
Proof.
  induction owners as [|o owners IH].
  - split; [|done]. by intros _ o ?%elem_of_nil.
  - unfold first_read_fault. fold first_read_fault.
    destruct (store_fault env (BqGetDatasets workflowId o)) eqn:Hd.
    { split; [done|]. intros H. destruct (H o) as [H' _]; [by left|].
      by rewrite Hd in H'. }
    destruct (store_fault env (BqGetKeys workflowId o)) eqn:Hk.
    { split; [done|]. intros H. destruct (H o) as [_ H']; [by left|].
      by rewrite Hk in H'. }
    rewrite IH. split.
    + by intros H o' [->|?]%elem_of_cons; auto.
    + intros H o' ?. apply H. by right.
Qed.

Lemma owner_tuples_nil s workflowId o :
  owner_tuples s workflowId o = [] ↔ matched_rows s workflowId o = [].
Proof.
  pose proof (owner_tuples_matched s workflowId o) as H.
  split; intros Hnil; rewrite Hnil in H.
  - by destruct (matched_rows s workflowId o).
  - by destruct (owner_tuples s workflowId o).
Qed.

Lemma assemble_nil s workflowId creator l :
  assemble s workflowId creator l = []
  ↔ ∀ o, o ∈ owners_of creator l → matched_rows s workflowId o = [].
Proof.
  unfold assemble. induction (owners_of creator l) as [|o owners IH].
  - split; [|done]. by intros _ o ?%elem_of_nil.
  - rewrite fmap_cons. simpl. rewrite app_nil, IH, owner_tuples_nil. split.
    + by intros [Ho H] o' [->|?]%elem_of_cons; auto.
    + intros H. split; [apply H; by left|]. intros o' ?. apply H. by right.
Qed.

(** The answer "No datasets" is only given after the status was set to
    RUNNING, and nothing is written after it. *)
Lemma runWorkflow_no_datasets workflow_id creator collaborators s :
  let c := as_string creator in
  let r := workflowController.runWorkflow cfg env workflow_id creator
             collaborators s in
  outcome r = Ok no_datasets_response →
  store_after r = bigqueryService.update_status env workflow_id c RUNNING s
  ∧ bigqueryService.select_workflow workflow_id c s ≠ []
  ∧ writes (events r) = [BqUpdateWorkflowStatus workflow_id c RUNNING]
  ∧ executes (events r) = [].
Proof.
  simpl. rewrite runWorkflow_run.
  destruct (falsy creator || falsy_query collaborators); simpl; [done|].
  pose proof (preflight_trace env s workflow_id (as_string creator)
                (workflowController.collaboratorList collaborators)) as [Hpe Hpw].
  unfold preflight_events in Hpe, Hpw.
  repeat
    match goal with
    | |- context [match ?x with _ => _ end] =>
        lazymatch x with
        | outcome _ => fail
        | _ => destruct x eqn:?; simpl
        end
    end; try done.
  - intros _. split_and!; try done.
    by destruct (bigqueryService.select_workflow _ _ _).
  - destruct (outcome _) as [response|e] eqn:Hout; simpl; [|done].
    intros [= ->]. by apply callExecutor_status in Hout as [?|?].
Qed.

End NoDatasetsFacts.

(** C6 as stated fails: the run of [V] passes the approval and existence
    checks and no owner has a dataset with a key, yet the answer is 500, not
    "No datasets" (400), because the store rejects the read of the creator's
    key table. *)
Lemma no_datasets_answered_500 :
  let r := workflowController.runWorkflow config FaultScenario.keys_down "V"
             (Some "C") (Some (QString "B")) Scenario.second in
  ¬ fails_gate FaultScenario.keys_down Scenario.second "V" "B"
  ∧ bigqueryService.select_workflow "V" "C" Scenario.second ≠ []
  ∧ assemble Scenario.second "V" "C"
      (workflowController.collaboratorList (Some (QString "B"))) = []
  ∧ outcome r
    = Ok {| status_code := 500;
            json := JError "Failed to run workflow"
                      (Some "Failed to get keys: quota exceeded") |}
  ∧ w_status <$> bigqueryService.select_workflow "V" "C" (store_after r)
    = [RUNNING].
Proof.
  cbv zeta. split_and!; try (by vm_compute).
  intros [[e He]|Hlacks]; [by vm_compute in He|by vm_compute in Hlacks].
Qed.

(** C6, as amended.  For a run that passes the approval and existence
    checks and whose status write RUNNING and reads of the dataset and key
    tables the store accepts, the answer is "No datasets" (400) exactly
    when the list assembled over the creator and
    all named collaborators is empty, that is when no owner has a dataset
    row with a key: an owner without tuples is not an error as long as
    another owner has one.  When the answer is "No datasets", the rows of
    the workflow are RUNNING, the status update to RUNNING is the only write
    of the run and the executor was not called. *)
Theorem no_datasets (cfg : Config) (env : Env) (workflow_id : string)
    (creator : option string) (collaborators : option QueryValue) (s : Store) :
  let c := as_string creator in
  let l := workflowController.collaboratorList collaborators in
  let r := workflowController.runWorkflow cfg env workflow_id creator collaborators s in
  falsy creator = false →
  falsy_query collaborators = false →
  (∀ x, x ∈ l → ¬ fails_gate env s workflow_id x) →
  store_fault env (BqGetWorkflow workflow_id c) = None →
  bigqueryService.select_workflow workflow_id c s ≠ [] →
  store_fault env (BqUpdateWorkflowStatus workflow_id c RUNNING) = None →
  (∀ o, o ∈ owners_of c l →
     store_fault env (BqGetDatasets workflow_id o) = None
     ∧ store_fault env (BqGetKeys workflow_id o) = None) →
  (outcome r = Ok no_datasets_response ↔ assemble s workflow_id c l = [])
  ∧ (assemble s workflow_id c l = []
     ↔ ∀ o, o ∈ owners_of c l → matched_rows s workflow_id o = [])
  ∧ (outcome r = Ok no_datasets_response →
     Forall (λ row, w_status row = RUNNING)
       (bigqueryService.select_workflow workflow_id c (store_after r))
     ∧ bigqueryService.select_workflow workflow_id c (store_after r) ≠ []
     ∧ writes (events r) = [BqUpdateWorkflowStatus workflow_id c RUNNING]
     ∧ executes (events r) = []).
Proof.
  intros c l r Hcreator Hcollab Hgate Hget Hfound Hupdate Hreads.
  split_and!.
  - subst r. rewrite runWorkflow_run, Hcreator, Hcollab. simpl. fold c l.
    assert (List.find (λ x, negb (approved_now env s workflow_id x)) l = None)
      as ->.
    { apply find_none_iff. intros x Hx.
      apply Hgate, approved_now_true in Hx. by rewrite Hx. }
    rewrite Hget. destruct (head _) as [workflow|] eqn:Hhead.
    2:{ by destruct (bigqueryService.select_workflow workflow_id c s). }
    rewrite Hupdate. apply first_read_fault_None in Hreads. rewrite Hreads.
    rewrite assemble_update_status. case_bool_decide as Hlen; simpl.
    + split; [|done]. intros _. by apply length_zero_iff_nil.
    + split.
      * destruct (outcome _) as [response|e] eqn:Hout; simpl; [|done].
        intros [= ->]. by apply callExecutor_status in Hout as [?|?].
      * intros Hnil. by rewrite Hnil in Hlen.
  - apply assemble_nil.
  - intros Hout.
    apply runWorkflow_no_datasets in Hout as (Hstore & _ & Hw & He).
    fold r in Hstore, Hw, He. rewrite Hstore. fold c.
    split_and!; [|by rewrite select_workflow_update_nil|done..].
    apply select_workflow_updated.
Qed.

Lemma no_datasets_witness :
  falsy (Some "C") = false
  ∧ falsy_query (Some (QString "B")) = false
  ∧ bigqueryService.select_workflow "V" "C" Scenario.second ≠ []
  ∧ outcome (workflowController.runWorkflow config Scenario.calm "V" (Some "C")
               (Some (QString "B")) Scenario.second)
    = Ok no_datasets_response.
Proof.
  assert (Hfound : bigqueryService.select_workflow "V" "C" Scenario.second ≠ [])
    by (by vm_compute).
  split; [reflexivity|]. split; [reflexivity|]. split; [exact Hfound|].
  assert (Hgate : ∀ x,
            x ∈ workflowController.collaboratorList (Some (QString "B")) →
                       ¬ fails_gate Scenario.calm Scenario.second "V" x).
  { intros x Hx. apply list_elem_of_singleton in Hx as ->.
    intros [[e He]|Hlacks]; [by vm_compute in He|by vm_compute in Hlacks]. }
  destruct (no_datasets config Scenario.calm "V" (Some "C") (Some (QString "B"))
              Scenario.second eq_refl eq_refl Hgate eq_refl Hfound eq_refl
              (λ _ _, conj eq_refl eq_refl)) as [Hiff _].
  apply Hiff. by vm_compute.
Defined.

(** ** The other handlers, path by path *)

Section HandlerFacts.
Context (cfg : Config) (env : Env).

Lemma createWorkflow_handler_run body s :
  workflowController.createWorkflow cfg env body s
  = if falsy (c_workflow_id body) || falsy (c_creator body)
       || bool_decide (c_collaborators body = None)
    then
      MkRun (Ok {| status_code := 400;
                   json := JError "Missing required fields: workflow_id, creator, collaborators"
                             None |}) s []
    else
      let op := BqCreateWorkflow (as_string (c_creator body))
                  (as_string (c_workflow_id body)) in
      match store_fault env op with
      | Some e =>
          MkRun (Ok {| status_code := 500;
                       json := JError "Failed to create workflow"
                                 (Some ("Failed to insert workflow: " +:+ e)) |})
            s [EvStore op]
      | None =>
          MkRun (Ok {| status_code := 200;
                       json := JCreated (as_string (c_workflow_id body))
                                 PENDING_APPROVAL |})
            (bigqueryService.insert_workflow (created_row cfg env body) s)
            [EvStore op]
      end.
Proof.
  unfold workflowController.createWorkflow, try_catch, bind, respond, ret.
  destruct (_ || _); [done|].
  rewrite createWorkflow_run by done. simpl.
  by destruct (store_fault env _).
Qed.

Lemma getWorkflow_handler_store workflow_id creator s :
  store_after (workflowController.getWorkflow env workflow_id creator s) = s.
Proof.
  unfold workflowController.getWorkflow, try_catch, bind, respond, ret.
  destruct (falsy creator); [done|].
  rewrite getWorkflow_run.
  destruct (store_fault env _); simpl; [done|]. by destruct (head _).
Qed.

Lemma approveWorkflow_handler_run workflow_id client_id s :
  workflowController.approveWorkflow env workflow_id client_id s
  = if falsy client_id then
      MkRun (Ok {| status_code := 400;
                   json := JError "client_id parameter is required" None |}) s []
    else
      let op := BqApproveWorkflow workflow_id (as_string client_id) in
      match store_fault env op with
      | Some e =>
          MkRun (Ok {| status_code := 500;
                       json := JError "Failed to approve workflow"
                                 (Some ("Failed to approve workflow: " +:+ e)) |})
            s [EvStore op]
      | None =>
          MkRun (Ok {| status_code := 200;
                       json := JApproved workflow_id
                                 ("APPROVED_BY_" +:+ as_string client_id) |})
            (bigqueryService.insert_approval
               (approval_row env workflow_id (as_string client_id)) s)
            [EvStore op]
      end.
Proof.
  unfold workflowController.approveWorkflow, try_catch, bind, respond, ret.
  destruct (falsy client_id); [done|].
  rewrite approveWorkflow_run. by destruct (store_fault env _).
Qed.

(** The metadata insert of the two upload paths adds one dataset row, or
    one key row, or nothing. *)
Lemma insertMetadata_store file_type workflow_id dataset_id o filename gcsPath s :
  let s' := store_after (storageController.insertMetadata env file_type workflow_id
                           dataset_id o filename gcsPath s) in
  s' = s
  ∨ (∃ row, s' = bigqueryService.insert_dataset_row row s)
  ∨ (∃ row, s' = bigqueryService.insert_key_row row s).
Proof.
  unfold storageController.insertMetadata, bigqueryService.insertDataset,
    bigqueryService.insertKey, try_catch, bigqueryService.bq_write, throw, ret.
  repeat case_bool_decide; simpl; [| |by left];
    destruct (store_fault env _); simpl; eauto.
Qed.

Lemma generateUploadUrl_store workflow_id dataset_id filename file_type o s :
  let s' := store_after (storageController.generateUploadUrl cfg env workflow_id
                           dataset_id filename file_type o s) in
  s' = s
  ∨ (∃ row, s' = bigqueryService.insert_dataset_row row s)
  ∨ (∃ row, s' = bigqueryService.insert_key_row row s).
Proof.
  unfold storageController.generateUploadUrl, try_catch, bind, respond, ret,
    storageService.generateUploadUrl.
  destruct (_ || _); [by left|].
  destruct (negb _); [by left|]. simpl.
  destruct (signed_url env _); simpl; [|by left].
  pose proof (insertMetadata_store (as_string file_type) (as_string workflow_id)
                (as_string dataset_id) (as_string o) (as_string filename)
                (storageService.getGcsPath cfg
                   (as_string file_type +:+ "s/" +:+ as_string o +:+ "/"
                      +:+ as_string workflow_id +:+ "/" +:+ as_string dataset_id
                      +:+ "/" +:+ as_string filename)) s) as H.
  simpl in H.
  by destruct (storageController.insertMetadata _ _ _ _ _ _ _ _)
    as [[[]|e] s' evs].
Qed.

Lemma uploadFile_store file workflow_id dataset_id file_type o s :
  let s' := store_after (storageController.uploadFile cfg env file workflow_id
                           dataset_id file_type o s) in
  s' = s
  ∨ (∃ row, s' = bigqueryService.insert_dataset_row row s)
  ∨ (∃ row, s' = bigqueryService.insert_key_row row s).
Proof.
  unfold storageController.uploadFile, try_catch, bind, respond, ret,
    storageService.uploadFile.
  destruct file as [file|]; [|by left].
  destruct (_ || _); [by left|].
  unfold storageService.getGcsPath. rewrite prefix_gs.
  destruct (upload_fault env _); simpl; [by left|].
  pose proof (insertMetadata_store (as_string file_type) (as_string workflow_id)
                (as_string dataset_id) (as_string o) (originalname file)
                ("gs://" +:+ gcp_bucket cfg +:+ "/"
                   +:+ as_string file_type +:+ "s/" +:+ as_string o +:+ "/"
                   +:+ as_string workflow_id +:+ "/" +:+ as_string dataset_id
                   +:+ "/" +:+ originalname file) s) as H.
  simpl in H.
  by destruct (storageController.insertMetadata _ _ _ _ _ _ _ _)
    as [[[]|e] s' evs].
Qed.

End HandlerFacts.

(** ** The routes that only read *)

Section ReadOnlyFacts.
Context (cfg : Config) (env : Env).

Lemma read_only_ret {A : Type} (a : A) : read_only (ret a).
Proof. done. Qed.

Lemma read_only_throw {A : Type} e : read_only (@throw A e).
Proof. done. Qed.

Lemma read_only_respond code body : read_only (respond code body).
Proof. done. Qed.

Lemma read_only_bind {A B : Type} (m : Async A) (k : A → Async B) :
  read_only m → (∀ a, read_only (k a)) → read_only (bind m k).
Proof.
  intros Hm Hk s. unfold bind. specialize (Hm s).
  destruct (m s) as [[a|e] s' evs]; simpl in *; [|done].
  subst s'. specialize (Hk a s). by destruct (k a s).
Qed.

Lemma read_only_try_catch {A : Type} (m : Async A) (h : string → Async A) :
  read_only m → (∀ e, read_only (h e)) → read_only (try_catch m h).
Proof.
  intros Hm Hh s. unfold try_catch. specialize (Hm s).
  destruct (m s) as [[a|e] s' evs]; simpl in *; [done|].
  subst s'. specialize (Hh e s). by destruct (h e s).
Qed.

Lemma read_only_bq_read {A : Type} op (f : Store → A) :
  read_only (bigqueryService.bq_read env op f).
Proof. intros s. unfold bigqueryService.bq_read. by destruct (store_fault env op). Qed.

Lemma settle_all_store {A : Type} (ms : list (Async A)) s :
  Forall read_only ms → (settle_all ms s).1.2 = s.
Proof.
  induction 1 as [|m ms Hm _ IH]; simpl; [done|].
  specialize (Hm s). destruct (m s) as [o s' evs]. simpl in Hm. subst s'.
  by destruct (settle_all ms s) as [[os s''] evs'].
Qed.

Lemma read_only_promise_all {A : Type} (ms : list (Async A)) :
  Forall read_only ms → read_only (promise_all env ms).
Proof.
  intros Hms s. unfold promise_all.
  pose proof (settle_all_store ms s Hms) as H.
  by destruct (settle_all ms s) as [[os s'] evs].
Qed.

Lemma read_only_axios_get url timeout_ms :
  read_only (workflowController.axios_get env url timeout_ms).
Proof. done. Qed.

Lemma read_only_generateDownloadUrl gcsPath :
  read_only (storageService.generateDownloadUrl env gcsPath).
Proof.
  intros s. unfold storageService.generateDownloadUrl.
  by destruct (storageService.parseGcsUri gcsPath) as [[bucket objectPath]|e].
Qed.

Lemma getWorkflowResults_store workflow_id :
  read_only (workflowController.getWorkflowResults env workflow_id).
Proof.
  apply read_only_try_catch; [|intros; apply read_only_respond].
  apply read_only_bind.
  { apply read_only_try_catch; [apply read_only_bq_read|intros; apply read_only_throw]. }
  intros results_. case_bool_decide; [apply read_only_respond|].
  apply read_only_bind; [|intros; apply read_only_respond].
  apply read_only_promise_all, Forall_fmap, Forall_forall. intros result _.
  apply read_only_bind; [apply read_only_generateDownloadUrl|].
  intros; apply read_only_ret.
Qed.

Lemma getWorkflowLogs_store workflow_id :
  read_only (workflowController.getWorkflowLogs cfg env workflow_id).
Proof.
  apply read_only_try_catch; [|intros; apply read_only_respond].
  apply read_only_bind; [apply read_only_axios_get|intros; apply read_only_respond].
Qed.

Lemma getAllWorkflows_store user_id :
  read_only (workflowController.getAllWorkflows env user_id).
Proof.
  apply read_only_try_catch; [|intros; apply read_only_respond].
  destruct (falsy user_id); [apply read_only_respond|].
  apply read_only_bind; [|intros; apply read_only_respond].
  apply read_only_try_catch; [apply read_only_bq_read|intros; apply read_only_throw].
Qed.

Lemma getDashboardStats_store user_id :
  read_only (workflowController.getDashboardStats env user_id).
Proof.
  apply read_only_try_catch; [|intros; apply read_only_respond].
  destruct (falsy user_id); [apply read_only_respond|].
  apply read_only_bind; [|intros; apply read_only_respond].
  apply read_only_try_catch; [|intros; apply read_only_throw].
  repeat (apply read_only_bind; [apply read_only_bq_read|intros]).
  apply read_only_ret.
Qed.

Lemma generateDownloadUrl_store gcs_path :
  read_only (storageController.generateDownloadUrl env gcs_path).
Proof.
  apply read_only_try_catch; [|intros; apply read_only_respond].
  destruct (falsy gcs_path); [apply read_only_respond|]. cbv zeta.
  destruct (negb _); [apply read_only_respond|].
  apply read_only_bind; [apply read_only_generateDownloadUrl|].
  intros; apply read_only_respond.
Qed.

Lemma getExecutorPubkey_store :
  read_only (storageController.getExecutorPubkey cfg env).
Proof.
  apply read_only_try_catch; [|intros; apply read_only_respond].
  apply read_only_bind; [apply read_only_axios_get|intros; apply read_only_respond].
Qed.

End ReadOnlyFacts.

(** ** What a request may change *)


Section StoreFacts.
Context (cfg : Config) (env : Env).

Lemma runWorkflow_store workflow_id creator collaborators s :
  let c := as_string creator in
  let r := workflowController.runWorkflow cfg env workflow_id creator
             collaborators s in
  ∃ statuses rows,
    statuses ∈ run_status_writes
    ∧ workflows (store_after r)
      = workflows (apply_statuses env workflow_id c statuses s)
    ∧ approvals (store_after r) = approvals s
    ∧ dataset_rows (store_after r) = dataset_rows s
    ∧ key_rows (store_after r) = key_rows s
    ∧ results (store_after r) = results s ++ rows.
Proof.
  cbv zeta. rewrite runWorkflow_run.
  destruct (falsy creator || falsy_query collaborators);
    cbn [outcome store_after events].
  { exists [], []. rewrite app_nil_r. split_and!; [|done..]. by left. }
  repeat
    match goal with
    | |- context [match ?x with _ => _ end] =>
        lazymatch x with
        | outcome _ => fail
        | _ => destruct x eqn:?; cbn [outcome store_after events]
        end
    end;
    try (exists [], []; rewrite app_nil_r; split_and!; [by left|done..]);
    try (exists [RUNNING], []; rewrite app_nil_r;
         split_and!; [by right; left|done..]).
  rewrite callExecutor_run. unfold executor_failed.
  repeat
    match goal with
    | |- context [match ?x with _ => _ end] =>
        destruct x eqn:?; cbn [outcome store_after events]
    end;
    first
      [ by (exists [RUNNING], []; rewrite app_nil_r;
            split_and!; [by right; left|done..])
      | by (exists [RUNNING; COMPLETED], []; rewrite app_nil_r;
            split_and!; [by right; right; left|done..])
      | by (exists [RUNNING; FAILED], []; rewrite app_nil_r;
            split_and!; [by right; right; right; left|done..])
      | by (exists [RUNNING]; eexists;
            split_and!; [by right; left|done..])
      | by (exists [RUNNING; COMPLETED]; eexists;
            split_and!; [by right; right; left|done..])
      | by (exists [RUNNING; FAILED]; eexists;
            split_and!; [by right; right; right; left|done..]) ].
Qed.

End StoreFacts.

Lemma table_insert_row {A : Type} (o o' : string) (row : A)
    (m : gmap string (list A)) :
  table (insert_row o row m) o'
  = if decide (o = o') then table m o ++ [row] else table m o'.
Proof.
  unfold insert_row, table at 1. case_decide as Ho.
  - subst o'. by rewrite lookup_insert_eq.
  - by rewrite lookup_insert_ne.
Qed.

(** ** Approvals only grow, by affirmative rows *)

Section GrowFacts.
Context (cfg : Config).

Lemma grows_same s s' : approvals s' = approvals s → grows s s'.
Proof. intros H o. exists []. by rewrite H, app_nil_r. Qed.

Lemma grows_refl s : grows s s.
Proof. by apply grows_same. Qed.

Lemma grows_trans s1 s2 s3 : grows s1 s2 → grows s2 s3 → grows s1 s3.
Proof.
  intros H12 H23 o.
  destruct (H12 o) as (new1 & E1 & F1). destruct (H23 o) as (new2 & E2 & F2).
  exists (new1 ++ new2). rewrite E2, E1, app_assoc. split; [done|].
  by apply Forall_app.
Qed.

Lemma grows_insert_approval row s :
  a_approved row = true → grows s (bigqueryService.insert_approval row s).
Proof.
  intros Hrow o. unfold bigqueryService.insert_approval. simpl.
  rewrite table_insert_row. case_decide as Ho.
  - subst o. exists [row]. split; [done|]. by constructor.
  - exists []. by rewrite app_nil_r.
Qed.

Lemma handle_grows env req s : grows s (store_after (handle cfg env req s)).
Proof.
  destruct req as [body|workflow_id creator|workflow_id client_id
                  |workflow_id creator collaborators
                  |workflow_id|workflow_id|user_id|user_id
                  |workflow_id dataset_id filename file_type o
                  |gcs_path|
                  |file workflow_id dataset_id file_type o]; simpl.
  - rewrite createWorkflow_handler_run.
    destruct (_ || _); [apply grows_refl|]. simpl.
    destruct (store_fault env _); by apply grows_same.
  - rewrite getWorkflow_handler_store. apply grows_refl.
  - rewrite approveWorkflow_handler_run.
    destruct (falsy client_id); [apply grows_refl|]. simpl.
    destruct (store_fault env _); [apply grows_refl|]. simpl.
    by apply grows_insert_approval.
  - destruct (runWorkflow_store cfg env workflow_id creator collaborators s)
      as (statuses & rows & _ & _ & Happ & _).
    by apply grows_same.
  - rewrite getWorkflowResults_store. apply grows_refl.
  - rewrite getWorkflowLogs_store. apply grows_refl.
  - rewrite getAllWorkflows_store. apply grows_refl.
  - rewrite getDashboardStats_store. apply grows_refl.
  - destruct (generateUploadUrl_store cfg env workflow_id dataset_id filename
                file_type o s) as [->|[[row ->]|[row ->]]];
      by apply grows_same.
  - rewrite generateDownloadUrl_store. apply grows_refl.
  - rewrite getExecutorPubkey_store. apply grows_refl.
  - destruct (uploadFile_store cfg env file workflow_id dataset_id file_type o s)
      as [->|[[row ->]|[row ->]]];
      by apply grows_same.
Qed.

Lemma serve_grows script s : grows s (serve cfg script s).2.
Proof.
  revert s. induction script as [|[env req] script IH]; intros s; simpl.
  - apply grows_refl.
  - specialize (IH (store_after (handle cfg env req s))).
    destruct (serve cfg script _) as [answers s']. simpl in *.
    eapply grows_trans; [apply handle_grows|done].
Qed.

Lemma grows_affirmative s s' : grows s s' → affirmative s → affirmative s'.
Proof.
  intros Hg Ha o row Hrow. destruct (Hg o) as (new & E & F).
  rewrite E in Hrow. apply elem_of_app in Hrow as [Hrow|Hrow]; [by eapply Ha|].
  rewrite Forall_forall in F. by apply F.
Qed.

Lemma grows_elem s s' o row :
  grows s s' → row ∈ table (approvals s) o → row ∈ table (approvals s') o.
Proof.
  intros Hg Hrow. destruct (Hg o) as (new & -> & _). apply elem_of_app. by left.
Qed.

Lemma affirmative_latest s workflowId clientId row :
  affirmative s → latest_approval s workflowId clientId = Some row →
  a_approved row = true.
Proof.
  intros Ha Hl. unfold latest_approval in Hl.
  apply order_by_desc_head in Hl as [Hrow _].
  unfold approval_rows in Hrow. apply list_elem_of_filter in Hrow as [_ Hrow].
  by eapply Ha.
Qed.

End GrowFacts.

(** ** Create and approve *)

(** C8, as amended.  [create] answers 400 and writes nothing when
    [workflow_id] or [creator] is missing or empty, or [collaborators] is
    missing (an empty collaborator list is accepted).  It never looks for an
    existing workflow: otherwise it asks the store for one insert; when the
    store rejects it the answer is 500 and nothing is written, and when the
    store accepts it the creator's table has grown by exactly one row, with
    status PENDING_APPROVAL and the configured workload path, every other
    table is as before, and the answer is 200 with the workflow id and the
    status. *)
Theorem createWorkflow_persists (cfg : Config) (env : Env)
    (body : CreateWorkflowRequest) (s : Store) :
  let r := workflowController.createWorkflow cfg env body s in
  let workflow_id := as_string (c_workflow_id body) in
  let creator := as_string (c_creator body) in
  let op := BqCreateWorkflow creator workflow_id in
  if falsy (c_workflow_id body) || falsy (c_creator body)
     || bool_decide (c_collaborators body = None)
  then
    r = MkRun (Ok {| status_code := 400;
                     json := JError "Missing required fields: workflow_id, creator, collaborators"
                               None |}) s []
  else
    match store_fault env op with
    | Some e =>
        r = MkRun (Ok {| status_code := 500;
                         json := JError "Failed to create workflow"
                                   (Some ("Failed to insert workflow: " +:+ e)) |})
              s [EvStore op]
    | None =>
        outcome r = Ok {| status_code := 200;
                          json := JCreated workflow_id PENDING_APPROVAL |}
        ∧ events r = [EvStore op]
        ∧ (∃ row,
             w_workflow_id row = workflow_id ∧ w_creator row = creator
             ∧ w_status row = PENDING_APPROVAL
             ∧ w_workload_path row = workload_fixedPath cfg
             ∧ table (workflows (store_after r)) creator
               = table (workflows s) creator ++ [row])
        ∧ (∀ o, o ≠ creator →
             table (workflows (store_after r)) o = table (workflows s) o)
        ∧ approvals (store_after r) = approvals s
        ∧ dataset_rows (store_after r) = dataset_rows s
        ∧ key_rows (store_after r) = key_rows s
        ∧ results (store_after r) = results s
    end.
Proof.
  cbv zeta. rewrite createWorkflow_handler_run.
  destruct (_ || _); [done|]. cbv zeta.
  destruct (store_fault env _); [done|]. cbn [outcome store_after events].
  split_and!; try done.
  - exists (created_row cfg env body). split_and!; try done.
    unfold bigqueryService.insert_workflow. cbn [workflows].
    rewrite table_insert_row. by rewrite decide_True.
  - intros o Ho. unfold bigqueryService.insert_workflow. cbn [workflows].
    rewrite table_insert_row. by rewrite decide_False.
Qed.

(** C8 as stated fails: a second [create] with the id of an existing
    workflow of the same creator is accepted and leaves two rows, and a
    [create] with an empty collaborator list is accepted. *)
Lemma create_duplicate_accepted :
  let once := store_after (handle config Scenario.calm Scenario.create_W empty_store) in
  let r := handle config Scenario.calm Scenario.create_W once in
  (bigqueryService.select_workflow "W" "A" once ≠ []
   ∧ outcome r = Ok {| status_code := 200; json := JCreated "W" PENDING_APPROVAL |}
   ∧ length (bigqueryService.select_workflow "W" "A" (store_after r)) = 2)
  ∧ outcome (workflowController.createWorkflow config Scenario.calm
               {| c_workflow_id := Some "X"; c_creator := Some "A";
                  c_collaborators := Some [] |} empty_store)
    = Ok {| status_code := 200; json := JCreated "X" PENDING_APPROVAL |}.
Proof. by vm_compute. Qed.

(** An approval leaves every table but the approver's approvals table as
    it is, whatever it answers. *)
Lemma approveWorkflow_frame (env : Env) (workflow_id : string)
    (client_id : option string) (s : Store) :
  let r := workflowController.approveWorkflow env workflow_id client_id s in
  workflows (store_after r) = workflows s
  ∧ dataset_rows (store_after r) = dataset_rows s
  ∧ key_rows (store_after r) = key_rows s
  ∧ results (store_after r) = results s
  ∧ writes (events r) ⊆ [BqApproveWorkflow workflow_id (as_string client_id)].
Proof.
  cbv zeta. rewrite approveWorkflow_handler_run.
  destruct (falsy client_id); [by split_and!; try done; set_solver|]. cbv zeta.
  destruct (store_fault env _); split_and!; try done; set_solver.
Qed.



(** ** The status of a workflow over its life *)

(** C2 as stated fails: through the public routes alone, a workflow that
    was observed COMPLETED is observed RUNNING afterwards. *)
Lemma completed_workflow_runs_again :
  let answers := (serve config Lifecycle.script empty_store).1 in
  status_codes answers = [200; 200; 200; 200; 200; 200; 200; 200; 400; 200]
  ∧ observed answers = [PENDING_APPROVAL; COMPLETED; RUNNING].
Proof. by vm_compute. Qed.

(** C2, as amended.  A request whose party names are identifier-like (so
    that the queries it makes are the ones the code writes) changes the
    workflows tables in one of three ways only.  [create] adds one row, with
    status PENDING_APPROVAL, or nothing.  [run] overwrites the status of the
    rows of the workflow it names, whatever their status was, with RUNNING
    and then possibly with COMPLETED or with FAILED, in that order, or does
    nothing; when it wrote, those rows all carry the last status written.
    Every other request leaves the workflows tables as they are. *)
Theorem status_changes (cfg : Config) (env : Env) (req : Request) (s : Store) :
  safe_request req = true →
  let s' := store_after (handle cfg env req s) in
  match req with
  | PostWorkflows body =>
      workflows s' = workflows s
      ∨ ∃ row, w_status row = PENDING_APPROVAL
               ∧ workflows s' = insert_row (w_creator row) row (workflows s)
  | PostRun workflow_id creator _ =>
      ∃ statuses,
        statuses ∈ [ []; [RUNNING]; [RUNNING; COMPLETED]; [RUNNING; FAILED] ]
        ∧ workflows s'
          = workflows (apply_statuses env workflow_id (as_string creator) statuses s)
        ∧ ∀ status, last statuses = Some status →
            Forall (λ row, w_status row = status)
              (bigqueryService.select_workflow workflow_id (as_string creator) s')
  | _ => workflows s' = workflows s
  end.
Proof.
  intros _.
  destruct req as [body|workflow_id creator|workflow_id client_id
                  |workflow_id creator collaborators
                  |workflow_id|workflow_id|user_id|user_id
                  |workflow_id dataset_id filename file_type o
                  |gcs_path|
                  |file workflow_id dataset_id file_type o]; cbv zeta;
    cbn [handle].
  - rewrite createWorkflow_handler_run.
    destruct (_ || _); [by left|]. cbv zeta.
    destruct (store_fault env _); [by left|]. right.
    by exists (created_row cfg env body).
  - by rewrite getWorkflow_handler_store.
  - apply approveWorkflow_frame.
  - destruct (runWorkflow_store cfg env workflow_id creator collaborators s)
      as (statuses & rows & Hin & Hw & _).
    exists statuses. split; [done|]. split; [done|].
    intros status Hlast.
    assert (bigqueryService.select_workflow workflow_id (as_string creator)
              (store_after (workflowController.runWorkflow cfg env workflow_id
                              creator collaborators s))
            = bigqueryService.select_workflow workflow_id (as_string creator)
                (apply_statuses env workflow_id (as_string creator) statuses s))
      as -> by (unfold bigqueryService.select_workflow; by rewrite Hw).
    unfold run_status_writes in Hin.
    repeat (apply elem_of_cons in Hin as [->|Hin]);
      [..|by apply elem_of_nil in Hin];
      simpl in Hlast; [done|..];
      injection Hlast as <-; unfold apply_statuses; cbn [foldl];
      apply select_workflow_updated.
  - by rewrite getWorkflowResults_store.
  - by rewrite getWorkflowLogs_store.
  - by rewrite getAllWorkflows_store.
  - by rewrite getDashboardStats_store.
  - by destruct (generateUploadUrl_store cfg env workflow_id dataset_id filename
                   file_type o s) as [->|[[row ->]|[row ->]]].
  - by rewrite generateDownloadUrl_store.
  - by rewrite getExecutorPubkey_store.
  - by destruct (uploadFile_store cfg env file workflow_id dataset_id file_type o s)
      as [->|[[row ->]|[row ->]]].
Qed.

Lemma status_changes_witness :
  safe_request (PostRun "W" (Some "A") (Some (QString "B"))) = true
  ∧ ∃ statuses,
      statuses ∈ [ []; [RUNNING]; [RUNNING; COMPLETED]; [RUNNING; FAILED] ]
      ∧ workflows (store_after (handle config Scenario.calm
                                  (PostRun "W" (Some "A") (Some (QString "B")))
                                  Scenario.prepared))
        = workflows (apply_statuses Scenario.calm "W" "A" statuses
                       Scenario.prepared)
      ∧ ∀ status, last statuses = Some status →
          Forall (λ row, w_status row = status)
            (bigqueryService.select_workflow "W" "A"
               (store_after (handle config Scenario.calm
                               (PostRun "W" (Some "A") (Some (QString "B")))
                               Scenario.prepared))).
Proof.
  split; [reflexivity|].
  exact (status_changes config Scenario.calm
           (PostRun "W" (Some "A") (Some (QString "B"))) Scenario.prepared
           eq_refl).
Defined.

(** ** Approvals are affirmative *)

(** C10, as amended.  Starting from a store whose approval rows are all
    affirmative (none written from outside with [approved = false]), after
    any requests, an accepted approval of a workflow by a party, and any
    further requests, the party names of all these requests being
    identifier-like (so that the queries made are the ones the code
    writes): every approvals table has only grown, by affirmative rows;
    every approval row is affirmative, so no latest approval is negative;
    and the approval check for that workflow and party answers [true]
    whenever the store answers its query. *)
Theorem approval_stays_affirmative (cfg : Config) (before later : list (Env * Request))
    (env0 env1 : Env) (workflow_id clientId : string) (s : Store) :
  safe_script before = true →
  safe_script later = true →
  identifier_like clientId = true →
  affirmative s →
  clientId ≠ "" →
  store_fault env0 (BqApproveWorkflow workflow_id clientId) = None →
  store_fault env1 (BqIsWorkflowApproved workflow_id clientId) = None →
  let s1 := (serve cfg before s).2 in
  let r := handle cfg env0 (PostApprove workflow_id (Some clientId)) s1 in
  let s2 := (serve cfg later (store_after r)).2 in
  grows s s2
  ∧ affirmative s2
  ∧ (∀ w c row, latest_approval s2 w c = Some row → a_approved row = true)
  ∧ outcome r = Ok {| status_code := 200;
                      json := JApproved workflow_id ("APPROVED_BY_" +:+ clientId) |}
  ∧ bigqueryService.isWorkflowApproved env1 workflow_id clientId s2
    = MkRun (Ok true) s2 [EvStore (BqIsWorkflowApproved workflow_id clientId)].
Proof.
  intros _ _ _ Haff Hid Happrove Hquery s1 r s2.
  assert (Hgrows : grows s s2).
  { eapply grows_trans; [apply serve_grows|].
    eapply grows_trans; [apply handle_grows|apply serve_grows]. }
  assert (Haff2 : affirmative s2) by (by eapply grows_affirmative).
  assert (Hr : r = MkRun
            (Ok {| status_code := 200;
                   json := JApproved workflow_id ("APPROVED_BY_" +:+ clientId) |})
            (bigqueryService.insert_approval
               (approval_row env0 workflow_id clientId) s1)
            [EvStore (BqApproveWorkflow workflow_id clientId)]).
  { unfold r. cbn [handle]. rewrite approveWorkflow_handler_run.
    assert (falsy (Some clientId) = false) as -> by (by apply bool_decide_eq_false).
    change (as_string (Some clientId)) with clientId. cbv zeta.
    by rewrite Happrove. }
  split_and!; [done|done| |by rewrite Hr|].
  - intros w c row. by apply affirmative_latest.
  - rewrite isWorkflowApproved_run. do 2 f_equal.
    rewrite approved_now_latest, Hquery.
    assert (Hrow : approval_row env0 workflow_id clientId
                   ∈ approval_rows s2 workflow_id clientId).
    { apply list_elem_of_filter. split; [done|].
      apply (grows_elem (store_after r) s2); [apply serve_grows|].
      rewrite Hr. cbn [store_after]. unfold bigqueryService.insert_approval.
      cbn [approvals approval_row a_approver].
      rewrite table_insert_row, decide_True by done.
      apply elem_of_app. right. by left. }
    destruct (latest_approval s2 workflow_id clientId) as [row|] eqn:Hlatest.
    + by eapply affirmative_latest.
    + unfold latest_approval in Hlatest.
      apply (order_by_desc_elem a_approved_at) in Hrow.
      destruct (order_by_desc a_approved_at _) as [|x xs];
        [by apply elem_of_nil in Hrow|done].
Qed.

(** C10 as stated fails: [B] has approved [W], and approves it once more,
    yet the approval check answers [false] when its query rejects. *)
Lemma approved_check_fails_closed :
  let r := handle config Scenario.calm (PostApprove "W" (Some "B")) Scenario.prepared in
  outcome r = Ok {| status_code := 200; json := JApproved "W" "APPROVED_BY_B" |}
  ∧ affirmative (store_after r)
  ∧ bigqueryService.isWorkflowApproved GateScenario.approvals_down "W" "B"
      (store_after r)
    = MkRun (Ok false) (store_after r) [EvStore (BqIsWorkflowApproved "W" "B")].
Proof.
  cbv zeta. split; [by vm_compute|]. split; [|by vm_compute].
  eapply grows_affirmative; [apply handle_grows|].
  eapply grows_affirmative; [apply (serve_grows config _ empty_store)|].
  intros o row Hrow. unfold table in Hrow. simpl in Hrow.
  rewrite lookup_empty in Hrow. by apply elem_of_nil in Hrow.
Qed.

Lemma approval_stays_affirmative_witness :
  safe_script [(Scenario.calm, Scenario.create_W)] = true
  ∧ safe_script Lifecycle.script = true
  ∧ identifier_like "B" = true
  ∧ affirmative empty_store
  ∧ "B" ≠ ""
  ∧ store_fault Scenario.calm (BqApproveWorkflow "W" "B") = None
  ∧ store_fault Scenario.calm (BqIsWorkflowApproved "W" "B") = None
  ∧ bigqueryService.isWorkflowApproved Scenario.calm "W" "B"
      (serve config Lifecycle.script
         (store_after (handle config Scenario.calm (PostApprove "W" (Some "B"))
                         (serve config [(Scenario.calm, Scenario.create_W)]
                            empty_store).2))).2
    = MkRun (Ok true)
        (serve config Lifecycle.script
           (store_after (handle config Scenario.calm (PostApprove "W" (Some "B"))
                           (serve config [(Scenario.calm, Scenario.create_W)]
                              empty_store).2))).2
        [EvStore (BqIsWorkflowApproved "W" "B")].
Proof.
  assert (Hempty : affirmative empty_store).
  { intros o row Hrow. unfold table in Hrow. simpl in Hrow.
    rewrite lookup_empty in Hrow. by apply elem_of_nil in Hrow. }
  split; [reflexivity|]. split; [reflexivity|]. split; [reflexivity|].
  split; [exact Hempty|]. split; [done|]. split; [reflexivity|].
  split; [reflexivity|].
  exact (proj2 (proj2 (proj2 (proj2
    (approval_stays_affirmative config [(Scenario.calm, Scenario.create_W)]
       Lifecycle.script Scenario.calm Scenario.calm "W" "B" empty_store
       eq_refl eq_refl eq_refl Hempty ltac:(done) eq_refl eq_refl))))).
Defined.

(** * Further properties of the code *)

(** ** Strings *)

(** An identifier-like string cannot close the quoted table name it is
    spliced into (it has no backquote), nor start an escape sequence in it
    (it has no backslash, the character 92). *)
Lemma identifier_like_quoted (s : string) :
  identifier_like s = true →
  contains_char "`" s = false ∧ contains_char "092" s = false.
Proof.
  induction s as [|c s IH]; [done|].
  cbn [identifier_like contains_char].
  intros [Hc Hs]%andb_prop. destruct (IH Hs) as [-> ->].
  rewrite !orb_false_r.
  by destruct c as [[] [] [] [] [] [] [] []].
Qed.

Lemma split_comma_char s : split_comma s = split_char "," s.
Proof. induction s as [|c s IH]; simpl; [done|]. by rewrite IH. Qed.

Lemma split_char_nonempty sep s : split_char sep s ≠ [].
Proof.
  destruct s as [|c s]; simpl; [done|].
  destruct (Ascii.eqb c sep); [done|]. by destruct (split_char sep s).
Qed.

(** The first piece has no separator, and the string is that piece, alone
    or followed by a separator and the rest. *)
Lemma split_char_head sep s :
  ∃ x xs, split_char sep s = x :: xs
          ∧ contains_char sep x = false
          ∧ (s = x ∨ ∃ rest, s = x +:+ String sep rest).
Proof.
  induction s as [|c s (x & xs & IH & Hx & Hs)]; simpl.
  - exists "", []. split_and!; [done..|by left].
  - destruct (Ascii.eqb_spec c sep) as [->|Hc].
    + exists "", (split_char sep s). split_and!; [done..|]. right. by exists s.
    + rewrite IH. exists (String c x), xs. split_and!; [done| |].
      * simpl. rewrite Hx. by apply Ascii.eqb_neq in Hc as ->.
      * destruct Hs as [->|[rest ->]]; [by left|]. right. by exists rest.
Qed.

Lemma split_char_app sep x y :
  contains_char sep x = false →
  split_char sep (x +:+ String sep y) = x :: split_char sep y.
Proof.
  induction x as [|c x IH]; simpl; intros Hx.
  - by rewrite Ascii.eqb_refl.
  - apply orb_false_iff in Hx as [Hc Hx]. rewrite Hc. by rewrite IH.
Qed.

Lemma split_char_whole sep x :
  contains_char sep x = false → split_char sep x = [x].
Proof.
  induction x as [|c x IH]; simpl; intros Hx; [done|].
  apply orb_false_iff in Hx as [Hc Hx]. rewrite Hc. by rewrite IH.
Qed.

Lemma substring_from_app x y : substring_from (String.length x) (x +:+ y) = y.
Proof. induction x as [|c x IH]; simpl; [by destruct y|done]. Qed.

Lemma substring_from_past x : substring_from (String.length x + 1) x = "".
Proof. induction x as [|c x IH]; simpl; [done|apply IH]. Qed.

Lemma substring_from_sep x c y :
  substring_from (String.length x + 1) (x +:+ String c y) = y.
Proof. induction x as [|c' x IH]; simpl; [done|apply IH]. Qed.

Lemma prefix_gs_inv uri :
  String.prefix "gs://" uri = true → uri = "gs://" +:+ substring_from 5 uri.
Proof.
  destruct uri as [|c1 [|c2 [|c3 [|c4 [|c5 rest]]]]];
    cbn [String.prefix substring_from]; try done;
    repeat (destruct (ascii_dec _ _) as [<-|]; try done).
Qed.

(** ** GCS URIs *)

(** [parseGcsUri] rejects exactly the URIs that do not start with [gs://],
    and never with "Invalid GCS URI format".  Otherwise the bucket is what
    follows the scheme up to the first slash, and the object path is what
    follows that slash: the URI is the two put together again, or has no
    slash after the scheme, and then the object path is empty. *)
Theorem parseGcsUri_splits (gcsUri : string) :
  match storageService.parseGcsUri gcsUri with
  | Throw e =>
      String.prefix "gs://" gcsUri = false ∧ e = "GCS URI must start with gs://"
  | Ok (bucket, objectPath) =>
      contains_char "/" bucket = false
      ∧ (gcsUri = "gs://" +:+ bucket +:+ "/" +:+ objectPath
         ∨ gcsUri = "gs://" +:+ bucket ∧ objectPath = "")
  end.
Proof.
  unfold storageService.parseGcsUri.
  destruct (String.prefix "gs://" gcsUri) eqn:Hprefix; cbn [negb]; [|done].
  apply prefix_gs_inv in Hprefix.
  set (rest := substring_from 5 gcsUri) in *. clearbody rest. subst gcsUri.
  destruct (split_char_head "/" rest) as (x & xs & -> & Hx & Hrest).
  cbn [take head default length]. rewrite bool_decide_eq_false_2 by done.
  split; [done|]. destruct Hrest as [->|[y ->]].
  - right. by rewrite substring_from_past.
  - left. by rewrite substring_from_sep.
Qed.

(** The path [getGcsPath] builds for an object parses back into the
    configured bucket and that object, when the bucket name has no slash. *)
Theorem parseGcsUri_getGcsPath (cfg : Config) (objectName : string) :
  contains_char "/" (gcp_bucket cfg) = false →
  storageService.parseGcsUri (storageService.getGcsPath cfg objectName)
  = Ok (gcp_bucket cfg, objectName).
Proof.
  intros Hbucket. unfold storageService.parseGcsUri, storageService.getGcsPath.
  rewrite prefix_gs. cbn [negb].
  change (substring_from 5 ("gs://" +:+ ?x)) with x.
  change ("/" +:+ objectName) with (String "/" objectName).
  rewrite split_char_app by done. cbn [take head default length].
  rewrite bool_decide_eq_false_2 by done.
  by rewrite substring_from_sep.
Qed.

Lemma parseGcsUri_getGcsPath_witness :
  storageService.parseGcsUri
    (storageService.getGcsPath config "datasets/A/W/d1/data.enc")
  = Ok ("yellowsense-technologies-cleanroom", "datasets/A/W/d1/data.enc").
Proof. exact (parseGcsUri_getGcsPath config "datasets/A/W/d1/data.enc" eq_refl). Defined.

(** ** The collaborator list of a run *)

Lemma join_comma_cons x y l :
  join_comma (x :: y :: l) = x +:+ String "," (join_comma (y :: l)).
Proof. done. Qed.

Lemma split_join_comma (l : list string) :
  l ≠ [] → Forall (λ c, contains_char "," c = false) l →
  split_comma (join_comma l) = l.
Proof.
  intros Hl Hc. rewrite split_comma_char.
  induction Hc as [|x l Hx Hc IH]; [done|].
  destruct l as [|y l].
  - by apply split_char_whole.
  - rewrite join_comma_cons, split_char_app by done. f_equal. by apply IH.
Qed.

(** The comma-joined list the client sends for a run is read back by the
    backend as the same names, each trimmed, when there is at least one
    name and no name has a comma. *)
Theorem collaboratorList_join (creator : string) (collaborators : list string) :
  collaborators ≠ [] →
  Forall (λ c, contains_char "," c = false) collaborators →
  workflowController.collaboratorList (api.run_params creator collaborators).2
  = trim <$> collaborators.
Proof.
  intros Hl Hc. unfold api.run_params. simpl.
  by rewrite split_join_comma.
Qed.

Lemma collaboratorList_join_witness :
  workflowController.collaboratorList (api.run_params "A" ["B"; " C "]).2
  = ["B"; "C"].
Proof.
  exact (collaboratorList_join "A" ["B"; " C "] ltac:(done)
           ltac:(repeat constructor)).
Defined.

(** ** Every route answers *)

Lemma answers_respond (P : Response → Prop) code body :
  P {| status_code := code; json := body |} → answers P (respond code body).
Proof. intros HP s a [= <-]. done. Qed.

Lemma answers_bind {A B : Type} (P : B → Prop) (m : Async A) (k : A → Async B) :
  (∀ a, answers P (k a)) → answers P (bind m k).
Proof.
  intros Hk s b. unfold bind.
  destruct (m s) as [[a|e] s' evs]; [|done].
  specialize (Hk a s' b). by destruct (k a s').
Qed.

Lemma answers_try_catch {A : Type} (P : A → Prop) (m : Async A)
    (h : string → Async A) :
  answers P m → (∀ e, answers P (h e)) → answers P (try_catch m h).
Proof.
  intros Hm Hh s a. unfold try_catch. specialize (Hm s a).
  destruct (m s) as [[a'|e] s' evs]; [done|].
  specialize (Hh e s' a). by destruct (h e s').
Qed.

(** A handler whose [catch] answers always answers. *)
Lemma handler_answers (P : Response → Prop) (m : Async Response) code body s :
  answers P m → (∀ e, P {| status_code := code; json := body e |}) →
  ∃ response,
    outcome (try_catch m (λ e, respond code (body e)) s) = Ok response
    ∧ P response.
Proof.
  intros Hm Hh. unfold try_catch. specialize (Hm s).
  destruct (m s) as [[a|e] s' evs]; simpl in *; eauto.
Qed.

Ltac answers_step :=
  first
    [ apply answers_respond
    | apply answers_bind; intros
    | apply answers_try_catch; [|intros]
    | match goal with
      | |- answers _ (if ?b then _ else _) => destruct b
      | |- answers _ (match ?x with _ => _ end) => destruct x
      end
    | progress cbv zeta ].

Ltac well_formed_response :=
  split; cbn [status_code json is_error];
    [by repeat constructor|split; intros; done].

(** No exception escapes a controller: every route answers every request,
    with one of the status codes of that route, and the body reports an
    error exactly when the code is not 200. *)
Theorem handle_answers (cfg : Config) (env : Env) (req : Request) (s : Store) :
  ∃ response,
    outcome (handle cfg env req s) = Ok response
    ∧ well_formed (route_codes req) response.
Proof.
  destruct req; cbn [handle route_codes];
    apply handler_answers;
    try (intros; well_formed_response);
    unfold workflowController.callExecutor;
    repeat answers_step; well_formed_response.
Qed.

(** ** The paths of a run that end in an error *)

Section RunErrorFacts.
Context (cfg : Config) (env : Env).

Lemma asked_all (approved : string → bool) l :
  (∀ x, x ∈ l → approved x = true) → asked approved l = l.
Proof.
  induction l as [|c l IH]; intros H; simpl; [done|].
  rewrite H by (by left). f_equal. apply IH. intros x ?. apply H. by right.
Qed.

Lemma gate_passed s workflow_id l :
  (∀ x, x ∈ l → ¬ fails_gate env s workflow_id x) →
  List.find (λ c, negb (approved_now env s workflow_id c)) l = None
  ∧ asked (approved_now env s workflow_id) l = l.
Proof.
  intros H. split.
  - apply find_none_iff. intros y Hy. apply negb_false_iff.
    by apply approved_now_true, H.
  - apply asked_all. intros x Hx. by apply approved_now_true, H.
Qed.

End RunErrorFacts.

(** A run makes no external call at all exactly when [creator] or
    [collaborators] is missing or empty; the answer is then 400 and the
    store is as before. *)
Theorem run_without_parameters (cfg : Config) (env : Env) (workflow_id : string)
    (creator : option string) (collaborators : option QueryValue) (s : Store) :
  let r := workflowController.runWorkflow cfg env workflow_id creator collaborators s in
  (events r = [] ↔ falsy creator || falsy_query collaborators = true)
  ∧ (events r = [] →
     r = MkRun (Ok {| status_code := 400;
                      json := JError "creator and collaborators parameters are required"
                                None |}) s []).
Proof.
  cbv zeta. rewrite runWorkflow_run.
  destruct (falsy creator || falsy_query collaborators); [done|].
  assert (∀ r, events r ≠ [] → (events r = [] ↔ false = true)
               ∧ (events r = [] → r = MkRun
                    (Ok {| status_code := 400;
                           json := JError "creator and collaborators parameters are required"
                                     None |}) s [])) as Hne
    by (intros r Hr; split; [split|]; done).
  cbv zeta.
  repeat
    match goal with
    | |- context [match ?x with _ => _ end] =>
        lazymatch x with
        | outcome _ => fail
        | _ => destruct x eqn:?
        end
    end;
    apply Hne; cbn [events];
    try (intros Hnil; repeat (apply app_eq_nil in Hnil as [Hnil ?]); done).
  apply find_split in Heqo as (before & rest & -> & Hc & Hb).
  rewrite asked_split; [by destruct before| |by apply negb_true_iff].
  intros y Hy. by apply negb_false_iff, Hb.
Qed.



(** When a read of the dataset or key tables is rejected, the run answers
    500 with the message of that read; the workflow has already been set to
    RUNNING and stays so: no further write is made and the executor is not
    called. *)
Theorem run_read_rejected (cfg : Config) (env : Env) (workflow_id : string)
    (creator : option string) (collaborators : option QueryValue) (s : Store)
    (e : string) :
  let c := as_string creator in
  let l := workflowController.collaboratorList collaborators in
  let r := workflowController.runWorkflow cfg env workflow_id creator collaborators s in
  falsy creator = false →
  falsy_query collaborators = false →
  (∀ x, x ∈ l → ¬ fails_gate env s workflow_id x) →
  store_fault env (BqGetWorkflow workflow_id c) = None →
  bigqueryService.select_workflow workflow_id c s ≠ [] →
  store_fault env (BqUpdateWorkflowStatus workflow_id c RUNNING) = None →
  first_read_fault env workflow_id (owners_of c l) = Some e →
  outcome r = Ok (run_failure e)
  ∧ store_after r = bigqueryService.update_status env workflow_id c RUNNING s
  ∧ Forall (λ row, w_status row = RUNNING)
      (bigqueryService.select_workflow workflow_id c (store_after r))
  ∧ writes (events r) = [BqUpdateWorkflowStatus workflow_id c RUNNING]
  ∧ executes (events r) = [].
Proof.
  intros c l r Hc Hl Hgate Hread Hrows Hwrite Hfault. subst r.
  rewrite runWorkflow_run, Hc, Hl. cbn [orb]. cbv zeta. fold c l.
  destruct (gate_passed env s workflow_id l Hgate) as [-> Hasked].
  rewrite Hread.
  destruct (head (bigqueryService.select_workflow workflow_id c s)) eqn:Hhead;
    [|by destruct (bigqueryService.select_workflow workflow_id c s)].
  rewrite Hwrite, Hfault. cbn [outcome store_after events].
  destruct (preflight_trace env s workflow_id c l) as [Hpe Hpw].
  unfold preflight_events in Hpe, Hpw.
  split_and!; [done|done| |done|done].
  apply select_workflow_updated.
Qed.

Lemma run_read_rejected_witness :
  outcome (workflowController.runWorkflow config FaultScenario.keys_down "W"
             (Some "A") (Some (QString "B")) Scenario.prepared)
  = Ok (run_failure "Failed to get keys: quota exceeded").
Proof.
  refine (proj1 (run_read_rejected config FaultScenario.keys_down "W" (Some "A")
                   (Some (QString "B")) Scenario.prepared _
                   eq_refl eq_refl _ eq_refl _ eq_refl eq_refl)).
  - intros x ->%list_elem_of_singleton.
    apply (approved_now_true FaultScenario.keys_down). reflexivity.
  - by vm_compute.
Defined.

(** When the executor has answered and the results were stored, but the
    store rejects the status write COMPLETED, the run is answered as an
    executor failure: 502 "Executor failed" with the message of the store,
    the workflow is FAILED, and the result rows stay in the results
    table. *)
Theorem completed_write_rejected (cfg : Config) (env : Env) (workflow_id : string)
    (creator : option string) (collaborators : option QueryValue) (s : Store)
    (url : string) (payload : ExecuteRequest) (t : N) (info : ExecuteResponse)
    (e : string) :
  let c := as_string creator in
  let r := workflowController.runWorkflow cfg env workflow_id creator collaborators s in
  let rows := result_rows env workflow_id info in
  (url, payload, t) ∈ executes (events r) →
  executor env payload = Ok info →
  (rows ≠ [] → store_fault env (BqInsertResults rows) = None) →
  store_fault env (BqUpdateWorkflowStatus workflow_id c COMPLETED) = Some e →
  store_fault env (BqUpdateWorkflowStatus workflow_id c FAILED) = None →
  outcome r
  = Ok {| status_code := 502;
          json := JError "Executor failed"
                    (Some ("Failed to update workflow status: " +:+ e)) |}
  ∧ results (store_after r) = results s ++ rows
  ∧ Forall (λ row, w_status row = FAILED)
      (bigqueryService.select_workflow workflow_id c (store_after r))
  ∧ writes (events r)
    = BqUpdateWorkflowStatus workflow_id c RUNNING
      :: match rows with [] => [] | _ :: _ => [BqInsertResults rows] end
      ++ [BqUpdateWorkflowStatus workflow_id c COMPLETED;
          BqUpdateWorkflowStatus workflow_id c FAILED].
Proof.
  intros c r rows Hdispatch Hexec Hinsert Hcompleted Hfailed. subst r.
  apply runWorkflow_dispatch in Hdispatch
    as (workflow & Hhead & Hpayload & _ & -> & _ & ->).
  fold c in Hhead |- *.
  destruct (preflight_trace env s workflow_id c
              (workflowController.collaboratorList collaborators)) as [Hpe Hpw].
  rewrite callExecutor_run, Hexec. cbv zeta. fold rows.
  destruct rows as [|row rows'] eqn:Hrows.
  - rewrite Hcompleted. unfold executor_failed. rewrite Hfailed.
    cbn [outcome store_after events].
    rewrite writes_app, Hpw, app_nil_r. split_and!; try done.
    apply select_workflow_updated.
  - rewrite Hinsert, Hcompleted by done. unfold executor_failed. rewrite Hfailed.
    cbn [outcome store_after events].
    rewrite writes_app, Hpw. split_and!; try done.
    apply (select_workflow_updated env workflow_id c FAILED
             (bigqueryService.insert_results (row :: rows')
                (bigqueryService.update_status env workflow_id c RUNNING s))).
Qed.

Lemma completed_write_rejected_witness :
  outcome (workflowController.runWorkflow config FaultScenario.completed_rejected
             "W" (Some "A") (Some (QString "B")) Scenario.prepared)
  = Ok {| status_code := 502;
          json := JError "Executor failed"
                    (Some "Failed to update workflow status: quota exceeded") |}
  ∧ results (store_after (workflowController.runWorkflow config
                            FaultScenario.completed_rejected "W" (Some "A")
                            (Some (QString "B")) Scenario.prepared))
    = results Scenario.prepared
      ++ result_rows FaultScenario.completed_rejected "W" Scenario.answer.
Proof.
  assert (H : ("http://localhost:8443/execute", Scenario.payload, 600000%N)
              ∈ executes (events (workflowController.runWorkflow config
                                    FaultScenario.completed_rejected "W" (Some "A")
                                    (Some (QString "B")) Scenario.prepared)))
    by (vm_compute; left).
  pose proof (completed_write_rejected config FaultScenario.completed_rejected "W"
                (Some "A") (Some (QString "B")) Scenario.prepared _ _ _
                Scenario.answer "quota exceeded" H eq_refl (λ _, eq_refl)
                eq_refl eq_refl) as (H1 & H2 & _).
  exact (conj H1 H2).
Defined.

(** When the executor call fails and the store also rejects the status write
    FAILED, the run answers 500 with the message of the store, not 502; the
    workflow stays RUNNING and the results table is as before. *)
Theorem failed_write_rejected (cfg : Config) (env : Env) (workflow_id : string)
    (creator : option string) (collaborators : option QueryValue) (s : Store)
    (url : string) (payload : ExecuteRequest) (t : N) (e e' : string) :
  let c := as_string creator in
  let r := workflowController.runWorkflow cfg env workflow_id creator collaborators s in
  (url, payload, t) ∈ executes (events r) →
  executor env payload = Throw e →
  store_fault env (BqUpdateWorkflowStatus workflow_id c FAILED) = Some e' →
  outcome r = Ok (run_failure ("Failed to update workflow status: " +:+ e'))
  ∧ store_after r = bigqueryService.update_status env workflow_id c RUNNING s
  ∧ Forall (λ row, w_status row = RUNNING)
      (bigqueryService.select_workflow workflow_id c (store_after r))
  ∧ writes (events r) = [BqUpdateWorkflowStatus workflow_id c RUNNING;
                         BqUpdateWorkflowStatus workflow_id c FAILED].
Proof.
  intros c r Hdispatch Hexec Hfailed. subst r.
  apply runWorkflow_dispatch in Hdispatch
    as (workflow & Hhead & Hpayload & _ & -> & _ & ->).
  fold c in Hhead |- *.
  destruct (preflight_trace env s workflow_id c
              (workflowController.collaboratorList collaborators)) as [Hpe Hpw].
  rewrite callExecutor_run, Hexec. unfold executor_failed. rewrite Hfailed.
  cbn [outcome store_after events].
  rewrite writes_app, Hpw. split_and!; try done.
  apply select_workflow_updated.
Qed.

Lemma failed_write_rejected_witness :
  outcome (workflowController.runWorkflow config FaultScenario.failed_rejected
             "W" (Some "A") (Some (QString "B")) Scenario.prepared)
  = Ok (run_failure "Failed to update workflow status: quota exceeded").
Proof.
  assert (H : ("http://localhost:8443/execute", Scenario.payload, 600000%N)
              ∈ executes (events (workflowController.runWorkflow config
                                    FaultScenario.failed_rejected "W" (Some "A")
                                    (Some (QString "B")) Scenario.prepared)))
    by (vm_compute; left).
  exact (proj1 (failed_write_rejected config FaultScenario.failed_rejected "W"
                  (Some "A") (Some (QString "B")) Scenario.prepared _ _ _
                  "timeout of 600000ms exceeded" "quota exceeded" H eq_refl eq_refl)).
Defined.

(** ** What each request does to the store *)

Section EffectFacts.
Context (cfg : Config) (env : Env).

Lemma falsy_false x : falsy x = false → x = Some (as_string x) ∧ as_string x ≠ "".
Proof.
  destruct x as [x|]; simpl; [|done]. intros H. split; [done|].
  by apply bool_decide_eq_false in H.
Qed.

Lemma insert_results_nil s : bigqueryService.insert_results [] s = s.
Proof. destruct s. unfold bigqueryService.insert_results. simpl. by rewrite app_nil_r. Qed.

Lemma result_rows_tagged workflow_id info :
  Forall (λ row, r_workflow_id row = workflow_id ∧ r_created_at row = now env)
    (result_rows env workflow_id info).
Proof.
  apply Forall_forall. intros row Hrow. unfold result_rows in Hrow.
  by apply elem_of_lookup_imap in Hrow as (i & x & -> & _).
Qed.

Lemma head_Some_ne {A : Type} (l : list A) x : head l = Some x → l ≠ [].
Proof. by destruct l. Qed.

Lemma runWorkflow_effect workflow_id creator collaborators s :
  let c := as_string creator in
  let r := workflowController.runWorkflow cfg env workflow_id creator
             collaborators s in
  store_after r = s
  ∨ ∃ statuses rows,
      store_after r = apply_effect env (Ran workflow_id c statuses rows) s
      ∧ statuses ≠ []
      ∧ allowed cfg env s (Ran workflow_id c statuses rows).
Proof.
  cbv zeta. rewrite runWorkflow_run.
  destruct (falsy creator || falsy_query collaborators);
    cbn [outcome store_after events]; [by left|].
  cbv zeta.
  destruct (List.find _ _); cbn [store_after]; [by left|].
  destruct (store_fault env (BqGetWorkflow _ _)); cbn [store_after]; [by left|].
  destruct (head _) as [workflow|] eqn:Hhead; cbn [store_after]; [|by left].
  apply head_Some_ne in Hhead.
  destruct (store_fault env (BqUpdateWorkflowStatus _ _ RUNNING));
    cbn [store_after]; [by left|].
  assert (∀ statuses rows,
            statuses ∈ [[RUNNING]; [RUNNING; COMPLETED]; [RUNNING; FAILED]] →
            Forall (λ row, r_workflow_id row = workflow_id
                           ∧ r_created_at row = now env) rows →
            statuses ≠ []
            ∧ allowed cfg env s (Ran workflow_id (as_string creator) statuses rows))
    as Hallowed.
  { intros statuses rows Hin Hrows.
    assert (statuses ≠ []) as Hne.
    { intros ->. repeat (apply elem_of_cons in Hin as [Hin|Hin]; [done|]).
      by apply elem_of_nil in Hin. }
    split; [done|]. split_and!; [by right|done..]. }
  assert (∀ s', s' = bigqueryService.update_status env workflow_id
                       (as_string creator) RUNNING s →
            s' = s ∨ ∃ statuses rows,
              s' = apply_effect env (Ran workflow_id (as_string creator)
                                       statuses rows) s
              ∧ statuses ≠ []
              ∧ allowed cfg env s (Ran workflow_id (as_string creator)
                                     statuses rows)) as Hrunning.
  { intros s' ->. right. exists [RUNNING], []. split.
    - cbn [apply_effect]. by rewrite insert_results_nil.
    - apply Hallowed; [by left|done]. }
  destruct (first_read_fault _ _ _); cbn [store_after]; [by apply Hrunning|].
  case_bool_decide; cbn [store_after]; [by apply Hrunning|].
  rewrite callExecutor_run. right.
  destruct (executor env _) as [info|e]; cbv zeta.
  - pose proof (result_rows_tagged workflow_id info) as Htagged.
    destruct (result_rows env workflow_id info) as [|row rows] eqn:Hrows.
    + unfold executor_failed.
      repeat (destruct (store_fault env _); cbn [store_after]).
      * exists [RUNNING], []. split; [cbn [apply_effect]; by rewrite insert_results_nil|].
        apply Hallowed; [by left|done].
      * exists [RUNNING; FAILED], [].
        split; [cbn [apply_effect]; by rewrite insert_results_nil|].
        apply Hallowed; [by right; right; left|done].
      * exists [RUNNING; COMPLETED], [].
        split; [cbn [apply_effect]; by rewrite insert_results_nil|].
        apply Hallowed; [by right; left|done].
    + unfold executor_failed.
      repeat (destruct (store_fault env _); cbn [store_after]).
      * exists [RUNNING], []. split; [cbn [apply_effect]; by rewrite insert_results_nil|].
        apply Hallowed; [by left|done].
      * exists [RUNNING; FAILED], [].
        split; [cbn [apply_effect]; by rewrite insert_results_nil|].
        apply Hallowed; [by right; right; left|done].
      * exists [RUNNING], (row :: rows). split; [done|].
        apply Hallowed; [by left|done].
      * exists [RUNNING; FAILED], (row :: rows). split; [done|].
        apply Hallowed; [by right; right; left|done].
      * exists [RUNNING; COMPLETED], (row :: rows). split; [done|].
        apply Hallowed; [by right; left|done].
  - unfold executor_failed.
    destruct (store_fault env _); cbn [store_after].
    + exists [RUNNING], []. split; [cbn [apply_effect]; by rewrite insert_results_nil|].
      apply Hallowed; [by left|done].
    + exists [RUNNING; FAILED], [].
      split; [cbn [apply_effect]; by rewrite insert_results_nil|].
      apply Hallowed; [by right; right; left|done].
Qed.

End EffectFacts.

Section UploadFacts.
Context (cfg : Config) (env : Env).

Lemma insertMetadata_effect file_type workflow_id dataset_id o filename s :
  let gcsPath :=
    storageService.getGcsPath cfg
      (file_type +:+ "s/" +:+ o +:+ "/" +:+ workflow_id +:+ "/" +:+ dataset_id
         +:+ "/" +:+ filename) in
  let s' := store_after (storageController.insertMetadata env file_type workflow_id
                           dataset_id o filename gcsPath s) in
  s' = s
  ∨ s' = bigqueryService.insert_dataset_row
           (dataset_row cfg env workflow_id dataset_id o filename) s
  ∨ s' = bigqueryService.insert_key_row
           (key_row cfg env workflow_id dataset_id o filename) s.
Proof.
  unfold storageController.insertMetadata, bigqueryService.insertDataset,
    bigqueryService.insertKey, try_catch, bigqueryService.bq_write, throw, ret.
  repeat case_bool_decide; subst; cbn [store_after]; [| |by left];
    destruct (store_fault env _); cbn [store_after after]; auto.
Qed.

Lemma upload_allowed workflow_id dataset_id o filename s s' :
  workflow_id ≠ "" → dataset_id ≠ "" → o ≠ "" →
  s' = s
  ∨ s' = bigqueryService.insert_dataset_row
           (dataset_row cfg env workflow_id dataset_id o filename) s
  ∨ s' = bigqueryService.insert_key_row
           (key_row cfg env workflow_id dataset_id o filename) s →
  ∃ eff, s' = apply_effect env eff s ∧ allowed cfg env s eff.
Proof.
  intros ??? [->|[->| ->]].
  - by exists Nothing.
  - eexists (DatasetAdded _). split; [done|]. simpl. eauto 10.
  - eexists (KeyAdded _). split; [done|]. simpl. eauto 10.
Qed.

Lemma generateUploadUrl_effect workflow_id dataset_id filename file_type o s :
  ∃ eff,
    store_after (storageController.generateUploadUrl cfg env workflow_id
                   dataset_id filename file_type o s)
    = apply_effect env eff s
    ∧ allowed cfg env s eff.
Proof.
  unfold storageController.generateUploadUrl, try_catch, bind, respond, ret,
    storageService.generateUploadUrl.
  destruct (_ || _) eqn:Hguard; [by exists Nothing|].
  repeat (apply orb_false_iff in Hguard as [Hguard ?]).
  repeat match goal with H : falsy _ = false |- _ => apply falsy_false in H as [_ ?] end.
  cbv zeta. destruct (negb _); [by exists Nothing|]. cbn [store_after].
  destruct (signed_url env _); cbn [store_after after]; [|by exists Nothing].
  pose proof (insertMetadata_effect (as_string file_type) (as_string workflow_id)
                (as_string dataset_id) (as_string o) (as_string filename) s) as H'.
  cbv zeta in H'.
  destruct (storageController.insertMetadata _ _ _ _ _ _ _ _) as [[[]|e] s' evs];
    cbn [store_after after] in *;
    (eapply upload_allowed; [| | |exact H']; done).
Qed.

Lemma uploadFile_effect file workflow_id dataset_id file_type o s :
  ∃ eff,
    store_after (storageController.uploadFile cfg env file workflow_id dataset_id
                   file_type o s)
    = apply_effect env eff s
    ∧ allowed cfg env s eff.
Proof.
  unfold storageController.uploadFile, try_catch, bind, respond, ret,
    storageService.uploadFile.
  destruct file as [file|]; [|by exists Nothing].
  destruct (_ || _) eqn:Hguard; [by exists Nothing|].
  repeat (apply orb_false_iff in Hguard as [Hguard ?]).
  repeat match goal with H : falsy _ = false |- _ => apply falsy_false in H as [_ ?] end.
  cbv zeta. unfold storageService.getGcsPath at 1. rewrite prefix_gs.
  destruct (upload_fault env _); cbn [store_after after]; [by exists Nothing|].
  pose proof (insertMetadata_effect (as_string file_type) (as_string workflow_id)
                (as_string dataset_id) (as_string o) (originalname file) s) as H'.
  cbv zeta in H'.
  destruct (storageController.insertMetadata _ _ _ _ _ _ _ _) as [[[]|e] s' evs];
    cbn [store_after after] in *;
    (eapply upload_allowed; [| | |exact H']; done).
Qed.

(** Every request leaves the store as it was or makes one of the changes
    of [Effect], within what [allowed] says. *)
Lemma handle_effect req s :
  ∃ eff,
    store_after (handle cfg env req s) = apply_effect env eff s
    ∧ allowed cfg env s eff.
Proof.
  destruct req as [body|workflow_id creator|workflow_id client_id
                  |workflow_id creator collaborators
                  |workflow_id|workflow_id|user_id|user_id
                  |workflow_id dataset_id filename file_type o
                  |gcs_path|
                  |file workflow_id dataset_id file_type o]; cbn [handle].
  - rewrite createWorkflow_handler_run.
    destruct (_ || _) eqn:Hguard; [by exists Nothing|].
    repeat (apply orb_false_iff in Hguard as [Hguard ?]).
    apply falsy_false in Hguard as [_ ?].
    repeat match goal with H : falsy _ = false |- _ => apply falsy_false in H as [_ ?] end.
    cbv zeta. destruct (store_fault env _); [by exists Nothing|].
    by exists (Created (created_row cfg env body)).
  - exists Nothing. by rewrite getWorkflow_handler_store.
  - rewrite approveWorkflow_handler_run.
    destruct (falsy client_id) eqn:Hguard; [by exists Nothing|].
    apply falsy_false in Hguard as [_ ?].
    cbv zeta. destruct (store_fault env _); [by exists Nothing|].
    by exists (Approved (approval_row env workflow_id (as_string client_id))).
  - destruct (runWorkflow_effect cfg env workflow_id creator collaborators s)
      as [->|(statuses & rows & -> & _ & Hallowed)]; [by exists Nothing|].
    by eexists (Ran _ _ _ _).
  - exists Nothing. by rewrite getWorkflowResults_store.
  - exists Nothing. by rewrite getWorkflowLogs_store.
  - exists Nothing. by rewrite getAllWorkflows_store.
  - exists Nothing. by rewrite getDashboardStats_store.
  - apply generateUploadUrl_effect.
  - exists Nothing. by rewrite generateDownloadUrl_store.
  - exists Nothing. by rewrite getExecutorPubkey_store.
  - apply uploadFile_effect.
Qed.

End UploadFacts.

(** ** Rows are kept *)

Section ExtendFacts.
Context (cfg : Config).

Lemma same_but_status_refl row : same_but_status row row.
Proof. by repeat split. Qed.

Lemma same_but_status_trans r1 r2 r3 :
  same_but_status r1 r2 → same_but_status r2 r3 → same_but_status r1 r3.
Proof.
  intros (?&?&?&?&?) (?&?&?&?&?). repeat split; congruence.
Qed.

Lemma same_but_status_set env workflowId status row :
  same_but_status row (bigqueryService.set_status env workflowId status row).
Proof.
  unfold bigqueryService.set_status. case_decide; by repeat split.
Qed.

Lemma kept_refl (rows : list Workflow) : Forall2 same_but_status rows rows.
Proof. apply Forall_Forall2_diag, Forall_forall. intros. apply same_but_status_refl. Qed.

Lemma table_update_status env workflowId creator status s o :
  table (workflows (bigqueryService.update_status env workflowId creator status s)) o
  = if decide (o = creator)
    then bigqueryService.set_status env workflowId status <$> table (workflows s) o
    else table (workflows s) o.
Proof.
  unfold bigqueryService.update_status, table. cbn [workflows].
  destruct (workflows s !! creator) as [rows|] eqn:Hrows; case_decide as Ho;
    subst; rewrite ?lookup_insert_eq, ?lookup_insert_ne, ?Hrows by done; done.
Qed.

Lemma extends_refl s : extends s s.
Proof.
  split_and!; try done.
  intros o. exists (table (workflows s) o), []. rewrite app_nil_r.
  split; [done|apply kept_refl].
Qed.

Lemma extends_trans s1 s2 s3 : extends s1 s2 → extends s2 s3 → extends s1 s3.
Proof.
  intros (Hw1 & Ha1 & Hd1 & Hk1 & Hr1) (Hw2 & Ha2 & Hd2 & Hk2 & Hr2).
  split_and!;
    [|intros o; etrans; [apply Ha1|apply Ha2]
     |intros o; etrans; [apply Hd1|apply Hd2]
     |intros o; etrans; [apply Hk1|apply Hk2]
     |etrans; [apply Hr1|apply Hr2]].
  intros o. destruct (Hw1 o) as (kept1 & new1 & E1 & F1).
  destruct (Hw2 o) as (kept2 & new2 & E2 & F2).
  rewrite E1 in F2. apply Forall2_app_inv_l in F2 as (k1 & k2 & F21 & F22 & ->).
  exists k1, (k2 ++ new2). rewrite E2, app_assoc. split; [done|].
  eapply Forall2_trans; [|apply F1|apply F21]. apply same_but_status_trans.
Qed.

Lemma extends_update_status env workflowId creator status s :
  extends s (bigqueryService.update_status env workflowId creator status s).
Proof.
  split_and!; try done.
  intros o. rewrite table_update_status. case_decide.
  - eexists _, []. rewrite app_nil_r. split; [done|].
    apply Forall2_fmap_r, Forall_Forall2_diag, Forall_forall. intros.
    apply same_but_status_set.
  - eexists _, []. rewrite app_nil_r. split; [done|apply kept_refl].
Qed.

Lemma extends_apply_statuses env workflowId creator statuses s :
  extends s (apply_statuses env workflowId creator statuses s).
Proof.
  revert s. induction statuses as [|status statuses IH]; intros s.
  - apply extends_refl.
  - eapply extends_trans; [apply extends_update_status|apply IH].
Qed.

Lemma prefix_insert_row {A : Type} o (row : A) m o' :
  table m o' `prefix_of` table (insert_row o row m) o'.
Proof.
  rewrite table_insert_row. case_decide; subst; [by apply prefix_app_r|done].
Qed.

Lemma extends_intro s s' :
  (∀ o, table (workflows s) o `prefix_of` table (workflows s') o) →
  (∀ o, table (approvals s) o `prefix_of` table (approvals s') o) →
  (∀ o, table (dataset_rows s) o `prefix_of` table (dataset_rows s') o) →
  (∀ o, table (key_rows s) o `prefix_of` table (key_rows s') o) →
  results s `prefix_of` results s' →
  extends s s'.
Proof.
  intros Hw ????. split_and!; try done.
  intros o. destruct (Hw o) as [new ->]. eexists _, new. split; [done|apply kept_refl].
Qed.

Lemma extends_effect env eff s : extends s (apply_effect env eff s).
Proof.
  destruct eff as [|row|row|row|row|workflowId creator statuses rows];
    cbn [apply_effect].
  - apply extends_refl.
  - apply extends_intro; intros;
      unfold bigqueryService.insert_workflow;
      cbn [workflows approvals dataset_rows key_rows results];
      first [apply prefix_insert_row|reflexivity].
  - apply extends_intro; intros;
      unfold bigqueryService.insert_approval;
      cbn [workflows approvals dataset_rows key_rows results];
      first [apply prefix_insert_row|reflexivity].
  - apply extends_intro; intros;
      unfold bigqueryService.insert_dataset_row;
      cbn [workflows approvals dataset_rows key_rows results];
      first [apply prefix_insert_row|reflexivity].
  - apply extends_intro; intros;
      unfold bigqueryService.insert_key_row;
      cbn [workflows approvals dataset_rows key_rows results];
      first [apply prefix_insert_row|reflexivity].
  - eapply extends_trans; [apply extends_apply_statuses|].
    apply extends_intro; intros;
      unfold bigqueryService.insert_results;
      cbn [workflows approvals dataset_rows key_rows results];
      first [by apply prefix_app_r|reflexivity].
Qed.

Lemma handle_extends env req s : extends s (store_after (handle cfg env req s)).
Proof.
  destruct (handle_effect cfg env req s) as (eff & -> & _). apply extends_effect.
Qed.

Lemma serve_keeps script s : extends s (serve cfg script s).2.
Proof.
  revert s. induction script as [|[env req] script IH]; intros s; simpl.
  - apply extends_refl.
  - specialize (IH (store_after (handle cfg env req s))).
    destruct (serve cfg script _) as [answers s']. simpl in *.
    eapply extends_trans; [apply handle_extends|done].
Qed.

End ExtendFacts.

(** No request whose party names are identifier-like removes a row or
    rewrites one, except that the status and the time of update of a
    workflow may change: after any sequence of such requests, every table
    still starts with the rows it had, in their order. *)
Theorem serve_extends (cfg : Config) (script : list (Env * Request)) (s : Store) :
  safe_script script = true →
  extends s (serve cfg script s).2.
Proof.
  intros _. revert s. induction script as [|[env req] script IH]; intros s; simpl.
  - apply extends_refl.
  - specialize (IH (store_after (handle cfg env req s))).
    destruct (serve cfg script _) as [answers s']. simpl in *.
    eapply extends_trans; [apply handle_extends|done].
Qed.

Lemma serve_extends_witness :
  safe_script Lifecycle.script = true
  ∧ extends Scenario.prepared (serve config Lifecycle.script Scenario.prepared).2.
Proof.
  split; [reflexivity|].
  exact (serve_extends config Lifecycle.script Scenario.prepared eq_refl).
Defined.

(** ** What holds of every row *)

Section ConsistentFacts.
Context (cfg : Config).

Lemma consistent_empty : consistent cfg empty_store.
Proof.
  unfold consistent, table. cbn [workflows approvals dataset_rows key_rows results
                                  empty_store].
  split_and!; intros; repeat rewrite lookup_empty in *; cbn [default] in *;
    by match goal with H : _ ∈ [] |- _ => apply elem_of_nil in H end.
Qed.

Lemma extends_workflow s s' o w :
  extends s s' → w ∈ table (workflows s) o →
  ∃ w', w' ∈ table (workflows s') o ∧ w_workflow_id w' = w_workflow_id w.
Proof.
  intros (Hw & _) Hin. destruct (Hw o) as (kept & new & -> & F).
  apply list_elem_of_lookup in Hin as [i Hi].
  destruct (Forall2_lookup_l _ _ _ _ _ F Hi) as (w' & Hi' & Hsame).
  exists w'. split; [|apply Hsame].
  apply elem_of_app. left. by eapply list_elem_of_lookup_2.
Qed.

Lemma results_belong s s' :
  extends s s' →
  (∀ row, row ∈ results s →
     ∃ o workflow, workflow ∈ table (workflows s) o
                   ∧ w_workflow_id workflow = r_workflow_id row) →
  (∀ row, row ∈ results s' →
     row ∈ results s
     ∨ ∃ o workflow, workflow ∈ table (workflows s) o
                     ∧ w_workflow_id workflow = r_workflow_id row) →
  ∀ row, row ∈ results s' →
    ∃ o workflow, workflow ∈ table (workflows s') o
                  ∧ w_workflow_id workflow = r_workflow_id row.
Proof.
  intros Hext Hold Hnew row Hrow.
  assert (∃ o workflow, workflow ∈ table (workflows s) o
                        ∧ w_workflow_id workflow = r_workflow_id row)
    as (o & w & Hw & Hid) by (destruct (Hnew row Hrow); auto).
  destruct (extends_workflow s s' o w Hext Hw) as (w' & Hw' & Hid').
  exists o, w'. split; [done|congruence].
Qed.

Lemma consistent_update_status env workflowId creator status s :
  status ∈ [RUNNING; COMPLETED; FAILED] →
  consistent cfg s →
  consistent cfg (bigqueryService.update_status env workflowId creator status s).
Proof.
  intros Hstatus (Cw & Ca & Cd & Ck & Cr). split_and!; try done.
  - intros o row. rewrite table_update_status. case_decide; [|apply Cw].
    intros (row0 & -> & Hrow0)%list_elem_of_fmap.
    destruct (Cw o row0 Hrow0) as (? & ? & ?).
    unfold bigqueryService.set_status. case_decide; [|done].
    cbn [w_creator w_workload_path w_status]. split_and!; [done..|].
    by right.
  - apply (results_belong s); [apply extends_update_status|done|by left].
Qed.

Lemma consistent_apply_statuses env workflowId creator statuses s :
  Forall (λ status, status ∈ [RUNNING; COMPLETED; FAILED]) statuses →
  consistent cfg s →
  consistent cfg (apply_statuses env workflowId creator statuses s).
Proof.
  intros H. revert s. induction H as [|status statuses Hs _ IH]; intros s Hc;
    [done|].
  apply IH. by apply consistent_update_status.
Qed.

Lemma results_apply_statuses env workflowId creator statuses s :
  results (apply_statuses env workflowId creator statuses s) = results s.
Proof.
  revert s. induction statuses as [|status statuses IH]; intros s; [done|].
  unfold apply_statuses in *. cbn [foldl]. by rewrite IH.
Qed.

Lemma run_statuses statuses :
  statuses ∈ run_status_writes →
  Forall (λ status, status ∈ [RUNNING; COMPLETED; FAILED]) statuses.
Proof.
  unfold run_status_writes. intros H.
  repeat (apply elem_of_cons in H as [->|H]);
    [..|by apply elem_of_nil in H];
    repeat constructor.
Qed.

Lemma consistent_effect env eff s :
  allowed cfg env s eff → consistent cfg s → consistent cfg (apply_effect env eff s).
Proof.
  intros Hallowed Hc. pose proof (extends_effect env eff s) as Hext.
  destruct Hc as (Cw & Ca & Cd & Ck & Cr).
  destruct eff as [|row|row|row|row|workflowId creator statuses rows];
    cbn [apply_effect allowed] in *.
  - done.
  - destruct Hallowed as (_ & _ & Hpath & Hstatus & _).
    split_and!; try done.
    + intros o row'. cbn [bigqueryService.insert_workflow workflows].
      rewrite table_insert_row. case_decide; [|apply Cw]. subst o.
      intros [?| ->%list_elem_of_singleton]%elem_of_app; [by apply Cw|].
      rewrite Hstatus. split_and!; [done..|by left].
    + apply (results_belong s); [done..|by left].
  - destruct Hallowed as (_ & Happroved & _).
    split_and!; try done.
    + intros o row'. cbn [bigqueryService.insert_approval approvals].
      rewrite table_insert_row. case_decide; [|apply Ca]. subst o.
      by intros [?| ->%list_elem_of_singleton]%elem_of_app; [apply Ca|].
  - destruct Hallowed as (workflow_id & dataset_id & o' & filename & -> & _).
    split_and!; try done.
    + intros o row'. cbn [bigqueryService.insert_dataset_row dataset_rows].
      rewrite table_insert_row. case_decide; [|apply Cd]. subst o.
      by intros [?| ->%list_elem_of_singleton]%elem_of_app; [apply Cd|].
  - destruct Hallowed as (workflow_id & dataset_id & o' & filename & -> & _).
    split_and!; try done.
    + intros o row'. cbn [bigqueryService.insert_key_row key_rows].
      rewrite table_insert_row. case_decide; [|apply Ck]. subst o.
      intros [?| ->%list_elem_of_singleton]%elem_of_app; [by apply Ck|].
      split_and!; [done..|]. by exists filename.
  - destruct Hallowed as (Hin & Hfound & Hrows & Htagged).
    pose proof (consistent_apply_statuses env workflowId creator statuses s
                  (run_statuses _ Hin) (conj Cw (conj Ca (conj Cd (conj Ck Cr)))))
      as (Cw' & Ca' & Cd' & Ck' & _).
    split_and!; try done.
    apply (results_belong s); [done..|].
    intros row. cbn [bigqueryService.insert_results results].
    rewrite results_apply_statuses.
    intros [?|Hrow]%elem_of_app; [by left|]. right.
    assert (rows ≠ []) as Hne by (intros ->; by apply elem_of_nil in Hrow).
    specialize (Hfound (Hrows Hne)).
    destruct (bigqueryService.select_workflow workflowId creator s)
      as [|w ws] eqn:Hsel; [done|].
    assert (w ∈ bigqueryService.select_workflow workflowId creator s) as Hw
      by (rewrite Hsel; by left).
    apply list_elem_of_filter in Hw as [Hid Hw].
    exists creator, w. split; [done|].
    rewrite Forall_forall in Htagged. by destruct (Htagged row Hrow) as [-> _].
Qed.

Lemma handle_consistent env req s :
  consistent cfg s → consistent cfg (store_after (handle cfg env req s)).
Proof.
  destruct (handle_effect cfg env req s) as (eff & -> & Hallowed).
  by apply consistent_effect.
Qed.

Lemma serve_consistent script s :
  consistent cfg s → consistent cfg (serve cfg script s).2.
Proof.
  revert s. induction script as [|[env req] script IH]; intros s Hc; simpl; [done|].
  specialize (IH (store_after (handle cfg env req s)) (handle_consistent env req s Hc)).
  by destruct (serve cfg script _) as [answers s'].
Qed.

End ConsistentFacts.

(** Through requests whose party names are identifier-like, starting from
    empty tables: every workflow row sits in the table of its creator,
    carries the configured workload path, and has one of the statuses
    PENDING_APPROVAL, RUNNING, COMPLETED and FAILED; such requests never
    write APPROVED or REJECTED. *)
Theorem workflow_rows_invariant (cfg : Config) (script : list (Env * Request))
    (o : string) :
  safe_script script = true →
  Forall (λ row, w_creator row = o
                 ∧ w_workload_path row = workload_fixedPath cfg
                 ∧ w_status row ∈ [PENDING_APPROVAL; RUNNING; COMPLETED; FAILED])
    (table (workflows (serve cfg script empty_store).2) o).
Proof.
  intros _.
  destruct (serve_consistent cfg script empty_store (consistent_empty cfg))
    as (Cw & _).
  apply Forall_forall. intros row. apply Cw.
Qed.

Lemma workflow_rows_invariant_witness :
  safe_script Lifecycle.script = true
  ∧ Forall (λ row, w_creator row = "C"
                   ∧ w_workload_path row = workload_fixedPath config
                   ∧ w_status row ∈ [PENDING_APPROVAL; RUNNING; COMPLETED; FAILED])
      (table (workflows (serve config Lifecycle.script empty_store).2) "C").
Proof.
  split; [reflexivity|].
  exact (workflow_rows_invariant config Lifecycle.script "C" eq_refl).
Defined.

(** Through requests whose party names are identifier-like, starting from
    empty tables: every result row belongs to a workflow that has a row in
    some creator's table. *)
Theorem results_belong_to_workflows (cfg : Config) (script : list (Env * Request)) :
  safe_script script = true →
  let s := (serve cfg script empty_store).2 in
  Forall (λ row, ∃ o workflow, workflow ∈ table (workflows s) o
                               ∧ w_workflow_id workflow = r_workflow_id row)
    (results s).
Proof.
  intros _.
  destruct (serve_consistent cfg script empty_store (consistent_empty cfg))
    as (_ & _ & _ & _ & Cr).
  apply Forall_forall. intros row. apply Cr.
Qed.

Lemma results_belong_to_workflows_witness :
  safe_script Lifecycle.script = true
  ∧ Forall (λ row, ∃ o workflow,
              workflow ∈ table (workflows (serve config Lifecycle.script
                                             empty_store).2) o
              ∧ w_workflow_id workflow = r_workflow_id row)
      (results (serve config Lifecycle.script empty_store).2).
Proof.
  split; [reflexivity|].
  exact (results_belong_to_workflows config Lifecycle.script eq_refl).
Defined.

(** Whatever requests came before, as long as their party names and those
    of the run are identifier-like, a run never sends the executor a
    workload other than the configured one. *)
Theorem dispatched_workload (cfg : Config) (script : list (Env * Request))
    (env : Env) (workflow_id : string) (creator : option string)
    (collaborators : option QueryValue) (url : string) (payload : ExecuteRequest)
    (t : N) :
  let s := (serve cfg script empty_store).2 in
  safe_script script = true →
  safe_request (PostRun workflow_id creator collaborators) = true →
  (url, payload, t)
  ∈ executes (events (workflowController.runWorkflow cfg env workflow_id creator
                        collaborators s)) →
  workload_gcs payload = workload_fixedPath cfg.
Proof.
  intros s _ _ Hdispatch.
  apply runWorkflow_dispatch in Hdispatch as (workflow & Hhead & -> & _).
  cbn [workload_gcs execute_request].
  destruct (serve_consistent cfg script empty_store (consistent_empty cfg))
    as (Cw & _).
  assert (workflow ∈ bigqueryService.select_workflow workflow_id
                       (as_string creator) s) as Hin.
  { destruct (bigqueryService.select_workflow _ _ _); simplify_eq/=. by left. }
  apply list_elem_of_filter in Hin as [_ Hin].
  by destruct (Cw _ _ Hin) as (_ & ? & _).
Qed.

Lemma dispatched_workload_witness :
  ("http://localhost:8443/execute", Scenario.payload, 600000%N)
  ∈ executes (events (workflowController.runWorkflow config Scenario.calm "W"
                        (Some "A") (Some (QString "B")) Scenario.prepared))
  ∧ workload_gcs Scenario.payload = workload_fixedPath config.
Proof.
  assert (H : ("http://localhost:8443/execute", Scenario.payload, 600000%N)
              ∈ executes (events (workflowController.runWorkflow config Scenario.calm
                                    "W" (Some "A") (Some (QString "B"))
                                    Scenario.prepared)))
    by (vm_compute; left).
  split; [exact H|].
  refine (dispatched_workload config _ Scenario.calm "W" (Some "A")
            (Some (QString "B")) _ _ _ _ _ H); reflexivity.
Defined.

(** Whatever requests came before, as long as their party names and those
    of the run are identifier-like, every tuple a run sends the executor
    names a ciphertext under [datasets/{owner}/{workflow}/{dataset}/] and a
    wrapped key under [keys/{owner}/{workflow}/{dataset}/] of the configured
    bucket, for the tuple's own owner, the workflow that is run and one
    and the same dataset id. *)
Theorem dispatched_paths (cfg : Config) (script : list (Env * Request))
    (env : Env) (workflow_id : string) (creator : option string)
    (collaborators : option QueryValue) (url : string) (payload : ExecuteRequest)
    (t : N) :
  let s := (serve cfg script empty_store).2 in
  safe_script script = true →
  safe_request (PostRun workflow_id creator collaborators) = true →
  (url, payload, t)
  ∈ executes (events (workflowController.runWorkflow cfg env workflow_id creator
                        collaborators s)) →
  Forall
    (λ tuple,
       ∃ dataset_id filename keyname,
         ciphertext_gcs tuple
         = storageService.getGcsPath cfg
             ("datasets/" +:+ owner tuple +:+ "/" +:+ workflow_id +:+ "/"
                +:+ dataset_id +:+ "/" +:+ filename)
         ∧ wrapped_dek_gcs tuple
           = storageService.getGcsPath cfg
               ("keys/" +:+ owner tuple +:+ "/" +:+ workflow_id +:+ "/"
                  +:+ dataset_id +:+ "/" +:+ keyname))
    (datasets payload).
Proof.
  intros s _ _ Hdispatch.
  apply runWorkflow_dispatch in Hdispatch as (workflow & _ & -> & _).
  cbn [datasets execute_request]. unfold assemble.
  destruct (serve_consistent cfg script empty_store (consistent_empty cfg))
    as (_ & _ & Cd & Ck & _). fold s in Cd, Ck.
  apply Forall_concat_fmap. intros o. apply Forall_forall. intros tuple Htuple.
  apply owner_tuples_sound in Htuple as (d & k & Hd & Hk & Hid & ->).
  apply list_elem_of_filter in Hd as [[Hdw _] Hd].
  apply list_elem_of_filter in Hk as [[Hkw _] Hk].
  destruct (Cd o d Hd) as (_ & Hdpath).
  destruct (Ck o k Hk) as (_ & _ & keyname & Hkpath).
  exists (d_dataset_id d), (d_filename d), keyname.
  cbn [ciphertext_gcs wrapped_dek_gcs owner].
  rewrite Hdpath, Hkpath, Hdw, Hkw, Hid. done.
Qed.

Lemma dispatched_paths_witness :
  ("http://localhost:8443/execute", Scenario.payload, 600000%N)
  ∈ executes (events (workflowController.runWorkflow config Scenario.calm "W"
                        (Some "A") (Some (QString "B")) Scenario.prepared))
  ∧ Forall
      (λ tuple,
         ∃ dataset_id filename keyname,
           ciphertext_gcs tuple
           = storageService.getGcsPath config
               ("datasets/" +:+ owner tuple +:+ "/" +:+ "W" +:+ "/"
                  +:+ dataset_id +:+ "/" +:+ filename)
           ∧ wrapped_dek_gcs tuple
             = storageService.getGcsPath config
                 ("keys/" +:+ owner tuple +:+ "/" +:+ "W" +:+ "/"
                    +:+ dataset_id +:+ "/" +:+ keyname))
      (datasets Scenario.payload).
Proof.
  assert (H : ("http://localhost:8443/execute", Scenario.payload, 600000%N)
              ∈ executes (events (workflowController.runWorkflow config Scenario.calm
                                    "W" (Some "A") (Some (QString "B"))
                                    Scenario.prepared)))
    by (vm_compute; left).
  split; [exact H|].
  refine (dispatched_paths config _ Scenario.calm "W" (Some "A")
            (Some (QString "B")) _ _ _ _ _ H); reflexivity.
Defined.

(** ** Approvals and workflows, one after the other *)

(** An approval counts only for the workflow and the party it names: the
    approval check of any other pair answers after the request what it
    answered before it. *)
Theorem approval_counts_for_its_pair (env env' : Env) (workflow_id : string)
    (client_id : option string) (w c : string) (s : Store) :
  (w, c) ≠ (workflow_id, as_string client_id) →
  let s' := store_after (workflowController.approveWorkflow env workflow_id
                           client_id s) in
  outcome (bigqueryService.isWorkflowApproved env' w c s')
  = outcome (bigqueryService.isWorkflowApproved env' w c s).
Proof.
  intros Hpair. cbv zeta. rewrite approveWorkflow_handler_run.
  destruct (falsy client_id); [done|]. cbv zeta.
  destruct (store_fault env _); [done|]. cbn [store_after].
  rewrite !isWorkflowApproved_run. cbn [outcome]. f_equal.
  unfold approved_now, bigqueryService.select_latest_approval,
    bigqueryService.insert_approval.
  cbn [approvals approval_row a_approver].
  rewrite table_insert_row. case_decide as Hc; [|done]. subst c.
  rewrite filter_app, filter_cons_False, filter_nil, app_nil_r; [done|].
  cbn [a_workflow_id approval_row]. by intros ->.
Qed.

Lemma approval_counts_for_its_pair_witness :
  outcome (bigqueryService.isWorkflowApproved Scenario.calm "W" "C"
             (store_after (workflowController.approveWorkflow Scenario.calm "W"
                             (Some "B") Scenario.prepared)))
  = outcome (bigqueryService.isWorkflowApproved Scenario.calm "W" "C"
               Scenario.prepared).
Proof.
  exact (approval_counts_for_its_pair Scenario.calm Scenario.calm "W" (Some "B")
           "W" "C" Scenario.prepared ltac:(done)).
Defined.




(** ** The key that goes with a dataset *)

Section RecentFacts.
Context {A : Type} (key : A → Timestamp).

#[local] Existing Instance later_first_trans.
#[local] Existing Instance later_first_total.

(** The first row of a descending order that satisfies [p] is a most
    recent one of those that do. *)
Lemma find_most_recent (p : A → bool) rows x :
  List.find p (order_by_desc key rows) = Some x →
  x ∈ rows ∧ p x = true ∧ ∀ y, y ∈ rows → p y = true → key y ≤ key x.
Proof.
  intros Hfind.
  pose proof (StronglySorted_merge_sort (later_first key) rows) as Hs.
  fold (order_by_desc key rows) in Hs.
  apply find_split in Hfind as (before & rest & Heq & Hx & Hb).
  assert (Hin : ∀ y, y ∈ rows ↔ y ∈ before ++ x :: rest).
  { intros y. by rewrite <- Heq, order_by_desc_elem. }
  rewrite Heq in Hs. apply StronglySorted_app_1_r, StronglySorted_inv in Hs as [_ Hall].
  rewrite Forall_forall in Hall.
  split_and!; [apply Hin, elem_of_app; right; by left|done|].
  intros y [Hy|[->|Hy]%elem_of_cons]%Hin%elem_of_app Hp.
  - rewrite Hb in Hp; done.
  - done.
  - by apply Hall.
Qed.

Lemma order_by_desc_sorted rows :
  StronglySorted (later_first key) (order_by_desc key rows).
Proof. apply (StronglySorted_merge_sort (later_first key)). Qed.

End RecentFacts.

Lemma find_fmap {A B : Type} (f : A → B) (p : B → bool) (l : list A) :
  List.find p (f <$> l) = f <$> List.find (λ x, p (f x)) l.
Proof.
  induction l as [|x l IH]; [done|]. rewrite fmap_cons. simpl.
  by destruct (p (f x)).
Qed.

(** Each tuple of an owner pairs a dataset row with a most recent key row
    of the same dataset id. *)
Lemma owner_tuples_recent s workflowId o tuple :
  tuple ∈ owner_tuples s workflowId o →
  ∃ d k,
    d ∈ owner_datasets s workflowId o ∧ k ∈ owner_keys s workflowId o
    ∧ k_dataset_id k = d_dataset_id d
    ∧ ciphertext_gcs tuple = d_gcs_path d
    ∧ wrapped_dek_gcs tuple = k_gcs_path k
    ∧ ∀ k', k' ∈ owner_keys s workflowId o →
            k_dataset_id k' = d_dataset_id d →
            k_created_at k' ≤ k_created_at k.
Proof.
  unfold owner_tuples. rewrite list_elem_of_omap.
  intros (d' & Hd' & Htuple).
  unfold bigqueryService.select_datasets in Hd'.
  apply list_elem_of_fmap in Hd' as (d & -> & Hd).
  rewrite (order_by_desc_elem d_created_at) in Hd.
  unfold bigqueryService.select_keys in Htuple.
  rewrite find_fmap in Htuple. cbn [k_dataset_id d_dataset_id d_gcs_path] in Htuple.
  fold (owner_keys s workflowId o) in Htuple.
  destruct (List.find _ _) as [k|] eqn:Hfind; simplify_eq/=.
  apply find_most_recent in Hfind as (Hk & Hid%bool_decide_eq_true & Hrecent).
  exists d, k. split_and!; [done..|].
  intros k' Hk' Hid'. apply Hrecent; [done|]. by apply bool_decide_eq_true.
Qed.

(** When an owner has recorded several keys for one dataset id, a run sends
    the executor one that was recorded last: each tuple of the request pairs
    a dataset row of its owner with a key row of that owner for the same
    dataset id than which none is more recent. *)
Theorem dispatched_keys_most_recent (cfg : Config) (env : Env)
    (workflow_id : string) (creator : option string)
    (collaborators : option QueryValue) (s : Store) (url : string)
    (payload : ExecuteRequest) (t : N) :
  (url, payload, t)
  ∈ executes (events (workflowController.runWorkflow cfg env workflow_id creator
                        collaborators s)) →
  Forall
    (λ tuple,
       ∃ d k,
         d ∈ owner_datasets s workflow_id (owner tuple)
         ∧ k ∈ owner_keys s workflow_id (owner tuple)
         ∧ k_dataset_id k = d_dataset_id d
         ∧ ciphertext_gcs tuple = d_gcs_path d
         ∧ wrapped_dek_gcs tuple = k_gcs_path k
         ∧ ∀ k', k' ∈ owner_keys s workflow_id (owner tuple) →
                 k_dataset_id k' = d_dataset_id d →
                 k_created_at k' ≤ k_created_at k)
    (datasets payload).
Proof.
  intros Hdispatch.
  apply runWorkflow_dispatch in Hdispatch as (workflow & _ & -> & _).
  cbn [datasets execute_request]. unfold assemble.
  apply Forall_concat_fmap. intros o. apply Forall_forall. intros tuple Htuple.
  assert (owner tuple = o) as ->.
  { apply owner_tuples_sound in Htuple as (? & ? & _ & _ & _ & ->). done. }
  by apply owner_tuples_recent.
Qed.

Lemma dispatched_keys_most_recent_witness :
  ("http://localhost:8443/execute", Rekey.payload, 600000%N)
  ∈ executes (events (workflowController.runWorkflow config Scenario.calm "W"
                        (Some "A") (Some (QString "B")) Rekey.rekeyed))
  ∧ Forall
      (λ tuple,
         ∃ d k,
           d ∈ owner_datasets Rekey.rekeyed "W" (owner tuple)
           ∧ k ∈ owner_keys Rekey.rekeyed "W" (owner tuple)
           ∧ k_dataset_id k = d_dataset_id d
           ∧ ciphertext_gcs tuple = d_gcs_path d
           ∧ wrapped_dek_gcs tuple = k_gcs_path k
           ∧ ∀ k', k' ∈ owner_keys Rekey.rekeyed "W" (owner tuple) →
                   k_dataset_id k' = d_dataset_id d →
                   k_created_at k' ≤ k_created_at k)
      (datasets Rekey.payload).
Proof.
  assert (H : ("http://localhost:8443/execute", Rekey.payload, 600000%N)
              ∈ executes (events (workflowController.runWorkflow config Scenario.calm
                                    "W" (Some "A") (Some (QString "B"))
                                    Rekey.rekeyed)))
    by (vm_compute; left).
  split; [exact H|].
  exact (dispatched_keys_most_recent config Scenario.calm "W" (Some "A")
           (Some (QString "B")) Rekey.rekeyed _ _ _ H).
Defined.

(** ** Reading results *)

Section ResultFacts.
Context (env : Env).

Lemma getResults_run workflowId s :
  bigqueryService.getResults env workflowId s
  = MkRun
      match store_fault env (BqGetResults workflowId) with
      | Some e => Throw ("Failed to get results: " +:+ e)
      | None => Ok (bigqueryService.select_results workflowId s)
      end
      s [EvStore (BqGetResults workflowId)].
Proof.
  unfold bigqueryService.getResults, try_catch, bigqueryService.bq_read, throw.
  by destruct (store_fault env _) as [e|].
Qed.

Lemma settle_all_signed rows : ∀ s,
  settle_all
    ((λ result,
        downloadUrl <- storageService.generateDownloadUrl env (r_result_path result) ;;
        ret {| u_result_path := r_result_path result;
               u_executed_notebook_path := r_executed_notebook_path result;
               u_created_at := r_created_at result;
               download_url := downloadUrl |})
     <$> rows) s
  = (signed_result env <$> rows, s, concat (sign_events <$> rows)).
Proof.
  induction rows as [|row rows IH]; intros s; [done|].
  rewrite !fmap_cons. cbn [settle_all concat].
  unfold bind at 1, storageService.generateDownloadUrl at 1, signed_result at 1,
    sign_events at 1, ret at 1.
  destruct (storageService.parseGcsUri (r_result_path row))
    as [[bucket objectPath]|e]; [|by rewrite IH].
  destruct (signed_read_url env bucket objectPath); cbn [after]; by rewrite IH.
Qed.

Lemma rejections_nil {A : Type} (os : list (Outcome A)) :
  rejections os = [] ↔ Ok <$> fulfilled os = os.
Proof.
  induction os as [|[a|e] os IH]; [done| |].
  - change (rejections (Ok a :: os)) with (rejections os).
    change (fulfilled (Ok a :: os)) with (a :: fulfilled os).
    rewrite IH, fmap_cons. split; [by intros ->|]. by intros [= ->].
  - change (fulfilled (Throw e :: os)) with (fulfilled os).
    split; [done|]. by destruct (fulfilled os).
Qed.

(** Every path through [getWorkflowResults]. *)
Lemma getWorkflowResults_run workflow_id s :
  workflowController.getWorkflowResults env workflow_id s
  = let op := BqGetResults workflow_id in
    let failure e := {| status_code := 500;
                        json := JError "Failed to get workflow results" (Some e) |} in
    match store_fault env op with
    | Some e => MkRun (Ok (failure ("Failed to get results: " +:+ e))) s [EvStore op]
    | None =>
        let rows := bigqueryService.select_results workflow_id s in
        match rows with
        | [] =>
            MkRun (Ok {| status_code := 404;
                         json := JError "No results found for this workflow" None |})
              s [EvStore op]
        | _ :: _ =>
            MkRun
              (Ok match rejections (signed_result env <$> rows) with
                  | [] => {| status_code := 200;
                             json := JResults workflow_id
                                       (fulfilled (signed_result env <$> rows)) |}
                  | e :: es => failure (first_rejection env (e :: es))
                  end)
              s (EvStore op :: concat (sign_events <$> rows))
        end
    end.
Proof.
  unfold workflowController.getWorkflowResults, try_catch. unfold bind at 1.
  rewrite getResults_run. cbv zeta.
  destruct (store_fault env _); [done|].
  destruct (bigqueryService.select_results workflow_id s) as [|row rows] eqn:Hrows;
    [done|].
  rewrite bool_decide_eq_false_2 by done.
  unfold bind at 1, promise_all. rewrite settle_all_signed.
  destruct (rejections _); unfold respond, ret; cbn [after app];
    by rewrite ?app_nil_r.
Qed.

Lemma filter_nil_Forall {A : Type} (P : A → Prop) `{∀ x, Decision (P x)}
    (l : list A) :
  filter P l = [] ↔ Forall (λ x, ¬ P x) l.
Proof.
  induction l as [|x l IH]; [done|].
  rewrite filter_cons. case_decide.
  - split; [done|]. by intros [? _]%Forall_cons.
  - rewrite IH, Forall_cons. split; [by split|by intros [_ ?]].
Qed.

End ResultFacts.

(** When the store answers the query, [GET /workflows/:id/result] answers
    404 exactly when the results table has no row of the workflow. *)
Theorem results_not_found (env : Env) (workflow_id : string) (s : Store) :
  store_fault env (BqGetResults workflow_id) = None →
  outcome (workflowController.getWorkflowResults env workflow_id s)
  = Ok {| status_code := 404;
          json := JError "No results found for this workflow" None |}
  ↔ Forall (λ row, r_workflow_id row ≠ workflow_id) (results s).
Proof.
  intros Hread. rewrite getWorkflowResults_run. cbv zeta. rewrite Hread.
  assert (bigqueryService.select_results workflow_id s = []
          ↔ Forall (λ row, r_workflow_id row ≠ workflow_id) (results s)) as <-.
  { unfold bigqueryService.select_results.
    rewrite (order_by_desc_nil r_created_at). apply filter_nil_Forall. }
  destruct (bigqueryService.select_results workflow_id s); cbn [outcome];
    [done|].
  split; [|done]. by destruct (rejections _).
Qed.

Lemma results_not_found_witness :
  outcome (workflowController.getWorkflowResults Scenario.calm "W" Scenario.prepared)
  = Ok {| status_code := 404;
          json := JError "No results found for this workflow" None |}.
Proof.
  apply (results_not_found Scenario.calm "W" Scenario.prepared eq_refl).
  vm_compute. constructor.
Defined.

(** When the store answers the query, the workflow has result rows, and
    the path of each of them parses and is signed, the answer is 200 with
    one entry per result row of the workflow.  The entries follow the rows
    in an order of descending creation time (rows created at the same
    instant come in no particular order), and each entry holds its row's
    two paths and creation time, and the URL signed for the bucket and
    object of its result path. *)
Theorem results_listed (env : Env) (workflow_id : string) (s : Store) :
  let stored := filter (λ row, r_workflow_id row = workflow_id) (results s) in
  store_fault env (BqGetResults workflow_id) = None →
  stored ≠ [] →
  Forall (λ row, ∃ bucket objectPath url,
            storageService.parseGcsUri (r_result_path row) = Ok (bucket, objectPath)
            ∧ signed_read_url env bucket objectPath = Ok url) stored →
  ∃ rows urls,
    rows ≡ₚ stored
    ∧ StronglySorted (λ row row', r_created_at row' ≤ r_created_at row) rows
    ∧ outcome (workflowController.getWorkflowResults env workflow_id s)
      = Ok {| status_code := 200; json := JResults workflow_id urls |}
    ∧ Forall2
        (λ row u,
           u_result_path u = r_result_path row
           ∧ u_executed_notebook_path u = r_executed_notebook_path row
           ∧ u_created_at u = r_created_at row
           ∧ ∃ bucket objectPath,
               storageService.parseGcsUri (r_result_path row)
               = Ok (bucket, objectPath)
               ∧ signed_read_url env bucket objectPath = Ok (download_url u))
        rows urls.
Proof.
  intros stored Hread Hstored Hsigned.
  set (rows := bigqueryService.select_results workflow_id s).
  assert (Hperm : rows ≡ₚ stored) by apply order_by_desc_perm.
  assert (Hrows : rows ≠ []).
  { intros Hnil. apply Hstored, (order_by_desc_nil r_created_at), Hnil. }
  assert (Hsigned' : Forall (λ row, ∃ bucket objectPath url,
            storageService.parseGcsUri (r_result_path row) = Ok (bucket, objectPath)
            ∧ signed_read_url env bucket objectPath = Ok url) rows).
  { rewrite Forall_forall in Hsigned. apply Forall_forall.
    intros row Hrow. apply Hsigned. by rewrite <- Hperm. }
  assert (∃ urls, signed_result env <$> rows = Ok <$> urls
                  ∧ Forall2
                      (λ row u,
                         u_result_path u = r_result_path row
                         ∧ u_executed_notebook_path u = r_executed_notebook_path row
                         ∧ u_created_at u = r_created_at row
                         ∧ ∃ bucket objectPath,
                             storageService.parseGcsUri (r_result_path row)
                             = Ok (bucket, objectPath)
                             ∧ signed_read_url env bucket objectPath
                               = Ok (download_url u))
                      rows urls) as (urls & Hurls & Hall).
  { clear Hrows Hperm.
    induction Hsigned' as [|row rows' (b & o & url & Hp & Hu) _ IH].
    - by exists [].
    - destruct IH as (urls & Hurls & Hall).
      eexists (_ :: urls). rewrite !fmap_cons, Hurls. unfold signed_result.
      rewrite Hp, Hu. split; [done|]. constructor; [|done]. cbn. eauto 10. }
  exists rows, urls. split; [done|].
  split; [apply (order_by_desc_sorted r_created_at)|]. split; [|done].
  rewrite getWorkflowResults_run. cbv zeta. rewrite Hread. fold rows.
  destruct rows as [|row0 rows0] eqn:Heq; [done|]. rewrite <- Heq in *. clear Heq.
  cbn [outcome]. rewrite Hurls.
  assert (rejections (Ok <$> urls) = [] ∧ fulfilled (Ok <$> urls) = urls) as [-> ->];
    [|done].
  clear. induction urls as [|u urls [IH1 IH2]]; [done|].
  rewrite fmap_cons. split; [done|].
  change (fulfilled (Ok u :: (Ok <$> urls))) with (u :: fulfilled (Ok <$> urls)).
  by rewrite IH2.
Qed.

Lemma results_listed_witness :
  ∃ urls,
    outcome (workflowController.getWorkflowResults Scenario.calm "W" Rerun.twice)
    = Ok {| status_code := 200; json := JResults "W" urls |}
    ∧ u_created_at <$> urls = [20; 20; 10; 10].
Proof.
  destruct (results_listed Scenario.calm "W" Rerun.twice eq_refl)
    as (rows & urls & _ & _ & Hout & _).
  - by vm_compute.
  - vm_compute. repeat constructor; eauto.
  - exists urls. split; [exact Hout|].
    vm_compute in Hout. by injection Hout as <-.
Defined.

Lemma rejections_elem {A : Type} (os : list (Outcome A)) e :
  Throw e ∈ os → rejections os ≠ [].
Proof.
  induction os as [|[a|e'] os IH]; [by intros ?%elem_of_nil| |done].
  intros [?|?]%elem_of_cons; [done|]. by apply IH.
Qed.

(** A result row whose path is not a [gs://] URI makes the results of its
    workflow unreadable through the routes: whatever requests with
    identifier-like party names follow, as long as the store answers the
    query, [GET /workflows/:id/result] answers 500 for that workflow,
    whatever its other rows are. *)
Theorem results_poisoned (cfg : Config) (env : Env) (workflow_id : string)
    (s : Store) (row : ExecutionResult) (script : list (Env * Request)) :
  safe_script script = true →
  row ∈ results s →
  r_workflow_id row = workflow_id →
  String.prefix "gs://" (r_result_path row) = false →
  store_fault env (BqGetResults workflow_id) = None →
  ∃ e,
    outcome (workflowController.getWorkflowResults env workflow_id
               (serve cfg script s).2)
    = Ok {| status_code := 500;
            json := JError "Failed to get workflow results" (Some e) |}.
Proof.
  intros _ Hrow Hid Hprefix Hread.
  destruct (serve_keeps cfg script s) as (_ & _ & _ & _ & new & Hresults).
  rewrite getWorkflowResults_run. cbv zeta. rewrite Hread.
  assert (row ∈ bigqueryService.select_results workflow_id (serve cfg script s).2)
    as Hin.
  { unfold bigqueryService.select_results.
    rewrite (order_by_desc_elem r_created_at), list_elem_of_filter, Hresults.
    split; [done|]. apply elem_of_app. by left. }
  destruct (bigqueryService.select_results _ _) as [|row0 rows0] eqn:Heq;
    [by apply elem_of_nil in Hin|].
  rewrite <- Heq in *. cbn [outcome].
  assert (Throw "GCS URI must start with gs://"
          ∈ signed_result env <$> bigqueryService.select_results workflow_id
                                    (serve cfg script s).2) as Hthrow.
  { apply list_elem_of_fmap. exists row. split; [|done].
    unfold signed_result, storageService.parseGcsUri. by rewrite Hprefix. }
  apply (rejections_elem (A := ResultWithUrl)) in Hthrow.
  destruct (rejections _) as [|e es]; [done|]. eauto.
Qed.

Lemma results_poisoned_witness :
  ∃ e,
    outcome (workflowController.getWorkflowResults Scenario.calm "W"
               (serve config Lifecycle.script Poison.poisoned).2)
    = Ok {| status_code := 500;
            json := JError "Failed to get workflow results" (Some e) |}.
Proof.
  refine (results_poisoned config Scenario.calm "W" Poison.poisoned Poison.bad_row
            Lifecycle.script eq_refl _ eq_refl eq_refl eq_refl).
  vm_compute. right. left.
Defined.

Section RunResultFacts.
Context (cfg : Config) (env : Env).

(** Once the executor has answered and the insert was accepted, the result
    rows are in the table, whatever becomes of the status writes. *)
Lemma run_results_stored workflow_id creator collaborators s url payload t info :
  let r := workflowController.runWorkflow cfg env workflow_id creator collaborators s in
  let rows := result_rows env workflow_id info in
  (url, payload, t) ∈ executes (events r) →
  executor env payload = Ok info →
  (rows ≠ [] → store_fault env (BqInsertResults rows) = None) →
  results (store_after r) = results s ++ rows.
Proof.
  intros r rows Hdispatch Hexec Hinsert. subst r.
  apply runWorkflow_dispatch in Hdispatch as (workflow & _ & _ & _ & _ & _ & ->).
  cbn [store_after]. rewrite callExecutor_run, Hexec. cbv zeta. fold rows.
  destruct rows as [|row rows'] eqn:Hrows.
  - unfold executor_failed.
    repeat (destruct (store_fault env _); cbn [store_after results]);
      cbn; by rewrite app_nil_r.
  - rewrite Hinsert by done. unfold executor_failed.
    by repeat (destruct (store_fault env _); cbn [store_after results]).
Qed.

End RunResultFacts.

Lemma signed_result_path env row u :
  signed_result env row = Ok u → u_result_path u = r_result_path row.
Proof.
  unfold signed_result.
  destruct (storageService.parseGcsUri _) as [[b o]|]; [|done].
  destruct (signed_read_url env b o); [|done]. by intros [= <-].
Qed.

(** After a run whose executor call succeeded and whose results were
    stored, whenever the results of the workflow are listed, the paths
    listed are the ones the table already had for the workflow together
    with the ones the executor reported, in some order. *)
Theorem run_then_results (cfg : Config) (env env' : Env) (workflow_id : string)
    (creator : option string) (collaborators : option QueryValue) (s : Store)
    (url : string) (payload : ExecuteRequest) (t : N) (info : ExecuteResponse)
    (urls : list ResultWithUrl) :
  let r := workflowController.runWorkflow cfg env workflow_id creator collaborators s in
  let rows := result_rows env workflow_id info in
  (url, payload, t) ∈ executes (events r) →
  executor env payload = Ok info →
  (rows ≠ [] → store_fault env (BqInsertResults rows) = None) →
  outcome (workflowController.getWorkflowResults env' workflow_id (store_after r))
  = Ok {| status_code := 200; json := JResults workflow_id urls |} →
  u_result_path <$> urls
  ≡ₚ (r_result_path <$> filter (λ row, r_workflow_id row = workflow_id) (results s))
     ++ default [] (result_paths info).
Proof.
  intros r rows Hdispatch Hexec Hinsert Hlisted.
  pose proof (run_results_stored cfg env workflow_id creator collaborators s
                url payload t info Hdispatch Hexec Hinsert) as Hstored.
  fold r rows in Hstored.
  rewrite getWorkflowResults_run in Hlisted. cbv zeta in Hlisted.
  destruct (store_fault env' _); [done|].
  destruct (bigqueryService.select_results workflow_id (store_after r))
    as [|row0 rows0] eqn:Hsel; [done|].
  rewrite <- Hsel in Hlisted. cbn [outcome] in Hlisted.
  destruct (rejections _) eqn:Hrej; [|done].
  injection Hlisted as <-.
  apply rejections_nil in Hrej.
  assert (u_result_path
            <$> fulfilled (signed_result env'
                             <$> bigqueryService.select_results workflow_id
                                   (store_after r))
          = r_result_path <$> bigqueryService.select_results workflow_id
                                (store_after r)) as ->.
  { revert Hrej. generalize (bigqueryService.select_results workflow_id (store_after r)).
    intros l. generalize (fulfilled (signed_result env' <$> l)). clear.
    intros us. revert us. induction l as [|row l IH]; intros [|u us]; try done.
    rewrite !fmap_cons. intros [= Hu Hus]. f_equal; [|by apply IH].
    symmetry in Hu. by apply signed_result_path in Hu. }
  unfold bigqueryService.select_results.
  rewrite (order_by_desc_perm r_created_at), Hstored, filter_app, fmap_app.
  f_equiv.
  assert (filter (λ row, r_workflow_id row = workflow_id) rows = rows) as ->.
  { pose proof (result_rows_tagged env workflow_id info) as Htagged.
    fold rows in Htagged. clear -Htagged.
    induction Htagged as [|row rows' [Hid _] _ IH]; [done|].
    by rewrite filter_cons_True, IH. }
  unfold rows, result_rows. rewrite fmap_imap.
  rewrite (imap_ext _ (const id)) by done. rewrite imap_const. by rewrite list_fmap_id.
Qed.

Lemma run_then_results_witness :
  ∃ urls,
    outcome (workflowController.getWorkflowResults Scenario.calm "W"
               (store_after (workflowController.runWorkflow config Scenario.calm
                               "W" (Some "A") (Some (QString "B"))
                               Scenario.prepared)))
    = Ok {| status_code := 200; json := JResults "W" urls |}
    ∧ u_result_path <$> urls
      ≡ₚ ["gs://b/results/W/result_0.json"; "gs://b/results/W/result_1.json"].
Proof.
  assert (H : ("http://localhost:8443/execute", Scenario.payload, 600000%N)
              ∈ executes (events (workflowController.runWorkflow config Scenario.calm
                                    "W" (Some "A") (Some (QString "B"))
                                    Scenario.prepared)))
    by (vm_compute; left).
  eexists. split; [vm_compute; reflexivity|].
  refine (run_then_results config Scenario.calm Scenario.calm "W" (Some "A")
            (Some (QString "B")) Scenario.prepared _ _ _ Scenario.answer _
            H eq_refl (λ _, eq_refl) _).
  vm_compute. reflexivity.
Defined.

(** ** The routes that read *)

Section QuietFacts.
Context (cfg : Config) (env : Env).

Lemma quiet_ret {A : Type} (a : A) : quiet (ret a).
Proof. done. Qed.

Lemma quiet_throw {A : Type} e : quiet (@throw A e).
Proof. done. Qed.

Lemma quiet_respond code body : quiet (respond code body).
Proof. done. Qed.

Lemma quiet_bind {A B : Type} (m : Async A) (k : A → Async B) :
  quiet m → (∀ a, quiet (k a)) → quiet (bind m k).
Proof.
  intros Hm Hk s. unfold bind. destruct (Hm s) as [Hw He].
  destruct (m s) as [[a|e] s' evs]; [|done]. cbn [events] in *.
  destruct (Hk a s') as [Hw' He']. destruct (k a s') as [o s'' evs'].
  cbn [after events] in *. by rewrite writes_app, executes_app, Hw, He, Hw', He'.
Qed.

Lemma quiet_try_catch {A : Type} (m : Async A) (h : string → Async A) :
  quiet m → (∀ e, quiet (h e)) → quiet (try_catch m h).
Proof.
  intros Hm Hh s. unfold try_catch. destruct (Hm s) as [Hw He].
  destruct (m s) as [[a|e] s' evs]; [done|]. cbn [events] in *.
  destruct (Hh e s') as [Hw' He']. destruct (h e s') as [o s'' evs'].
  cbn [after events] in *. by rewrite writes_app, executes_app, Hw, He, Hw', He'.
Qed.

Lemma quiet_bq_read {A : Type} op (f : Store → A) :
  is_write op = false → quiet (bigqueryService.bq_read env op f).
Proof.
  intros Hop s. unfold bigqueryService.bq_read.
  destruct (store_fault env op); cbn [events]; by rewrite writes_store, Hop.
Qed.

Lemma quiet_settle_all {A : Type} (ms : list (Async A)) s :
  Forall quiet ms →
  writes (settle_all ms s).2 = [] ∧ executes (settle_all ms s).2 = [].
Proof.
  intros Hms. revert s. induction Hms as [|m ms Hm _ IH]; intros s; [done|].
  cbn [settle_all]. destruct (Hm s) as [Hw He]. destruct (m s) as [o s' evs].
  destruct (IH s') as [Hw' He']. destruct (settle_all ms s') as [[os s''] evs'].
  cbn [snd events] in *. by rewrite writes_app, executes_app, Hw, He, Hw', He'.
Qed.

Lemma quiet_promise_all {A : Type} (ms : list (Async A)) :
  Forall quiet ms → quiet (promise_all env ms).
Proof.
  intros Hms s. unfold promise_all.
  pose proof (quiet_settle_all ms s Hms) as H.
  by destruct (settle_all ms s) as [[os s'] evs].
Qed.

Lemma quiet_generateDownloadUrl gcsPath :
  quiet (storageService.generateDownloadUrl env gcsPath).
Proof.
  intros s. unfold storageService.generateDownloadUrl.
  by destruct (storageService.parseGcsUri gcsPath) as [[bucket objectPath]|e].
Qed.

Ltac quiet_step :=
  first
    [ apply quiet_respond | apply quiet_ret | apply quiet_throw
    | apply quiet_bq_read; reflexivity
    | apply quiet_generateDownloadUrl
    | apply quiet_bind; [|intros]
    | apply quiet_try_catch; [|intros]
    | match goal with
      | |- quiet (if ?b then _ else _) => destruct b
      | |- quiet (match ?x with _ => _ end) => destruct x
      end
    | progress cbv zeta ].

Lemma read_quiet req : is_read req = true → quiet (handle cfg env req).
Proof.
  destruct req; try done; intros _; cbn [handle];
    unfold workflowController.getWorkflow, workflowController.getWorkflowResults,
      workflowController.getWorkflowLogs, workflowController.getAllWorkflows,
      workflowController.getDashboardStats, storageController.generateDownloadUrl,
      storageController.getExecutorPubkey, bigqueryService.getWorkflow,
      bigqueryService.getResults, bigqueryService.getAllWorkflows,
      bigqueryService.getDashboardStats;
    repeat quiet_step; try done.
  apply quiet_promise_all, Forall_fmap, Forall_forall. intros result _.
  cbn. repeat quiet_step.
Qed.

Lemma read_store req s :
  is_read req = true → store_after (handle cfg env req s) = s.
Proof.
  destruct req; try done; intros _; cbn [handle].
  - apply getWorkflow_handler_store.
  - apply getWorkflowResults_store.
  - apply getWorkflowLogs_store.
  - apply getAllWorkflows_store.
  - apply getDashboardStats_store.
  - apply generateDownloadUrl_store.
  - apply getExecutorPubkey_store.
Qed.

End QuietFacts.

(** A [GET] request whose party names are identifier-like changes no
    table, issues no insert or update, and does not start an execution,
    whatever the outside world answers. *)
Theorem reads_change_nothing (cfg : Config) (env : Env) (req : Request) (s : Store) :
  is_read req = true →
  safe_request req = true →
  let r := handle cfg env req s in
  store_after r = s ∧ writes (events r) = [] ∧ executes (events r) = [].
Proof.
  intros Hread _. split; [by apply read_store|]. by apply read_quiet.
Qed.

Lemma reads_change_nothing_witness :
  safe_request (GetDashboardStats (Some "A")) = true
  ∧ store_after (handle config Scenario.calm (GetDashboardStats (Some "A"))
                   Scenario.prepared) = Scenario.prepared.
Proof.
  split; [reflexivity|].
  exact (proj1 (reads_change_nothing config Scenario.calm (GetDashboardStats (Some "A"))
                  Scenario.prepared eq_refl eq_refl)).
Defined.

(** ** Listings *)

Section ListingFacts.
Context (env : Env).


Lemma getDashboardStats_run user_id s :
  let u := as_string user_id in
  falsy user_id = false →
  Forall (λ op, store_fault env op = None)
    [BqCountWorkflows u; BqCountActiveWorkflows u; BqCountCompletedWorkflows u;
     BqCountDatasets u; BqCountResults; BqRecentWorkflows u] →
  outcome (workflowController.getDashboardStats env user_id s)
  = Ok {| status_code := 200;
          json := JStats {|
            total_workflows := length (table (workflows s) u);
            active_workflows :=
              length (filter (λ row, w_status row
                                     ∈ [PENDING_APPROVAL; APPROVED; RUNNING])
                        (table (workflows s) u));
            completed_workflows :=
              length (filter (λ row, w_status row = COMPLETED)
                        (table (workflows s) u));
            total_datasets := length (table (dataset_rows s) u);
            total_results := length (results s);
            recent_workflows :=
              take 5 (order_by_desc w_created_at (table (workflows s) u)) |} |}.
Proof.
  intros u Huser Hstore.
  repeat (apply Forall_cons in Hstore as [? Hstore]). fold u.
  unfold workflowController.getDashboardStats, bigqueryService.getDashboardStats,
    try_catch, bind, bigqueryService.bq_read, respond, ret, throw.
  rewrite Huser. fold u. by repeat match goal with H : store_fault _ _ = None |- _ =>
    rewrite H; clear H end.
Qed.

End ListingFacts.

Lemma statuses_partition (rows : list Workflow) :
  Forall (λ row, w_status row ∈ [PENDING_APPROVAL; RUNNING; COMPLETED; FAILED]) rows →
  length rows
  = length (filter (λ row, w_status row ∈ [PENDING_APPROVAL; APPROVED; RUNNING]) rows)
    + length (filter (λ row, w_status row = COMPLETED) rows)
    + length (filter (λ row, w_status row = FAILED) rows).
Proof.
  induction 1 as [|row rows Hrow _ IH]; [done|].
  rewrite !filter_cons.
  repeat (apply elem_of_cons in Hrow as [->|Hrow]);
    [..|by apply elem_of_nil in Hrow];
    repeat case_decide; try done; cbn [length]; try lia;
    match goal with
    | H : ¬ _ ∈ _ |- _ => destruct H; by repeat constructor
    | H : _ ∈ _ |- _ =>
        repeat (apply elem_of_cons in H as [?|H]); try done;
        by apply elem_of_nil in H
    end.
Qed.



(** For a user whose id is identifier-like, in a store reached from empty
    tables through requests with identifier-like party names, and when the
    store answers the six queries: the dashboard counts the rows of the
    user's own workflow table, each as active (PENDING_APPROVAL or RUNNING),
    completed or failed, and the rows of the user's own dataset table; its
    result count is the number of rows of the results table, whoever the
    workflows belong to; and its recent workflows are the first five rows of
    the user's workflow table in an order of descending creation time. *)
Theorem dashboard_counts (cfg : Config) (script : list (Env * Request)) (env : Env)
    (user_id : option string) :
  let s := (serve cfg script empty_store).2 in
  let u := as_string user_id in
  safe_script script = true →
  safe_request (GetDashboardStats user_id) = true →
  falsy user_id = false →
  Forall (λ op, store_fault env op = None)
    [BqCountWorkflows u; BqCountActiveWorkflows u; BqCountCompletedWorkflows u;
     BqCountDatasets u; BqCountResults; BqRecentWorkflows u] →
  ∃ stats sorted,
    outcome (workflowController.getDashboardStats env user_id s)
    = Ok {| status_code := 200; json := JStats stats |}
    ∧ total_workflows stats = length (table (workflows s) u)
    ∧ total_workflows stats
      = active_workflows stats + completed_workflows stats
        + length (filter (λ row, w_status row = FAILED) (table (workflows s) u))
    ∧ active_workflows stats
      = length (filter (λ row, w_status row ∈ [PENDING_APPROVAL; RUNNING])
                  (table (workflows s) u))
    ∧ completed_workflows stats
      = length (filter (λ row, w_status row = COMPLETED) (table (workflows s) u))
    ∧ total_datasets stats = length (table (dataset_rows s) u)
    ∧ total_results stats = length (results s)
    ∧ sorted ≡ₚ table (workflows s) u
    ∧ StronglySorted (λ row row', w_created_at row' ≤ w_created_at row) sorted
    ∧ recent_workflows stats = take 5 sorted.
Proof.
  intros s u _ _ Huser Hstore.
  rewrite (getDashboardStats_run env user_id s Huser Hstore). fold u.
  eexists. exists (order_by_desc w_created_at (table (workflows s) u)).
  split; [done|].
  cbn [total_workflows active_workflows completed_workflows total_datasets
       total_results recent_workflows].
  destruct (serve_consistent cfg script empty_store (consistent_empty cfg))
    as (Cw & _). fold s in Cw.
  assert (Forall (λ row, w_status row
                         ∈ [PENDING_APPROVAL; RUNNING; COMPLETED; FAILED])
            (table (workflows s) u)) as Hstatuses.
  { apply Forall_forall. intros row Hrow. by destruct (Cw u row Hrow) as (_ & _ & ?). }
  split_and!; try done.
  - by apply statuses_partition.
  - f_equal. induction Hstatuses as [|row rows Hrow _ IH]; [done|].
    rewrite !filter_cons, IH.
    repeat (apply elem_of_cons in Hrow as [->|Hrow]);
      [..|by apply elem_of_nil in Hrow];
      repeat case_decide; try done;
      match goal with
      | H : ¬ _ ∈ _ |- _ => destruct H; by repeat constructor
      | H : _ ∈ _ |- _ =>
          repeat (apply elem_of_cons in H as [?|H]); try done;
          by apply elem_of_nil in H
      end.
  - apply order_by_desc_perm.
  - apply (order_by_desc_sorted w_created_at).
Qed.

Lemma dashboard_counts_witness :
  ∃ stats,
    outcome (workflowController.getDashboardStats Scenario.calm (Some "C")
               (serve config Lifecycle.script empty_store).2)
    = Ok {| status_code := 200; json := JStats stats |}
    ∧ total_workflows stats = 1
    ∧ active_workflows stats = 1
    ∧ completed_workflows stats = 0
    ∧ total_datasets stats = 0
    ∧ total_results stats = 2
    ∧ w_workflow_id <$> recent_workflows stats = ["V"].
Proof.
  assert (Hstore : Forall (λ op, store_fault Scenario.calm op = None)
            [BqCountWorkflows "C"; BqCountActiveWorkflows "C";
             BqCountCompletedWorkflows "C"; BqCountDatasets "C"; BqCountResults;
             BqRecentWorkflows "C"]) by (by repeat constructor).
  destruct (dashboard_counts config Lifecycle.script Scenario.calm (Some "C")
              eq_refl eq_refl eq_refl Hstore)
    as (stats & sorted & Hout & _).
  exists stats. split; [exact Hout|].
  vm_compute in Hout. by injection Hout as <-.
Defined.

(** ** Uploads *)

Lemma insertMetadata_events env file_type workflow_id dataset_id o filename
    gcsPath s :
  let evs := events (storageController.insertMetadata env file_type workflow_id
                       dataset_id o filename gcsPath s) in
  evs = [] ∨ evs = [EvStore (BqInsertDataset o dataset_id)]
  ∨ evs = [EvStore (BqInsertKey o dataset_id)].
Proof.
  unfold storageController.insertMetadata, bigqueryService.insertDataset,
    bigqueryService.insertKey, try_catch, bigqueryService.bq_write, throw, ret.
  repeat case_bool_decide; cbn [events]; [| |by left];
    destruct (store_fault env _); cbn [events after app]; auto.
Qed.

(** Every path through the direct upload. *)
Lemma uploadFile_run cfg env file workflow_id dataset_id file_type o s :
  storageController.uploadFile cfg env file workflow_id dataset_id file_type o s
  = match file with
    | None =>
        MkRun (Ok {| status_code := 400; json := JError "No file uploaded" None |})
          s []
    | Some f =>
        if falsy workflow_id || falsy dataset_id || falsy file_type || falsy o
        then
          MkRun
            (Ok {| status_code := 400;
                   json := JError "Missing required fields: workflow_id, dataset_id, file_type, owner" None |})
            s []
        else
          let gcsPath :=
            storageService.getGcsPath cfg
              (as_string file_type +:+ "s/" +:+ as_string o +:+ "/"
                 +:+ as_string workflow_id +:+ "/" +:+ as_string dataset_id
                 +:+ "/" +:+ originalname f) in
          match upload_fault env gcsPath with
          | Some e =>
              MkRun (Ok {| status_code := 500;
                           json := JError "Failed to upload file" (Some e) |})
                s [EvUploadFile (path f) gcsPath]
          | None =>
              let m := storageController.insertMetadata env (as_string file_type)
                         (as_string workflow_id) (as_string dataset_id)
                         (as_string o) (originalname f) gcsPath s in
              MkRun
                (Ok match outcome m with
                    | Ok _ =>
                        {| status_code := 200;
                           json := JUploaded gcsPath (originalname f) (size f) |}
                    | Throw e =>
                        {| status_code := 500;
                           json := JError "Failed to upload file" (Some e) |}
                    end)
                (store_after m) (EvUploadFile (path f) gcsPath :: events m)
          end
    end.
Proof.
  unfold storageController.uploadFile, try_catch, bind, respond, ret,
    storageService.uploadFile.
  destruct file as [f|]; [|done].
  destruct (_ || _); [done|].
  cbv zeta. unfold storageService.getGcsPath at 1. rewrite prefix_gs.
  fold (storageService.getGcsPath cfg
          (as_string file_type +:+ "s/" +:+ as_string o +:+ "/"
             +:+ as_string workflow_id +:+ "/" +:+ as_string dataset_id +:+ "/"
             +:+ originalname f)).
  destruct (upload_fault env _); [done|]. cbn [after].
  destruct (storageController.insertMetadata _ _ _ _ _ _ _ _) as [[[]|e] s' evs];
    cbn [after app outcome store_after events]; by rewrite app_nil_r.
Qed.

(** The direct upload records metadata only for an object the bucket has
    accepted: whenever the handler called the store, it had first uploaded
    the file to [{file_type}s/{owner}/{workflow}/{dataset}/{name}] of the
    configured bucket, and that upload had succeeded. *)
Theorem upload_before_metadata (cfg : Config) (env : Env)
    (file : option UploadedFile) (workflow_id dataset_id file_type o : option string)
    (s : Store) (op : StoreOp) :
  let r := storageController.uploadFile cfg env file workflow_id dataset_id
             file_type o s in
  EvStore op ∈ events r →
  ∃ f rest,
    let gcsPath :=
      storageService.getGcsPath cfg
        (as_string file_type +:+ "s/" +:+ as_string o +:+ "/"
           +:+ as_string workflow_id +:+ "/" +:+ as_string dataset_id +:+ "/"
           +:+ originalname f) in
    file = Some f
    ∧ upload_fault env gcsPath = None
    ∧ events r = EvUploadFile (path f) gcsPath :: rest
    ∧ (op = BqInsertDataset (as_string o) (as_string dataset_id)
       ∨ op = BqInsertKey (as_string o) (as_string dataset_id)).
Proof.
  cbv zeta. rewrite uploadFile_run.
  destruct file as [f|]; [|by intros ?%elem_of_nil].
  destruct (_ || _); [by intros ?%elem_of_nil|]. cbv zeta.
  destruct (upload_fault env _) eqn:Hupload; cbn [events].
  { intros [[=]|?%elem_of_nil]%elem_of_cons. done. }
  intros [[=]|Hop]%elem_of_cons. exists f. eexists. split_and!; [done..|].
  pose proof (insertMetadata_events env (as_string file_type)
                (as_string workflow_id) (as_string dataset_id) (as_string o)
                (originalname f)
                (storageService.getGcsPath cfg
                   (as_string file_type +:+ "s/" +:+ as_string o +:+ "/"
                      +:+ as_string workflow_id +:+ "/" +:+ as_string dataset_id
                      +:+ "/" +:+ originalname f)) s) as Hevs.
  cbv zeta in Hevs. destruct Hevs as [Hevs|[Hevs|Hevs]]; rewrite Hevs in Hop.
  - by apply elem_of_nil in Hop.
  - apply list_elem_of_singleton in Hop. simplify_eq. by left.
  - apply list_elem_of_singleton in Hop. simplify_eq. by right.
Qed.

Lemma upload_before_metadata_witness :
  EvStore (BqInsertDataset "A" "d9")
  ∈ events (storageController.uploadFile config Scenario.calm
              (Some {| originalname := "rows.csv"; path := "uploads/file-1.csv";
                       size := 120 |})
              (Some "W") (Some "d9") (Some "dataset") (Some "A") Scenario.prepared)
  ∧ upload_fault Scenario.calm
      "gs://yellowsense-technologies-cleanroom/datasets/A/W/d9/rows.csv" = None.
Proof.
  assert (H : EvStore (BqInsertDataset "A" "d9")
              ∈ events (storageController.uploadFile config Scenario.calm
                          (Some {| originalname := "rows.csv";
                                   path := "uploads/file-1.csv"; size := 120 |})
                          (Some "W") (Some "d9") (Some "dataset") (Some "A")
                          Scenario.prepared))
    by (vm_compute; right; left).
  split; [exact H|].
  destruct (upload_before_metadata config Scenario.calm _ _ _ _ _ _ _ H)
    as (f & rest & Hf & Hupload & _).
  injection Hf as <-. exact Hupload.
Defined.

(** When [POST /upload-url] answers 200, the URL is the one signed for the
    object [{file_type}s/{owner}/{workflow}/{dataset}/{filename}], the path
    in the answer is that object in the configured bucket, and for a dataset
    or a key a row with exactly that path has been recorded in the owner's
    table; for a workload nothing is recorded. *)
Theorem upload_url_recorded (cfg : Config) (env : Env)
    (workflow_id dataset_id filename file_type o : option string) (s : Store)
    (upload_url gcs_path id : string) :
  let r := storageController.generateUploadUrl cfg env workflow_id dataset_id
             filename file_type o s in
  let objectName :=
    as_string file_type +:+ "s/" +:+ as_string o +:+ "/" +:+ as_string workflow_id
      +:+ "/" +:+ as_string dataset_id +:+ "/" +:+ as_string filename in
  outcome r = Ok {| status_code := 200;
                    json := JUploadUrl upload_url gcs_path id |} →
  signed_url env objectName = Ok upload_url
  ∧ gcs_path = storageService.getGcsPath cfg objectName
  ∧ id = as_string workflow_id
  ∧ ((as_string file_type = "dataset"
      ∧ store_after r
        = bigqueryService.insert_dataset_row
            (dataset_row cfg env (as_string workflow_id) (as_string dataset_id)
               (as_string o) (as_string filename)) s
      ∧ d_gcs_path (dataset_row cfg env (as_string workflow_id)
                      (as_string dataset_id) (as_string o) (as_string filename))
        = gcs_path)
     ∨ (as_string file_type = "key"
        ∧ store_after r
          = bigqueryService.insert_key_row
              (key_row cfg env (as_string workflow_id) (as_string dataset_id)
                 (as_string o) (as_string filename)) s
        ∧ k_gcs_path (key_row cfg env (as_string workflow_id)
                        (as_string dataset_id) (as_string o) (as_string filename))
          = gcs_path)
     ∨ (as_string file_type = "workload" ∧ store_after r = s)).
Proof.
  cbv zeta.
  unfold storageController.generateUploadUrl, try_catch, bind, respond, ret,
    storageService.generateUploadUrl.
  destruct (_ || _); [done|]. cbv zeta.
  destruct (negb _) eqn:Htype; [done|].
  apply negb_false_iff, bool_decide_eq_true in Htype.
  destruct (signed_url env _) as [url|e]; cbn [after outcome store_after]; [|done].
  unfold storageController.insertMetadata, bigqueryService.insertDataset,
    bigqueryService.insertKey, try_catch, bigqueryService.bq_write, throw, ret.
  repeat case_bool_decide;
    repeat (destruct (store_fault env _); cbn [after outcome store_after]);
    try done; intros [= <- <- <-]; (split_and!; [done..|]).
  - left. split_and!; [done| |]; by match goal with H : _ = "dataset" |- _ => rewrite H end.
  - right. left. split_and!; [done| |]; by match goal with H : _ = "key" |- _ => rewrite H end.
  - right. right. split; [|done].
    repeat (apply elem_of_cons in Htype as [Htype|Htype]); try done.
    by apply elem_of_nil in Htype.
Qed.

Lemma upload_url_recorded_witness :
  store_after (storageController.generateUploadUrl config Scenario.calm (Some "W")
                 (Some "d9") (Some "rows.enc") (Some "workload") (Some "A")
                 Scenario.prepared)
  = Scenario.prepared.
Proof.
  destruct (upload_url_recorded config Scenario.calm (Some "W") (Some "d9")
              (Some "rows.enc") (Some "workload") (Some "A") Scenario.prepared
              _ _ _ eq_refl) as (_ & _ & _ & [(H & _)|[(H & _)|(_ & H)]]).
  - discriminate H.
  - discriminate H.
  - exact H.
Defined.

(** ** The collaborators recorded with a workflow *)

Section RecordedFacts.
Context (cfg : Config) (env : Env).

Lemma Forall2_filter_ids (workflowId : string) (rows rows' : list Workflow) :
  Forall2 same_but_collaborators rows rows' →
  Forall2 same_but_collaborators
    (filter (λ row, w_workflow_id row = workflowId) rows)
    (filter (λ row, w_workflow_id row = workflowId) rows').
Proof.
  induction 1 as [|row row' rows rows' Hrow _ IH]; [constructor|].
  rewrite !filter_cons. destruct Hrow as (Hid & Hrest). rewrite Hid.
  case_decide; [constructor|]; by try split.
Qed.

Lemma callExecutor_any_store workflow_id creator payload s s' :
  outcome (workflowController.callExecutor cfg env workflow_id creator payload s')
  = outcome (workflowController.callExecutor cfg env workflow_id creator payload s)
  ∧ events (workflowController.callExecutor cfg env workflow_id creator payload s')
    = events (workflowController.callExecutor cfg env workflow_id creator payload s).
Proof.
  rewrite !callExecutor_run. unfold executor_failed.
  by repeat
    match goal with
    | |- context [match ?x with _ => _ end] => destruct x; cbn [outcome events]
    end.
Qed.

Lemma assemble_same s s' workflow_id creator l :
  dataset_rows s' = dataset_rows s → key_rows s' = key_rows s →
  assemble s' workflow_id creator l = assemble s workflow_id creator l.
Proof.
  intros Hd Hk. unfold assemble, owner_tuples, bigqueryService.select_datasets,
    bigqueryService.select_keys. by rewrite Hd, Hk.
Qed.

Lemma find_pointwise {A : Type} (f g : A → bool) (l : list A) :
  (∀ x, f x = g x) → List.find f l = List.find g l.
Proof.
  intros H. induction l as [|x l IH]; [done|]. simpl. by rewrite H, IH.
Qed.

Lemma asked_pointwise (f g : string → bool) l :
  (∀ x, f x = g x) → asked f l = asked g l.
Proof.
  intros H. induction l as [|x l IH]; [done|]. simpl. by rewrite H, IH.
Qed.

Lemma approved_now_same s s' workflow_id c :
  approvals s' = approvals s →
  approved_now env s' workflow_id c = approved_now env s workflow_id c.
Proof.
  intros Ha. unfold approved_now, bigqueryService.select_latest_approval.
  by rewrite Ha.
Qed.

End RecordedFacts.

(** A run never consults the collaborators recorded when the workflow was
    created: on two stores that differ only in those, the same request gets
    the same answer and makes the same calls, to the store and to the
    executor.  The approvals required are those of the collaborators named
    in the request. *)
Theorem run_ignores_recorded_collaborators (cfg : Config) (env : Env)
    (workflow_id : string) (creator : option string)
    (collaborators : option QueryValue) (s s' : Store) :
  same_but_recorded s s' →
  let r := workflowController.runWorkflow cfg env workflow_id creator collaborators s in
  let r' := workflowController.runWorkflow cfg env workflow_id creator collaborators s' in
  outcome r' = outcome r ∧ events r' = events r.
Proof.
  intros (Hw & Ha & Hd & Hk & _). cbv zeta. rewrite !runWorkflow_run.
  destruct (falsy creator || falsy_query collaborators); [done|]. cbv zeta.
  rewrite (find_pointwise _
             (λ c, negb (approved_now env s workflow_id c))
             (workflowController.collaboratorList collaborators))
    by (intros c; by rewrite (approved_now_same env s s')).
  rewrite (asked_pointwise (approved_now env s' workflow_id)
             (approved_now env s workflow_id))
    by (intros c; by apply approved_now_same).
  destruct (List.find _ _); [done|].
  destruct (store_fault env (BqGetWorkflow _ _)); [done|].
  pose proof (Forall2_filter_ids workflow_id _ _ (Hw (as_string creator))) as Hsel.
  fold (bigqueryService.select_workflow workflow_id (as_string creator) s) in Hsel.
  fold (bigqueryService.select_workflow workflow_id (as_string creator) s') in Hsel.
  destruct Hsel as [|workflow workflow' rows rows' (_ & _ & Hpath & _) _];
    cbn [head]; [done|].
  destruct (store_fault env (BqUpdateWorkflowStatus _ _ RUNNING)); [done|].
  destruct (first_read_fault _ _ _); [done|].
  rewrite !assemble_update_status, (assemble_same s s') by done.
  case_bool_decide; [done|]. rewrite Hpath. cbn [outcome events].
  destruct (callExecutor_any_store cfg env workflow_id (as_string creator)
              {| x_workflow_id := workflow_id;
                 workload_gcs := w_workload_path workflow;
                 datasets := assemble s workflow_id (as_string creator)
                               (workflowController.collaboratorList collaborators);
                 result_base :=
                   "gs://" +:+ gcp_bucket cfg +:+ "/results/" +:+ workflow_id
                     +:+ "/result";
                 executed_notebook_base :=
                   "gs://" +:+ gcp_bucket cfg +:+ "/results/" +:+ workflow_id
                     +:+ "/executed" |}
              (bigqueryService.update_status env workflow_id (as_string creator)
                 RUNNING s)
              (bigqueryService.update_status env workflow_id (as_string creator)
                 RUNNING s')) as [-> ->].
  done.
Qed.

Lemma run_ignores_recorded_collaborators_witness :
  outcome (workflowController.runWorkflow config Scenario.calm "W" (Some "A")
             (Some (QString "B")) Alone.prepared_alone)
  = outcome (workflowController.runWorkflow config Scenario.calm "W" (Some "A")
               (Some (QString "B")) Scenario.prepared).
Proof.
  refine (proj1 (run_ignores_recorded_collaborators config Scenario.calm "W"
                   (Some "A") (Some (QString "B")) Scenario.prepared
                   Alone.prepared_alone _)).
  split_and!; [|by vm_compute..].
  intros o.
  assert (workflows Scenario.prepared
          = <["A" := [ {| w_workflow_id := "W"; w_creator := "A";
                          w_collaborators := ["B"; "C"];
                          w_workload_path := workload_fixedPath config;
                          w_status := PENDING_APPROVAL; w_created_at := 1;
                          w_updated_at := None |} ]]> ∅) as ->
    by (by vm_compute).
  assert (workflows Alone.prepared_alone
          = <["A" := [ {| w_workflow_id := "W"; w_creator := "A";
                          w_collaborators := [];
                          w_workload_path := workload_fixedPath config;
                          w_status := PENDING_APPROVAL; w_created_at := 1;
                          w_updated_at := None |} ]]> ∅) as ->
    by (by vm_compute).
  unfold table. destruct (decide (o = "A")) as [->|Ho].
  - rewrite !lookup_insert_eq. repeat constructor.
  - rewrite !lookup_insert_ne, lookup_empty by done. constructor.
Defined.

(** ** One workflow and the others *)

Lemma lookup_update_status env workflowId creator status s o i row :
  table (workflows s) o !! i = Some row →
  o ≠ creator ∨ w_workflow_id row ≠ workflowId →
  table (workflows (bigqueryService.update_status env workflowId creator status s)) o
    !! i = Some row.
Proof.
  intros Hrow Hother. rewrite table_update_status. case_decide as Ho; [|done].
  rewrite list_lookup_fmap, Hrow. cbn. f_equal.
  unfold bigqueryService.set_status. case_decide; [|done].
  destruct Hother; done.
Qed.

Lemma lookup_apply_statuses env workflowId creator statuses s o i row :
  table (workflows s) o !! i = Some row →
  o ≠ creator ∨ w_workflow_id row ≠ workflowId →
  table (workflows (apply_statuses env workflowId creator statuses s)) o !! i
  = Some row.
Proof.
  intros Hrow Hother. revert s Hrow.
  induction statuses as [|status statuses IH]; intros s Hrow; [done|].
  apply IH. by apply lookup_update_status.
Qed.

(** A request whose party names are identifier-like leaves every workflow
    row exactly as it is, status and time of update included, unless it is
    a run of that very workflow by the creator in whose table the row is. *)
Theorem other_workflows_untouched (cfg : Config) (env : Env) (req : Request)
    (s : Store) (o : string) (i : nat) (row : Workflow) :
  safe_request req = true →
  table (workflows s) o !! i = Some row →
  (∀ workflow_id creator collaborators,
     req = PostRun workflow_id creator collaborators →
     o ≠ as_string creator ∨ w_workflow_id row ≠ workflow_id) →
  table (workflows (store_after (handle cfg env req s))) o !! i = Some row.
Proof.
  intros _ Hrow Hother.
  destruct req as [body|workflow_id creator|workflow_id client_id
                  |workflow_id creator collaborators
                  |workflow_id|workflow_id|user_id|user_id
                  |workflow_id dataset_id filename file_type o'
                  |gcs_path|
                  |file workflow_id dataset_id file_type o']; cbn [handle].
  - rewrite createWorkflow_handler_run.
    destruct (_ || _); [done|]. cbv zeta.
    destruct (store_fault env _); [done|].
    cbn [store_after bigqueryService.insert_workflow workflows].
    rewrite table_insert_row. case_decide; [|done]. subst o.
    by apply lookup_app_l_Some.
  - by rewrite getWorkflow_handler_store.
  - rewrite approveWorkflow_handler_run.
    destruct (falsy client_id); [done|]. cbv zeta.
    by destruct (store_fault env _).
  - destruct (runWorkflow_effect cfg env workflow_id creator collaborators s)
      as [->|(statuses & rows & -> & _)]; [done|].
    cbn [apply_effect bigqueryService.insert_results workflows].
    apply lookup_apply_statuses; [done|]. by eapply Hother.
  - by rewrite getWorkflowResults_store.
  - by rewrite getWorkflowLogs_store.
  - by rewrite getAllWorkflows_store.
  - by rewrite getDashboardStats_store.
  - by destruct (generateUploadUrl_store cfg env workflow_id dataset_id filename
                   file_type o' s) as [->|[[? ->]|[? ->]]].
  - by rewrite generateDownloadUrl_store.
  - by rewrite getExecutorPubkey_store.
  - by destruct (uploadFile_store cfg env file workflow_id dataset_id file_type
                   o' s) as [->|[[? ->]|[? ->]]].
Qed.

Lemma other_workflows_untouched_witness :
  table (workflows Scenario.second) "A" !! 0
  = table (workflows (store_after (handle config Scenario.calm
                                     (PostRun "V" (Some "C") (Some (QString "B")))
                                     Scenario.second))) "A" !! 0.
Proof.
  symmetry.
  refine (other_workflows_untouched config Scenario.calm
            (PostRun "V" (Some "C") (Some (QString "B"))) Scenario.second "A" 0
            _ eq_refl _ _).
  - by vm_compute.
  - intros workflow_id creator collaborators [= <- <- <-]. by left.
Defined.

(** ** What an approval does not look at *)

(** An approval request reads nothing: its answer and its one call to the
    store, the insert, are the same in any two stores, so it is accepted
    whether or not the workflow exists, whoever its collaborators are, and
    however often the party has approved already. *)
Theorem approve_checks_nothing (env : Env) (workflow_id : string)
    (client_id : option string) (s s' : Store) :
  let r := workflowController.approveWorkflow env workflow_id client_id s in
  let r' := workflowController.approveWorkflow env workflow_id client_id s' in
  outcome r' = outcome r
  ∧ events r' = events r
  ∧ (events r = []
     ∨ events r = [EvStore (BqApproveWorkflow workflow_id (as_string client_id))]).
Proof.
  cbv zeta. rewrite !approveWorkflow_handler_run.
  destruct (falsy client_id); [by split_and!; [..|left]|]. cbv zeta.
  destruct (store_fault env _); by split_and!; [..|right].
Qed.
